(** * Gesture-driven particle choreography: a shallow embedding

    This development embeds the algorithmic core of the interactive
    Christmas-tree scene (the landmark classifier of [VisionManager], the
    camera rig of [App.tsx], and the distribution generator, morph state and
    instance choreography of [ParticleTree]) and proves the properties its
    specification states about them.

    Conventions.
    - A JavaScript [number] is modelled as a real number: arithmetic is
      exact, there is no rounding, no NaN and no infinity.  Storage into a
      [Float32Array] is the identity.  Where the answer of the code turns on
      rounding (the strict comparison of [isHandOpen]) the code is embedded
      on IEEE binary64 numbers as well ([VisionManager64]).
    - [Math.random()] is modelled by a stream [random : nat -> R] of draws
      in [[0,1)], threaded through the generators by a counter.
    - three.js helpers ([MathUtils.lerp], [Vector3.lerp], ...) are written
      out as the library defines them; calls that build a quaternion
      ([lookAt], [rotateX], [rotateZ]) are kept as symbolic terms.
    - An access [a[i]] beyond the end of an array yields [undefined], and
      reading a field of [undefined] throws: such code returns [None]. *)

From Stdlib Require Import Reals Lra Lia List String ZArith Bool Arith.
From Stdlib Require Floats.
Import ListNotations.

Open Scope R_scope.

(** * Part I: the embedding *)

(** ** JavaScript comparisons and [Math] *)

(** [a > b] as the boolean a JavaScript comparison yields. *)
Definition Rgtb (a b : R) : bool :=
  if Rlt_dec b a then true else false.

Module JSMath.

(** [Math.cbrt]: the real cube root, odd and vanishing at 0. *)
Definition cbrt (a : R) : R :=
  match total_order_T a 0 with
  | inleft (left _) => - Rpower (- a) (/ 3)
  | inleft (right _) => 0
  | inright _ => Rpower a (/ 3)
  end.

(** [Math.atan2(b, a)]: the angle of the point [(a, b)], in [(-PI, PI]]. *)
Definition atan2 (b a : R) : R :=
  match total_order_T a 0 with
  | inright _ => atan (b / a)
  | inleft (left _) =>
      if Rlt_dec b 0 then atan (b / a) - PI else atan (b / a) + PI
  | inleft (right _) =>
      match total_order_T b 0 with
      | inright _ => PI / 2
      | inleft (left _) => - (PI / 2)
      | inleft (right _) => 0
      end
  end.

End JSMath.

(** ** three.js [MathUtils] and [Vector3] *)

Module MathUtils.

(** [lerp(x, y, t) = (1 - t) * x + t * y]: no clamp on [t]. *)
Definition lerp (x y t : R) : R := (1 - t) * x + t * y.

(** [clamp(value, min, max) = Math.max(min, Math.min(max, value))]. *)
Definition clamp (value min max : R) : R := Rmax min (Rmin max value).

(** [mapLinear(x, a1, a2, b1, b2) = b1 + (x - a1) * (b2 - b1) / (a2 - a1)]. *)
Definition mapLinear (x a1 a2 b1 b2 : R) : R :=
  b1 + (x - a1) * (b2 - b1) / (a2 - a1).

End MathUtils.

Record Vector3 : Type := mkVector3 { vx : R; vy : R; vz : R }.

Record Euler : Type := mkEuler { ex : R; ey : R; ez : R }.

Module Vec3.

(** [this.lerp(v, alpha)]: [this.x += (v.x - this.x) * alpha], per axis. *)
Definition lerp (this v : Vector3) (alpha : R) : Vector3 :=
  mkVector3 (vx this + (vx v - vx this) * alpha)
            (vy this + (vy v - vy this) * alpha)
            (vz this + (vz v - vz this) * alpha).

(** [this.length()]: the Euclidean norm. *)
Definition length (v : Vector3) : R :=
  sqrt (vx v * vx v + vy v * vy v + vz v * vz v).

End Vec3.

(** ** The store ([store.ts], [types.ts]) *)

Module Store.

Record TreeState : Type := mkTreeState {
  handX : R;
  handY : R;
  handZ : R;
  isTracking : bool;
  isHandOpen : bool;
  userPhotos : list string
}.

Definition initial : TreeState :=
  mkTreeState (5 / 10) (5 / 10) (5 / 10) false false [].

Definition setHandPosition (x y z : R) (tracking open : bool)
  (s : TreeState) : TreeState :=
  mkTreeState x y z tracking open (userPhotos s).

Definition addUserPhotos (photos : list string) (s : TreeState) : TreeState :=
  mkTreeState (handX s) (handY s) (handZ s) (isTracking s) (isHandOpen s)
              (userPhotos s ++ photos).

End Store.

(** ** The landmark classifier ([VisionManager]) *)

Module VisionManager.

Record NormalizedLandmark : Type := mkLandmark { x : R; y : R; z : R }.

(** One hand: the array of landmarks the landmarker returns for it. *)
Definition HandSample : Type := list NormalizedLandmark.

(** [distSq(p1, p2) = (p1.x - p2.x)^2 + (p1.y - p2.y)^2]. *)
Definition distSq (p1 p2 : NormalizedLandmark) : R :=
  (x p1 - x p2) ^ 2 + (y p1 - y p2) ^ 2.

Record Finger : Type := mkFinger { tip : nat; pip : nat }.

Definition fingerIndices : list Finger :=
  [ mkFinger 8 6; mkFinger 12 10; mkFinger 16 14; mkFinger 20 18 ].

(** The [for (const finger of fingerIndices)] loop, with the running
    counter [openFingers]. *)
Fixpoint countOpenFingers (landmarks : HandSample) (wrist : NormalizedLandmark)
  (fingers : list Finger) (openFingers : nat) : option nat :=
  match fingers with
  | [] => Some openFingers
  | finger :: rest =>
      match nth_error landmarks (tip finger), nth_error landmarks (pip finger) with
      | Some ptip, Some ppip =>
          let distTip := distSq wrist ptip in
          let distPip := distSq wrist ppip in
          countOpenFingers landmarks wrist rest
            (if Rgtb distTip distPip then S openFingers else openFingers)
      | _, _ => None
      end
  end.

Definition isHandOpen (landmarks : HandSample) : option bool :=
  match nth_error landmarks 0 with
  | Some wrist =>
      match countOpenFingers landmarks wrist fingerIndices 0 with
      | Some openFingers => Some (3 <=? openFingers)%nat
      | None => None
      end
  | None => None
  end.

(** What one iteration of the [detect] loop sees: the video clock
    [video.currentTime] and what [results.landmarks] holds once the
    landmarker has run on the frame. *)
Record Iteration : Type := mkIteration {
  currentTime : R;
  landmarks : option (list HandSample)
}.

(** The call made on the store during one iteration, if any. *)
Inductive Emission : Type :=
| NoUpdate
| SetHandPosition (hx hy hz : R) (tracking open : bool).

(** The body of [detect]; [None] is a thrown [TypeError]. *)
Definition detect (c : Iteration) : option Emission :=
  if Rgtb (currentTime c) 0 then
    match landmarks c with
    | Some (hand :: _) =>
        match nth_error hand 9, nth_error hand 0, isHandOpen hand with
        | Some center, Some wrist, Some isOpen =>
            let handX := 1 - x center in
            let handY := y center in
            let dx := x center - x wrist in
            let dy := y center - y wrist in
            let handSize := sqrt (dx * dx + dy * dy) in
            Some (SetHandPosition handX handY handSize true isOpen)
        | _, _, _ => None
        end
    | _ => Some (SetHandPosition (5 / 10) (5 / 10) (5 / 10) false false)
    end
  else Some NoUpdate.

Definition emit (e : Emission) (s : Store.TreeState) : Store.TreeState :=
  match e with
  | NoUpdate => s
  | SetHandPosition hx hy hz tracking open =>
      Store.setHandPosition hx hy hz tracking open s
  end.

(** One iteration of the detection loop acting on the store. *)
Definition detectStep (c : Iteration) (s : Store.TreeState) : option Store.TreeState :=
  match detect c with
  | Some e => Some (emit e s)
  | None => None
  end.

(** The loop: [requestAnimationFrame(detect)] after each iteration, until
    an iteration throws. *)
Fixpoint runLoop (cs : list Iteration) (s : Store.TreeState)
  : option Store.TreeState :=
  match cs with
  | [] => Some s
  | c :: rest =>
      match detectStep c s with
      | Some s' => runLoop rest s'
      | None => None
      end
  end.

End VisionManager.

(** ** The camera rig ([GestureController] in [App.tsx]) *)

Module GestureController.

Record Rig : Type := mkRig {
  cameraPosition : Vector3;
  (* the last [camera.lookAt] call: eye position and target *)
  cameraLookAt : option (Vector3 * Vector3);
  currentPos : Vector3;
  targetPos : Vector3
}.

Definition initial : Rig :=
  mkRig (mkVector3 0 2 14) None (mkVector3 0 2 14) (mkVector3 0 2 14).

(** The target the tracked branch computes from the hand position. *)
Definition gestureTarget (s : Store.TreeState) : Vector3 :=
  let azimuth := (Store.handX s - 5 / 10) * (25 / 10) in
  let elevation := MathUtils.lerp 8 (-2) (Store.handY s) in
  let zInput := MathUtils.clamp (Store.handZ s) (5 / 100) (35 / 100) in
  let distance := MathUtils.mapLinear zInput (5 / 100) (35 / 100) 22 6 in
  mkVector3 (distance * sin azimuth) elevation (distance * cos azimuth).

(** The body of the rig's [useFrame]. *)
Definition frame (s : Store.TreeState) (delta : R) (r : Rig) : Rig :=
  if Store.isTracking s then
    let target := gestureTarget s in
    let current := Vec3.lerp (currentPos r) target (delta * 3) in
    mkRig current (Some (current, mkVector3 0 3 0)) current target
  else
    mkRig (cameraPosition r) (cameraLookAt r) (cameraPosition r) (targetPos r).

(** A run of frames, each with the store snapshot and delta it sees. *)
Definition run (frames : list (Store.TreeState * R)) (r : Rig) : Rig :=
  fold_left (fun r' f => frame (fst f) (snd f) r') frames r.

End GestureController.

(** ** Random draws *)

Module Rand.

(** A computation that consumes draws of [Math.random()]: it receives the
    index of the next draw and returns the index after its last one. *)
Definition t (A : Type) : Type := nat -> A * nat.

Definition ret {A : Type} (a : A) : t A := fun k => (a, k).

Definition bind {A B : Type} (c : t A) (f : A -> t B) : t B :=
  fun k => let (a, k') := c k in f a k'.

(** The body [body i] run for [i = start, start + 1, ...], [n] times, in
    order, collecting the results. *)
Fixpoint forEach {A : Type} (body : nat -> t A) (n start : nat) : t (list A) :=
  match n with
  | O => ret []
  | S n' =>
      bind (body start) (fun a =>
      bind (forEach body n' (S start)) (fun rest =>
      ret (a :: rest)))
  end.

End Rand.

Notation "x <- c ;; k" := (Rand.bind c (fun x => k))
  (at level 61, c at next level, right associativity).

(** ** The distribution generator and choreographer ([ParticleTree]) *)

Module ParticleTree.

Definition GOLDEN_ANGLE : R := PI * (3 - sqrt 5).
Definition TREE_HEIGHT : R := 7.
Definition TREE_WIDTH : R := 35 / 10.

(** [getTreePos(t, theta, height, width)]: a point of the cone shell. *)
Definition getTreePos (t theta height width : R) : Vector3 :=
  let y := height * t - height / 2 in
  let radius := width * (1 - t) in
  let x := radius * cos theta in
  let z := radius * sin theta in
  mkVector3 x y z.

Section Generators.

Variable random : nat -> R.

Definition Math_random : Rand.t R := fun k => (random k, S k).

(** [getChaosPos(scale, minRatio)]: a point of the random sphere. *)
Definition getChaosPos (scale minRatio : R) : Rand.t Vector3 :=
  u1 <- Math_random ;;
  let theta := u1 * PI * 2 in
  u2 <- Math_random ;;
  let phi := acos (2 * u2 - 1) in
  let minVol := minRatio ^ 3 in
  u3 <- Math_random ;;
  let rRandom := u3 * (1 - minVol) + minVol in
  let r := JSMath.cbrt rRandom * scale in
  Rand.ret (mkVector3 (r * sin phi * cos theta)
                      (r * sin phi * sin theta)
                      (r * cos phi)).

(** One foliage particle: formed position, chaos position, seed. *)
Record Particle : Type := mkParticle {
  aTargetPos : Vector3;
  aChaosPos : Vector3;
  aRandom : R
}.

(** The body of the [for] loop of [Foliage], for index [i] of [count]. *)
Definition foliageParticle (count i : nat) : Rand.t Particle :=
  let t := 1 - sqrt ((INR i + 1) / (INR count + 1)) in
  let theta := INR i * GOLDEN_ANGLE in
  let tPos := getTreePos t theta TREE_HEIGHT TREE_WIDTH in
  let noiseAmp := 5 / 100 in
  n1 <- Math_random ;;
  n2 <- Math_random ;;
  n3 <- Math_random ;;
  let tPos' := mkVector3 (vx tPos + (n1 - 5 / 10) * noiseAmp)
                         (vy tPos + (n2 - 5 / 10) * noiseAmp)
                         (vz tPos + (n3 - 5 / 10) * noiseAmp) in
  cPos <- getChaosPos 25 (5 / 10) ;;
  seed <- Math_random ;;
  Rand.ret (mkParticle tPos' cPos seed).

(** The particle arrays [Foliage] builds for [count] particles. *)
Definition foliage (count : nat) : Rand.t (list Particle) :=
  Rand.forEach (foliageParticle count) count 0.

(** The data of one photo panel. *)
Record PolaroidData : Type := mkPolaroidData {
  target : Vector3;
  chaos : Vector3;
  tiltX : R;
  tiltZ : R
}.

Definition polaroidData (count i : nat) : Rand.t PolaroidData :=
  let t := 1 - sqrt ((INR i + 1) / (INR count + 1)) in
  let theta := INR i * GOLDEN_ANGLE in
  let tgt := getTreePos t theta TREE_HEIGHT (TREE_WIDTH * (11 / 10)) in
  cPos <- getChaosPos 12 0 ;;
  tx <- Math_random ;;
  tz <- Math_random ;;
  Rand.ret (mkPolaroidData tgt cPos ((tx - 5 / 10) * (5 / 10))
                                    ((tz - 5 / 10) * (5 / 10))).

End Generators.

(** [count] of [Foliage]. *)
#[warnings="-abstract-large-number"]
Definition foliageCount : nat := 9000.

(** [count] of [Polaroids]. *)
Definition polaroidCount : nat := 48.

End ParticleTree.

(** ** Instance-level objects *)

(** [GiftBox]: its props, the group it drives and its [useFrame]. *)
Module GiftBox.

Record Props : Type := mkProps {
  target : Vector3;
  chaos : Vector3;
  scale : R;
  rot : Euler
}.

Record Group : Type := mkGroup {
  position : Vector3;
  rotation : Euler;
  groupScale : R
}.

Record State : Type := mkState {
  groupRef : option Group;
  currentPos : Vector3
}.

(** [currentPos = useRef(target.clone())]; the group is not mounted yet. *)
Definition initial (p : Props) : State := mkState None (target p).

(** The destination of the position lerp. *)
Definition dest (p : Props) (progress : R) : Vector3 :=
  if Rgtb progress (5 / 10) then chaos p else target p.

Definition frame (p : Props) (progress delta : R) (st : State) : State :=
  match groupRef st with
  | None => st
  | Some g =>
      let current := Vec3.lerp (currentPos st) (dest p progress) (delta * (25 / 10)) in
      let r := rotation g in
      let rotation' :=
        if Rgtb progress (2 / 10) then
          mkEuler (ex r + delta * (5 / 10)) (ey r + delta * (5 / 10)) (ez r)
        else
          mkEuler (MathUtils.lerp (ex r) (ex (rot p)) (delta * 5))
                  (MathUtils.lerp (ey r) (ey (rot p)) (delta * 5))
                  (MathUtils.lerp (ez r) (ez (rot p)) (delta * 5)) in
      let s := scale p * (1 + progress * (3 / 10)) in
      mkState (Some (mkGroup current rotation' s)) current
  end.

End GiftBox.

(** [OrnamentInstance]. *)
Module OrnamentInstance.

Record Data : Type := mkData {
  target : Vector3;
  chaos : Vector3;
  scale : R
}.

Record Instance : Type := mkInstance {
  position : Vector3;
  rotation : Euler;
  instanceScale : Vector3
}.

Record State : Type := mkState {
  ref : option Instance;
  currentPos : Vector3
}.

Definition initial (d : Data) : State := mkState None (target d).

Definition dest (d : Data) (progress : R) : Vector3 :=
  if Rgtb progress (5 / 10) then chaos d else target d.

Definition frame (d : Data) (scaleBase progress delta : R) (st : State) : State :=
  match ref st with
  | None => st
  | Some inst =>
      let current := Vec3.lerp (currentPos st) (dest d progress) (delta * 3) in
      let s := scaleBase * scale d * (1 - progress * (3 / 10)) in
      let r := rotation inst in
      mkState (Some (mkInstance current
                                (mkEuler (ex r + delta) (ey r + delta) (ez r))
                                (mkVector3 s s s)))
              current
  end.

End OrnamentInstance.

(** [SinglePolaroid]: a photo panel. *)
Module SinglePolaroid.

(** The orientation of the panel, as the sequence of three.js calls that
    set it. *)
Inductive Orientation : Type :=
| RotationSet (rx ry rz : R)
| LookAt (point : Vector3)
| RotateX (o : Orientation) (angle : R)
| RotateZ (o : Orientation) (angle : R).

Record Group : Type := mkGroup {
  position : Vector3;
  groupScale : R;
  orientation : Orientation
}.

Record State : Type := mkState {
  groupRef : option Group;
  currentPos : Vector3
}.

Definition initial (d : ParticleTree.PolaroidData) : State :=
  mkState None (ParticleTree.target d).

Definition dest (d : ParticleTree.PolaroidData) (progress : R) : Vector3 :=
  if Rgtb progress (5 / 10) then ParticleTree.chaos d else ParticleTree.target d.

(** The body of [useFrame]; [camera] is [state.camera.position]. *)
Definition frame (d : ParticleTree.PolaroidData) (camera : Vector3)
  (progress delta : R) (st : State) : State :=
  match groupRef st with
  | None => st
  | Some g =>
      let current := Vec3.lerp (currentPos st) (dest d progress) (delta * 2) in
      let targetScale := if Rgtb progress (5 / 10) then 2 else 1 in
      let newScale := MathUtils.lerp (groupScale g) targetScale (delta * 3) in
      let orientation' :=
        if Rgtb progress (5 / 10) then
          RotateZ (RotateX (LookAt camera) (ParticleTree.tiltX d))
                  (ParticleTree.tiltZ d)
        else
          let angle := JSMath.atan2 (vx current) (vz current) in
          RotationSet 0 angle 0 in
      mkState (Some (mkGroup current newScale orientation')) current
  end.

(** What the panel shows inside its frame. *)
Inductive Content : Type :=
| PhotoPlane (url : string)
| Placeholder.

(** [photoUrl ? <PhotoPlane url={photoUrl} /> : <mesh ... />]: [null] and
    the empty string are falsy. *)
Definition content (photoUrl : option string) : Content :=
  match photoUrl with
  | Some url => if String.eqb url EmptyString then Placeholder else PhotoPlane url
  | None => Placeholder
  end.

End SinglePolaroid.

(** [Polaroids]: the panel data and the binding of photos to the slots. *)
Module Polaroids.

(** The [data] array: one entry per slot, built once. *)
Definition data (random : nat -> R) : Rand.t (list ParticleTree.PolaroidData) :=
  Rand.forEach (ParticleTree.polaroidData random ParticleTree.polaroidCount)
               ParticleTree.polaroidCount 0.

(** [userPhotos.length > 0 ? userPhotos[i % userPhotos.length] : null]. *)
Definition photoUrl (userPhotos : list string) (i : nat) : option string :=
  if (0 <? List.length userPhotos)%nat
  then nth_error userPhotos (i mod List.length userPhotos)
  else None.

(** One rendered [SinglePolaroid]: its props and what it shows. *)
Record Slot : Type := mkSlot {
  slotData : ParticleTree.PolaroidData;
  slotPhotoUrl : option string;
  slotContent : SinglePolaroid.Content
}.

(** [data.map((d, i) => <SinglePolaroid data={d} photoUrl={photoUrl} />)]. *)
Definition render (panels : list ParticleTree.PolaroidData)
  (userPhotos : list string) : list Slot :=
  map (fun id => let url := photoUrl userPhotos (fst id) in
                 mkSlot (snd id) url (SinglePolaroid.content url))
      (combine (seq 0 (List.length panels)) panels).

End Polaroids.

(** ** Morph state ([LuxuryTree]) *)

Module LuxuryTree.

(** One render tick: the frame delta and the gesture flag read from the
    store. *)
Record Tick : Type := mkTick { delta : R; isHandOpen : bool }.

(** The body of [useFrame] acting on [progressRef.current]:
    [target = isHandOpen ? 1 : 0] and
    [progress = lerp(progress, target, delta * 2.0)]. *)
Definition frame (progress : R) (tk : Tick) : R :=
  let target := if isHandOpen tk then 1 else 0 in
  MathUtils.lerp progress target (delta tk * 2).

(** [progressRef = useRef(0)]. *)
Definition progress0 : R := 0.

(** The stored scalar after a sequence of ticks. *)
Definition run (ticks : list Tick) (progress : R) : R :=
  fold_left frame ticks progress.

(** [n] ticks at a fixed delta with the hand held open. *)
Definition heldOpen (n : nat) (dt : R) : list Tick :=
  repeat (mkTick dt true) n.

End LuxuryTree.

(** ** The morph update on IEEE binary64 numbers

    The same update on the numbers JavaScript computes with, used to replay
    the concrete scenarios below without the idealisation to reals. *)

Module Binary64.
Import Floats.

Definition lerp (x y t : float) : float := ((1 - t) * x + t * y)%float.

Record Tick : Type := mkTick { delta : float; isHandOpen : bool }.

Definition frame (progress : float) (tk : Tick) : float :=
  let target := if isHandOpen tk then 1%float else 0%float in
  lerp progress target (delta tk * 2)%float.

Definition run (ticks : list Tick) (progress : float) : float :=
  fold_left frame ticks progress.

Definition heldOpen (n : nat) (dt : float) : list Tick :=
  repeat (mkTick dt true) n.

End Binary64.

(** ** Vocabulary of the specification *)

Module Spec.
Import VisionManager.

(** Landmark [i] of a hand sample. *)
Definition landmark (lm : HandSample) (i : nat) : NormalizedLandmark :=
  nth i lm (mkLandmark 0 0 0).

(** The squared distance of two landmarks on the screen: the sum of the
    squares of their differences in [x] and in [y]. *)
Definition squaredDistance (p q : NormalizedLandmark) : R :=
  (x q - x p) * (x q - x p) + (y q - y p) * (y q - y p).

(** A finger is extended when its tip is strictly farther from the wrist
    (landmark 0) than its PIP joint, in squared distance. *)
Definition extended (lm : HandSample) (tipIdx pipIdx : nat) : Prop :=
  squaredDistance (landmark lm 0) (landmark lm pipIdx)
  < squaredDistance (landmark lm 0) (landmark lm tipIdx).

Definition indexExtended (lm : HandSample) : Prop := extended lm 8 6.
Definition middleExtended (lm : HandSample) : Prop := extended lm 12 10.
Definition ringExtended (lm : HandSample) : Prop := extended lm 16 14.
Definition pinkyExtended (lm : HandSample) : Prop := extended lm 20 18.

(** What the classifier's loop adds to its counter for one finger of a
    full sample. *)
Definition fingerBit (lm : HandSample) (tipIdx pipIdx : nat) : nat :=
  if Rgtb (distSq (landmark lm 0) (landmark lm tipIdx))
          (distSq (landmark lm 0) (landmark lm pipIdx))
  then 1%nat else 0%nat.

(** At least three of the four fingers are extended. *)
Definition atLeastThreeExtended (lm : HandSample) : Prop :=
  (indexExtended lm /\ middleExtended lm /\ ringExtended lm)
  \/ (indexExtended lm /\ middleExtended lm /\ pinkyExtended lm)
  \/ (indexExtended lm /\ ringExtended lm /\ pinkyExtended lm)
  \/ (middleExtended lm /\ ringExtended lm /\ pinkyExtended lm).

(** Two samples have the same wrist-to-landmark squared distances at the
    eight landmarks the classifier reads. *)
Definition sameDistances (lm lm' : HandSample) : Prop :=
  Forall (fun i => squaredDistance (landmark lm 0) (landmark lm i)
                   = squaredDistance (landmark lm' 0) (landmark lm' i))
         [6; 8; 10; 12; 14; 16; 18; 20]%nat.

(** Two landmarks agree on their screen coordinates. *)
Definition sameXY (a b : NormalizedLandmark) : Prop :=
  x a = x b /\ y a = y b.

(** The landmarker ran on this iteration's frame. *)
Definition detectionCycle (c : Iteration) : Prop := 0 < currentTime c.

(** The landmarker found no hand. *)
Definition noHand (c : Iteration) : Prop :=
  landmarks c = None \/ landmarks c = Some [].

(** A panel turned by [yaw] about the vertical axis has its front normal
    along [(sin yaw, 0, cos yaw)].  It faces outward from the tree axis at
    [pos] when that normal, scaled by the distance of [pos] from the axis,
    is the horizontal part of [pos]. *)
Definition facesOutward (pos : Vector3) (yaw : R) : Prop :=
  let radial := sqrt (vx pos * vx pos + vz pos * vz pos) in
  sin yaw * radial = vx pos /\ cos yaw * radial = vz pos.

(** The neutral signal: position (0.5, 0.5, 0.5), untracked, closed. *)
Definition neutral : Emission :=
  SetHandPosition (5 / 10) (5 / 10) (5 / 10) false false.

End Spec.

(** ** Sample inputs *)

Module Samples.
Import VisionManager.

(** An open palm held upright in front of the camera (the image [y] axis
    points down, the wrist is at the bottom). *)
Definition openPalm : HandSample :=
  [ mkLandmark (50 / 100) (90 / 100) 0;
    mkLandmark (40 / 100) (85 / 100) (- 2 / 100);
    mkLandmark (33 / 100) (78 / 100) (- 3 / 100);
    mkLandmark (28 / 100) (70 / 100) (- 4 / 100);
    mkLandmark (24 / 100) (63 / 100) (- 5 / 100);
    mkLandmark (42 / 100) (60 / 100) (- 1 / 100);
    mkLandmark (40 / 100) (48 / 100) (- 2 / 100);
    mkLandmark (39 / 100) (40 / 100) (- 3 / 100);
    mkLandmark (38 / 100) (33 / 100) (- 4 / 100);
    mkLandmark (50 / 100) (58 / 100) (- 1 / 100);
    mkLandmark (50 / 100) (45 / 100) (- 2 / 100);
    mkLandmark (50 / 100) (36 / 100) (- 3 / 100);
    mkLandmark (50 / 100) (28 / 100) (- 4 / 100);
    mkLandmark (57 / 100) (60 / 100) (- 1 / 100);
    mkLandmark (59 / 100) (48 / 100) (- 2 / 100);
    mkLandmark (60 / 100) (40 / 100) (- 3 / 100);
    mkLandmark (61 / 100) (33 / 100) (- 4 / 100);
    mkLandmark (63 / 100) (65 / 100) (- 1 / 100);
    mkLandmark (66 / 100) (56 / 100) (- 2 / 100);
    mkLandmark (68 / 100) (50 / 100) (- 3 / 100);
    mkLandmark (70 / 100) (44 / 100) (- 4 / 100) ].

(** A fist: the four fingertips are curled back towards the wrist. *)
Definition fist : HandSample :=
  [ mkLandmark (50 / 100) (90 / 100) 0;
    mkLandmark (40 / 100) (85 / 100) (- 2 / 100);
    mkLandmark (35 / 100) (78 / 100) (- 3 / 100);
    mkLandmark (38 / 100) (72 / 100) (- 4 / 100);
    mkLandmark (44 / 100) (70 / 100) (- 5 / 100);
    mkLandmark (42 / 100) (60 / 100) (- 1 / 100);
    mkLandmark (41 / 100) (52 / 100) (- 6 / 100);
    mkLandmark (43 / 100) (58 / 100) (- 8 / 100);
    mkLandmark (44 / 100) (66 / 100) (- 7 / 100);
    mkLandmark (50 / 100) (58 / 100) (- 1 / 100);
    mkLandmark (50 / 100) (50 / 100) (- 6 / 100);
    mkLandmark (50 / 100) (57 / 100) (- 8 / 100);
    mkLandmark (50 / 100) (66 / 100) (- 7 / 100);
    mkLandmark (57 / 100) (60 / 100) (- 1 / 100);
    mkLandmark (58 / 100) (52 / 100) (- 6 / 100);
    mkLandmark (57 / 100) (58 / 100) (- 8 / 100);
    mkLandmark (56 / 100) (66 / 100) (- 7 / 100);
    mkLandmark (63 / 100) (65 / 100) (- 1 / 100);
    mkLandmark (64 / 100) (58 / 100) (- 6 / 100);
    mkLandmark (62 / 100) (63 / 100) (- 8 / 100);
    mkLandmark (61 / 100) (70 / 100) (- 7 / 100) ].

(** The same hand with every relative depth replaced by [d]. *)
Definition atDepth (d : R) (lm : HandSample) : HandSample :=
  map (fun p => mkLandmark (x p) (y p) d) lm.

(** A frame of a running video on which the landmarker finds no hand. *)
Definition emptyFrame : Iteration := mkIteration 1 (Some []).

(** A frame of a running video showing the open palm. *)
Definition palmFrame : Iteration := mkIteration 1 (Some [openPalm]).

(** A store snapshot with no hand tracked. *)
Definition untracked : Store.TreeState := Store.initial.

(** A store snapshot with an open hand tracked at the screen centre. *)
Definition tracked : Store.TreeState :=
  Store.mkTreeState (5 / 10) (5 / 10) (2 / 10) true true [].

End Samples.

(** ** The rest of the scene *)

(** More of JavaScript's [Math] and of array indexing. *)
Module JS.

(** [Math.floor]. *)
Definition floor (a : R) : Z := Int_part a.

(** [arr[i]] for an integer-valued number [i]: [undefined] outside the
    array. *)
Definition arrayGet {A : Type} (arr : list A) (i : Z) : option A :=
  if (i <? 0)%Z then None else nth_error arr (Z.to_nat i).

(** [a < b]. *)
Definition Rltb (a b : R) : bool := Rgtb b a.

End JS.

(** More of three.js [Vector3]. *)
Module Vector3Ops.

Definition add (a b : Vector3) : Vector3 :=
  mkVector3 (vx a + vx b) (vy a + vy b) (vz a + vz b).

Definition sub (a b : Vector3) : Vector3 :=
  mkVector3 (vx a - vx b) (vy a - vy b) (vz a - vz b).

Definition multiplyScalar (v : Vector3) (k : R) : Vector3 :=
  mkVector3 (vx v * k) (vy v * k) (vz v * k).

(** [divideScalar(s) = multiplyScalar(1 / s)]. *)
Definition divideScalar (v : Vector3) (k : R) : Vector3 :=
  multiplyScalar v (1 / k).

(** [normalize() = divideScalar(length() || 1)]: the zero vector stays
    zero. *)
Definition normalize (v : Vector3) : Vector3 :=
  divideScalar v (if Req_dec_T (Vec3.length v) 0 then 1 else Vec3.length v).

End Vector3Ops.

(** [compressImage] of [App.tsx]: what is drawn on the canvas. *)
Module CompressImage.

Record Image : Type := mkImage { width : R; height : R; src : string }.

(** [ctx.drawImage(img, sx, sy, sWidth, sHeight, dx, dy, dWidth, dHeight)]
    on a canvas of the given size, then [toDataURL('image/jpeg', quality)];
    or the image's own [src] when the canvas has no 2D context. *)
Inductive Result : Type :=
| Jpeg (canvasWidth canvasHeight sx sy sWidth sHeight dx dy dWidth dHeight
        quality : R)
| Original (url : string).

Definition MAX_SIZE : R := 512.

Definition compressImage (img : Image) (hasContext : bool) : Result :=
  if hasContext then
    let sSize := Rmin (width img) (height img) in
    let sx := (width img - sSize) / 2 in
    let sy := (height img - sSize) / 2 in
    Jpeg MAX_SIZE MAX_SIZE sx sy sSize sSize 0 0 MAX_SIZE MAX_SIZE (7 / 10)
  else Original (src img).

End CompressImage.

(** The GLSL vertex shaders: the position they give a particle before the
    model-view and projection matrices.  [pow(b, 3.0)] is [b ^ 3]; GLSL
    leaves it undefined for [b < 0], that is for [uProgress > 1]. *)
Module Shaders.

Definition easeOutCubic (a : R) : R := 1 - (1 - a) ^ 3.

(** GLSL [mix(a, b, m) = a * (1 - m) + b * m]. *)
Definition mix (a b m : R) : R := a * (1 - m) + b * m.

Definition mix3 (a b : Vector3) (m : R) : Vector3 :=
  mkVector3 (mix (vx a) (vx b) m) (mix (vy a) (vy b) m) (mix (vz a) (vz b) m).

(** [foliageVertexShader]. *)
Definition foliagePosition (uTime uProgress : R)
  (aTargetPos aChaosPos : Vector3) (aRandom : R) : Vector3 :=
  let mixFactor := easeOutCubic uProgress in
  let pos := mix3 aTargetPos aChaosPos mixFactor in
  let sway := sin (uTime * (15 / 10) + vy pos * 2) * (3 / 100) * (1 - mixFactor) in
  let floaty := sin (uTime + aRandom * 20) * (15 / 100) * mixFactor in
  mkVector3 (vx pos + (sway + floaty)) (vy pos + floaty) (vz pos + floaty).

(** [textVertexShader]. *)
Definition textPosition (uTime uProgress : R)
  (aTargetPos aChaosPos : Vector3) (aRandom : R) : Vector3 :=
  let mixFactor := easeOutCubic uProgress in
  let pos := mix3 aTargetPos aChaosPos mixFactor in
  let sway := sin (uTime + vx pos) * (2 / 100) * (1 - mixFactor) in
  let pos1 := mkVector3 (vx pos) (vy pos + sway) (vz pos) in
  if Rgtb mixFactor (1 / 100) then
    let jitter := (aRandom - 5 / 10) * mixFactor * 5 in
    mkVector3 (vx pos1 + jitter) (vy pos1 + jitter) (vz pos1 + jitter)
  else pos1.

End Shaders.

(** The [useFrame] of [Foliage] and of [ParticleText]: the shader uniforms
    follow the clock and the morph progress. *)
Module PointsUniforms.

Record Uniforms : Type := mkUniforms { uTime : R; uProgress : R }.

Definition initial : Uniforms := mkUniforms 0 0.

(** One frame, seeing the clock's [elapsedTime] and [progressRef.current]. *)
Record Frame : Type := mkFrame { elapsedTime : R; progress : R }.

Definition frame (mounted : bool) (u : Uniforms) (f : Frame) : Uniforms :=
  if mounted then
    mkUniforms (elapsedTime f)
               (MathUtils.lerp (uProgress u) (progress f) (1 / 10))
  else u.

Definition run (mounted : bool) (frames : list Frame) (u : Uniforms) : Uniforms :=
  fold_left (frame mounted) frames u.

End PointsUniforms.

(** [HolyStar]. *)
Module HolyStar.

Definition points : nat := 5.
Definition outerRadius : R := 5 / 10.
Definition innerRadius : R := 2 / 10.

Inductive PathCommand : Type :=
| MoveTo (px py : R)
| LineTo (px py : R)
| ClosePath.

(** The body of the loop that traces the star, for index [i]. *)
Definition corner (i : nat) : PathCommand :=
  let r := if (i mod 2 =? 0)%nat then outerRadius else innerRadius in
  let a := INR i / INR points * PI in
  let px := r * sin a in
  let py := r * cos a in
  if (i =? 0)%nat then MoveTo px py else LineTo px py.

Definition starShape : list PathCommand :=
  map corner (seq 0 (points * 2)) ++ [ClosePath].

Record Group : Type := mkGroup { rotation : Euler; scale : R }.

Record Frame : Type := mkFrame {
  elapsedTime : R;
  delta : R;
  progress : R
}.

Definition frame (g : option Group) (f : Frame) : option Group :=
  match g with
  | None => None
  | Some grp =>
      let r := rotation grp in
      let targetScale := 1 + progress f * (5 / 10) in
      let newScale := MathUtils.lerp (scale grp) targetScale (delta f * 3) in
      Some (mkGroup (mkEuler (ex r)
                             (ey r + delta f * (5 / 10))
                             (sin (elapsedTime f * 2) * (5 / 100)))
                    newScale)
  end.

Definition run (frames : list Frame) (g : option Group) : option Group :=
  fold_left frame frames g.

End HolyStar.

(** [ParticleText]: the particles sampled on the text geometry. *)
Module ParticleText.

Section Generators.

Variable random : nat -> R.

(** [sampler.sample(tempPos)]: a point of the centred text surface; the
    sampler draws from [Math.random()] as well. *)
Variable sample : Rand.t Vector3.

Definition particle : Rand.t ParticleTree.Particle :=
  tempPos <- sample ;;
  u1 <- ParticleTree.Math_random random ;;
  u2 <- ParticleTree.Math_random random ;;
  u3 <- ParticleTree.Math_random random ;;
  let direction :=
    Vector3Ops.normalize (mkVector3 (u1 - 5 / 10) (u2 - 5 / 10) (u3 - 5 / 10)) in
  u4 <- ParticleTree.Math_random random ;;
  let scatter := Vector3Ops.multiplyScalar direction (u4 * 20 + 8) in
  u5 <- ParticleTree.Math_random random ;;
  Rand.ret (ParticleTree.mkParticle tempPos (Vector3Ops.add tempPos scatter) u5).

(** The loop over [count = density] particles. *)
Definition particles (density : nat) : Rand.t (list ParticleTree.Particle) :=
  Rand.forEach (fun _ => particle) density 0.

End Generators.

End ParticleText.

(** [DynamicGifts]: the data of the gift boxes. *)
Module DynamicGifts.

Definition count : nat := 140.

Definition palettes : list (string * string) :=
  [ ("#b30000", "#ffbf00"); ("#005500", "#b30000"); ("#f0f0f0", "#b30000");
    ("#b30000", "#f0f0f0"); ("#002244", "#c0c0c0"); ("#ffbf00", "#f0f0f0") ]%string.

Record Gift : Type := mkGift {
  props : GiftBox.Props;
  boxColor : string;
  ribbonColor : string
}.

Section Generators.

Variable random : nat -> R.

(** The base pile: a ring around the foot of the tree. *)
Definition basePile : Rand.t Vector3 :=
  u1 <- ParticleTree.Math_random random ;;
  let angle := u1 * PI * 2 in
  u2 <- ParticleTree.Math_random random ;;
  let r := u2 * (22 / 10) + 12 / 10 in
  let px := cos angle * r in
  let pz := sin angle * r in
  u3 <- ParticleTree.Math_random random ;;
  let py := - ParticleTree.TREE_HEIGHT / 2 + u3 * (8 / 10) - 2 / 10 in
  Rand.ret (mkVector3 px py pz).

(** The interior fill: inside the cone, up to 75% of its height. *)
Definition interiorFill : Rand.t Vector3 :=
  u1 <- ParticleTree.Math_random random ;;
  let t := u1 * (75 / 100) in
  let py := ParticleTree.TREE_HEIGHT * t - ParticleTree.TREE_HEIGHT / 2 in
  let maxR := ParticleTree.TREE_WIDTH * (85 / 100) * (1 - t) in
  u2 <- ParticleTree.Math_random random ;;
  let r := sqrt u2 * maxR in
  u3 <- ParticleTree.Math_random random ;;
  let theta := u3 * PI * 2 in
  Rand.ret (mkVector3 (r * cos theta) py (r * sin theta)).

(** The body of the [map] for index [i]; [None] is the [TypeError] of
    reading [theme.box] on [undefined]. *)
Definition gift (i : nat) : Rand.t (option Gift) :=
  let isBase := JS.Rltb (INR i) (INR count / 2) in
  targetPos <- (if isBase then basePile else interiorFill) ;;
  chaosPos <- ParticleTree.getChaosPos random 25 (2 / 10) ;;
  u1 <- ParticleTree.Math_random random ;;
  let scale := u1 * (4 / 10) + 3 / 10 in
  u2 <- ParticleTree.Math_random random ;;
  let theme := JS.arrayGet palettes (JS.floor (u2 * INR (List.length palettes))) in
  u3 <- ParticleTree.Math_random random ;;
  u4 <- ParticleTree.Math_random random ;;
  u5 <- ParticleTree.Math_random random ;;
  let rot := mkEuler (u3 * (5 / 10)) (u4 * PI * 2) (u5 * (5 / 10)) in
  Rand.ret (match theme with
            | Some (box, ribbon) =>
                Some (mkGift (GiftBox.mkProps targetPos chaosPos scale rot)
                             box ribbon)
            | None => None
            end).

Definition gifts : Rand.t (list (option Gift)) :=
  Rand.forEach gift count 0.

End Generators.

End DynamicGifts.

(** [OrnamentLayer]: the data of one layer of ornaments. *)
Module OrnamentLayer.


Section Generators.

Variable random : nat -> R.




End Generators.

End OrnamentLayer.

(** Distances used to state where things are. *)
Module Geometry.

(** The distance of a point from the vertical axis of the tree. *)
Definition axisDistance (v : Vector3) : R := sqrt (vx v * vx v + vz v * vz v).

(** [c] lies between [a] and [b], whichever is larger. *)
Definition between (a b c : R) : Prop := Rmin a b <= c <= Rmax a b.

(** Every coordinate of [c] lies between those of [a] and [b]. *)
Definition inBox (a b c : Vector3) : Prop :=
  between (vx a) (vx b) (vx c) /\ between (vy a) (vy b) (vy c)
  /\ between (vz a) (vz b) (vz c).

End Geometry.

(** Vocabulary for the morph progress. *)
Module MorphSpec.

(** The same ticks with every gesture flag flipped. *)
Definition flipTicks (ticks : list LuxuryTree.Tick) : list LuxuryTree.Tick :=
  map (fun tk => LuxuryTree.mkTick (LuxuryTree.delta tk)
                                   (negb (LuxuryTree.isHandOpen tk)))
      ticks.

(** The value the morph progress is driven to by a gesture flag. *)
Definition morphTarget (open : bool) : R := if open then 1 else 0.

End MorphSpec.

(** Vocabulary for the ornament and gift placement. *)
Module PlacementSpec.

(** The radius of the cone of base radius [width] at the height of [v]. *)
Definition coneRadiusAt (width : R) (v : Vector3) : R :=
  width * (1 - (vy v + ParticleTree.TREE_HEIGHT / 2) / ParticleTree.TREE_HEIGHT).

(** The three direction draws of a text particle are all exactly 0.5. *)
Definition degenerateDirection (random : nat -> R) (k : nat) : Prop :=
  random k = 5 / 10 /\ random (k + 1)%nat = 5 / 10
  /\ random (k + 2)%nat = 5 / 10.

End PlacementSpec.

(** Vocabulary for the shader positions. *)
Module ShaderSpec.

(** The blend of the two stored positions the shaders start from. *)
Definition blend (uProgress : R) (aTargetPos aChaosPos : Vector3) : Vector3 :=
  Shaders.mix3 aTargetPos aChaosPos (Shaders.easeOutCubic uProgress).

(** A sample input of the text sampler: a fixed point, one draw taken. *)
Definition fixedSample (p : Vector3) : Rand.t Vector3 := fun k => (p, S k).

End ShaderSpec.

(** Vocabulary for the star's frames. *)
Module StarSpec.

(** The time a run of frames covers: the sum of their deltas. *)
Definition totalDelta (frames : list HolyStar.Frame) : R :=
  fold_right (fun f acc => HolyStar.delta f + acc) 0 frames.

(** The star group as it is mounted: no rotation, scale 1. *)
Definition mounted : HolyStar.Group := HolyStar.mkGroup (mkEuler 0 0 0) 1.

End StarSpec.

(** ** The classifier on binary64 numbers

    [isHandOpen] compares squared distances that JavaScript computes in
    IEEE binary64: each difference, each square and the sum is rounded to
    nearest.  On hands where a tip and its PIP joint are almost equally far
    from the wrist the rounded comparison differs from the exact one, so the
    classifier is embedded here on the numbers it runs on. *)

Module VisionManager64.
Import Floats.

Record NormalizedLandmark : Type := mkLandmark { x : float; y : float; z : float }.

Definition HandSample : Type := list NormalizedLandmark.

(** [Math.pow(a, 2)]: the engines return the rounded product [a * a]. *)
Definition pow2 (a : float) : float := (a * a)%float.

(** [distSq(p1, p2) = Math.pow(p1.x - p2.x, 2) + Math.pow(p1.y - p2.y, 2)]. *)
Definition distSq (p1 p2 : NormalizedLandmark) : float :=
  (pow2 (x p1 - x p2) + pow2 (y p1 - y p2))%float.

(** [a > b] on binary64 numbers. *)
Definition gtb (a b : float) : bool := PrimFloat.ltb b a.

(** The [for (const finger of fingerIndices)] loop, with the running
    counter [openFingers]. *)
Fixpoint countOpenFingers (landmarks : HandSample) (wrist : NormalizedLandmark)
  (fingers : list VisionManager.Finger) (openFingers : nat) : option nat :=
  match fingers with
  | [] => Some openFingers
  | finger :: rest =>
      match nth_error landmarks (VisionManager.tip finger),
            nth_error landmarks (VisionManager.pip finger) with
      | Some ptip, Some ppip =>
          let distTip := distSq wrist ptip in
          let distPip := distSq wrist ppip in
          countOpenFingers landmarks wrist rest
            (if gtb distTip distPip then S openFingers else openFingers)
      | _, _ => None
      end
  end.

Definition isHandOpen (landmarks : HandSample) : option bool :=
  match nth_error landmarks 0 with
  | Some wrist =>
      match countOpenFingers landmarks wrist VisionManager.fingerIndices 0 with
      | Some openFingers => Some (3 <=? openFingers)%nat
      | None => None
      end
  | None => None
  end.

End VisionManager64.

(** Vocabulary of the specification on binary64 samples. *)
Module Spec64.
Import Floats VisionManager64.

(** Landmark [i] of a hand sample. *)
Definition landmark (lm : HandSample) (i : nat) : NormalizedLandmark :=
  nth i lm (mkLandmark 0 0 0).

(** The squared screen distance of two landmarks as binary64 arithmetic
    gives it: the differences [dx] and [dy], the squares [dx * dx] and
    [dy * dy] and their sum, each rounded to nearest. *)
Definition computedSquaredDistance (p q : NormalizedLandmark) : float :=
  let dx := PrimFloat.sub (x p) (x q) in
  let dy := PrimFloat.sub (y p) (y q) in
  PrimFloat.add (PrimFloat.mul dx dx) (PrimFloat.mul dy dy).

(** A finger is extended, as computed, when the computed squared distance
    from the wrist (landmark 0) to its tip is strictly greater than the one
    to its PIP joint. *)
Definition extended (lm : HandSample) (tipIdx pipIdx : nat) : Prop :=
  PrimFloat.ltb (computedSquaredDistance (landmark lm 0) (landmark lm pipIdx))
                (computedSquaredDistance (landmark lm 0) (landmark lm tipIdx))
  = true.

Definition indexExtended (lm : HandSample) : Prop := extended lm 8 6.
Definition middleExtended (lm : HandSample) : Prop := extended lm 12 10.
Definition ringExtended (lm : HandSample) : Prop := extended lm 16 14.
Definition pinkyExtended (lm : HandSample) : Prop := extended lm 20 18.

(** At least three of the four fingers are extended, as computed. *)
Definition atLeastThreeExtended (lm : HandSample) : Prop :=
  (indexExtended lm /\ middleExtended lm /\ ringExtended lm)
  \/ (indexExtended lm /\ middleExtended lm /\ pinkyExtended lm)
  \/ (indexExtended lm /\ ringExtended lm /\ pinkyExtended lm)
  \/ (middleExtended lm /\ ringExtended lm /\ pinkyExtended lm).

(** Two samples have the same computed wrist-to-landmark squared distances
    at the eight landmarks the classifier reads. *)
Definition sameDistances (lm lm' : HandSample) : Prop :=
  Forall (fun i => computedSquaredDistance (landmark lm 0) (landmark lm i)
                   = computedSquaredDistance (landmark lm' 0) (landmark lm' i))
         [6; 8; 10; 12; 14; 16; 18; 20]%nat.

(** What the classifier's loop adds to its counter for one finger of a
    full sample. *)
Definition fingerBit (lm : HandSample) (tipIdx pipIdx : nat) : nat :=
  if gtb (distSq (landmark lm 0) (landmark lm tipIdx))
         (distSq (landmark lm 0) (landmark lm pipIdx))
  then 1%nat else 0%nat.

(** The real number a finite binary64 number stands for: sign, mantissa
    and exponent as [Prim2SF] gives them. *)
Definition exact (f : float) : R :=
  match Prim2SF f with
  | S754_finite s m e =>
      let magnitude :=
        if (0 <=? e)%Z then IZR (Zpos m) * IZR (2 ^ e)
        else IZR (Zpos m) / IZR (2 ^ (- e)) in
      if s then - magnitude else magnitude
  | _ => 0
  end.

(** The same landmark with its coordinates as real numbers. *)
Definition exactLandmark (p : NormalizedLandmark) : VisionManager.NormalizedLandmark :=
  VisionManager.mkLandmark (exact (x p)) (exact (y p)) (exact (z p)).

(** Every screen coordinate of the sample is a number in [[0, 1]]. *)
Definition onScreen (lm : HandSample) : Prop :=
  Forall (fun p => 0 <= exact (x p) <= 1 /\ 0 <= exact (y p) <= 1) lm.

End Spec64.

(** Sample inputs on binary64 numbers. *)
Module Samples64.
Import Floats VisionManager64.

(** [2^-40]. *)
Definition tiny : float := (1 / 1099511627776)%float.

(** A hand whose four fingertips are farther from the wrist than their PIP
    joints by less than rounding keeps: wrist at (0, 0), PIP joints at
    (1, 0), tips at (1, 2^-40). *)
Definition nearTie : HandSample :=
  let wrist := mkLandmark 0 0 0 in
  let other := mkLandmark (1 / 2) 0 0 in
  let pipJoint := mkLandmark 1 0 0 in
  let fingertip := mkLandmark 1 tiny 0 in
  [ wrist; other; other; other; other;
    other; pipJoint; other; fingertip;
    other; pipJoint; other; fingertip;
    other; pipJoint; other; fingertip;
    other; pipJoint; other; fingertip ].

(** The open palm of [Samples.openPalm], its coordinates rounded as the
    decimal literals are. *)
Definition openPalm : HandSample :=
  [ mkLandmark (50 / 100) (90 / 100) 0;
    mkLandmark (40 / 100) (85 / 100) (- 2 / 100);
    mkLandmark (33 / 100) (78 / 100) (- 3 / 100);
    mkLandmark (28 / 100) (70 / 100) (- 4 / 100);
    mkLandmark (24 / 100) (63 / 100) (- 5 / 100);
    mkLandmark (42 / 100) (60 / 100) (- 1 / 100);
    mkLandmark (40 / 100) (48 / 100) (- 2 / 100);
    mkLandmark (39 / 100) (40 / 100) (- 3 / 100);
    mkLandmark (38 / 100) (33 / 100) (- 4 / 100);
    mkLandmark (50 / 100) (58 / 100) (- 1 / 100);
    mkLandmark (50 / 100) (45 / 100) (- 2 / 100);
    mkLandmark (50 / 100) (36 / 100) (- 3 / 100);
    mkLandmark (50 / 100) (28 / 100) (- 4 / 100);
    mkLandmark (57 / 100) (60 / 100) (- 1 / 100);
    mkLandmark (59 / 100) (48 / 100) (- 2 / 100);
    mkLandmark (60 / 100) (40 / 100) (- 3 / 100);
    mkLandmark (61 / 100) (33 / 100) (- 4 / 100);
    mkLandmark (63 / 100) (65 / 100) (- 1 / 100);
    mkLandmark (66 / 100) (56 / 100) (- 2 / 100);
    mkLandmark (68 / 100) (50 / 100) (- 3 / 100);
    mkLandmark (70 / 100) (44 / 100) (- 4 / 100) ]%float.

End Samples64.

(** * Part II: properties *)

(** ** Comparisons *)

Lemma Rgtb_true (a b : R) : Rgtb a b = true <-> b < a.
Proof.
  unfold Rgtb. destruct (Rlt_dec b a); split; intros; try discriminate; tauto.
Qed.

Lemma Rgtb_false (a b : R) : Rgtb a b = false <-> a <= b.
Proof.
  unfold Rgtb. destruct (Rlt_dec b a); split; intros; try discriminate; lra.
Qed.

(** ** Morph progress *)

Section MorphFacts.
Import LuxuryTree.

Lemma frame_bounds (p : R) (tk : Tick) :
  0 <= delta tk <= / 2 -> 0 <= p <= 1 -> 0 <= frame p tk <= 1.
Proof.
  intros Hd Hp. unfold frame, MathUtils.lerp.
  destruct (isHandOpen tk); nra.
Qed.

Lemma run_bounds (ticks : list Tick) :
  Forall (fun tk => 0 <= delta tk <= / 2) ticks ->
  forall p, 0 <= p <= 1 -> 0 <= run ticks p <= 1.
Proof.
  unfold run. induction 1 as [| tk ticks Htk _ IH]; intros p Hp; simpl.
  - exact Hp.
  - apply IH. now apply frame_bounds.
Qed.

Lemma run_snoc (ticks : list Tick) (tk : Tick) (p : R) :
  run (ticks ++ [tk]) p = frame (run ticks p) tk.
Proof. unfold run. now rewrite fold_left_app. Qed.

Lemma heldOpen_S (n : nat) (dt : R) :
  heldOpen (S n) dt = heldOpen n dt ++ [mkTick dt true].
Proof.
  unfold heldOpen. induction n as [| n IH]; simpl in *; [reflexivity|].
  now rewrite <- IH.
Qed.

(** Closed form of the gap to the target while the hand stays open. *)
Lemma heldOpen_gap (n : nat) (dt p : R) :
  1 - run (heldOpen n dt) p = (1 - dt * 2) ^ n * (1 - p).
Proof.
  induction n as [| n IH].
  - unfold heldOpen, run. simpl. ring.
  - rewrite heldOpen_S, run_snoc. unfold frame, MathUtils.lerp.
    cbn [isHandOpen delta].
    replace (1 - ((1 - dt * 2) * run (heldOpen n dt) p + dt * 2 * 1))
      with ((1 - dt * 2) * (1 - run (heldOpen n dt) p)) by ring.
    rewrite IH. simpl. ring.
Qed.

Lemma pow_29_30_180 : (29 / 30) ^ 180 <= 3 / 1000.
Proof.
  assert (Hz : (1000 * 29 ^ 180 <= 3 * 30 ^ 180)%Z) by (vm_compute; discriminate).
  apply IZR_le in Hz.
  rewrite !mult_IZR in Hz.
  change 180%Z with (Z.of_nat 180) in Hz.
  rewrite <- !pow_IZR in Hz.
  unfold Rdiv. rewrite Rpow_mult_distr, pow_inv.
  assert (H30 : 0 < 30 ^ 180) by (apply pow_lt; lra).
  apply Rmult_le_reg_r with (30 ^ 180); [exact H30|].
  rewrite Rmult_assoc, Rinv_l by lra.
  lra.
Qed.

End MorphFacts.

(** C1, as stated, fails: one tick with the hand open and a frame delta of
    one second (a non-negative delta) takes the stored progress from 0 to 2,
    outside [[0, 1]]. *)
Lemma C1_progress_overshoots :
  let ticks := [LuxuryTree.mkTick 1 true] in
  Forall (fun tk => 0 <= LuxuryTree.delta tk) ticks
  /\ LuxuryTree.run ticks LuxuryTree.progress0 = 2
  /\ ~ (0 <= LuxuryTree.run ticks LuxuryTree.progress0 <= 1).
Proof.
  cbv zeta.
  assert (Hrun : LuxuryTree.run [LuxuryTree.mkTick 1 true] LuxuryTree.progress0 = 2).
  { unfold LuxuryTree.run, LuxuryTree.frame, LuxuryTree.progress0,
      MathUtils.lerp. simpl. ring. }
  split; [|split].
  - constructor; [simpl; lra | constructor].
  - exact Hrun.
  - rewrite Hrun. lra.
Qed.

(** C1, amended: for every sequence of ticks whose frame deltas lie in
    [[0, 1/2]] (so that the interpolation rate [delta * 2.0] is at most 1)
    and arbitrary gesture inputs, the stored morph progress, starting at 0,
    satisfies [0 <= progress <= 1]. *)
Theorem C1_progress_bounds (ticks : list LuxuryTree.Tick) :
  Forall (fun tk => 0 <= LuxuryTree.delta tk <= / 2) ticks ->
  0 <= LuxuryTree.run ticks LuxuryTree.progress0 <= 1.
Proof.
  intros H. apply run_bounds; [exact H|]. unfold LuxuryTree.progress0. lra.
Qed.

Lemma C1_progress_bounds_witness :
  0 <= LuxuryTree.run [LuxuryTree.mkTick (/ 60) true;
                       LuxuryTree.mkTick (/ 2) false;
                       LuxuryTree.mkTick 0 true] LuxuryTree.progress0 <= 1.
Proof.
  apply C1_progress_bounds.
  repeat constructor; simpl; lra.
Defined.

(** C9: from progress 0 with the hand held open, 180 ticks at
    [dt = 1/60] (rate constant 2.0) bring the stored progress to at least
    0.997. *)
Theorem C9_three_seconds_open :
  997 / 1000 <= LuxuryTree.run (LuxuryTree.heldOpen 180 (/ 60)) LuxuryTree.progress0.
Proof.
  pose proof (heldOpen_gap 180 (/ 60) LuxuryTree.progress0) as Hgap.
  replace (1 - / 60 * 2) with (29 / 30) in Hgap by lra.
  pose proof pow_29_30_180 as Hpow.
  unfold LuxuryTree.progress0 in *.
  lra.
Qed.

(** The two scenarios replayed on binary64 numbers: the overshoot is exact,
    and three seconds of open hand end above 0.997 there as well. *)

Section Binary64Replay.
Import Floats.

Example binary64_overshoot :
  Binary64.run [Binary64.mkTick 1%float true] 0%float = 2%float.
Proof. vm_compute. reflexivity. Qed.

Example binary64_three_seconds_open :
  PrimFloat.leb (997 / 1000)%float
    (Binary64.run (Binary64.heldOpen 180 (1 / 60)%float) 0%float) = true.
Proof. vm_compute. reflexivity. Qed.

End Binary64Replay.

(** ** The landmark classifier *)

Section ClassifierFacts.
Import VisionManager Spec.

Lemma nth_error_landmark (lm : HandSample) (i : nat) :
  (i < List.length lm)%nat -> nth_error lm i = Some (landmark lm i).
Proof. intros H. unfold landmark. now apply nth_error_nth'. Qed.

Lemma distSq_squaredDistance (p q : NormalizedLandmark) :
  distSq p q = squaredDistance p q.
Proof. unfold distSq, squaredDistance. ring. Qed.

Lemma fingerBit_extended (lm : HandSample) (tipIdx pipIdx : nat) :
  (fingerBit lm tipIdx pipIdx = 1%nat <-> extended lm tipIdx pipIdx)
  /\ (fingerBit lm tipIdx pipIdx = 0%nat <-> ~ extended lm tipIdx pipIdx).
Proof.
  unfold fingerBit, extended, Rgtb.
  rewrite !distSq_squaredDistance.
  destruct (Rlt_dec _ _) as [Hlt | Hge]; split; split; intros;
    try discriminate; try tauto; try reflexivity.
Qed.

(** On a full sample the classifier never throws, and its count is the sum
    of the four finger bits. *)
Lemma isHandOpen_21 (lm : HandSample) :
  List.length lm = 21%nat ->
  isHandOpen lm =
  Some (3 <=? fingerBit lm 8 6 + fingerBit lm 12 10
              + fingerBit lm 16 14 + fingerBit lm 20 18)%nat.
Proof.
  intros Hlen. unfold isHandOpen, fingerIndices.
  rewrite (nth_error_landmark lm 0) by lia.
  cbn [countOpenFingers tip pip].
  rewrite !nth_error_landmark by lia.
  cbv zeta. unfold fingerBit.
  repeat destruct (Rgtb _ _); reflexivity.
Qed.

Lemma atLeastThree_bits (lm : HandSample) :
  (3 <=? fingerBit lm 8 6 + fingerBit lm 12 10
         + fingerBit lm 16 14 + fingerBit lm 20 18)%nat = true
  <-> atLeastThreeExtended lm.
Proof.
  unfold atLeastThreeExtended, indexExtended, middleExtended, ringExtended,
    pinkyExtended.
  destruct (fingerBit_extended lm 8 6) as [I1 I0].
  destruct (fingerBit_extended lm 12 10) as [M1 M0].
  destruct (fingerBit_extended lm 16 14) as [R1 R0].
  destruct (fingerBit_extended lm 20 18) as [P1 P0].
  assert (Hb : forall t p, fingerBit lm t p = 0%nat \/ fingerBit lm t p = 1%nat).
  { intros t p. unfold fingerBit. destruct (Rgtb _ _); auto. }
  destruct (Hb 8 6)%nat as [Hi | Hi], (Hb 12 10)%nat as [Hm | Hm],
    (Hb 16 14)%nat as [Hr | Hr], (Hb 20 18)%nat as [Hp | Hp];
    rewrite Hi, Hm, Hr, Hp; cbn;
    split; intros H; try discriminate; try reflexivity; tauto.
Qed.

Lemma fingerBit_sameDistances (lm lm' : HandSample) :
  sameDistances lm lm' ->
  fingerBit lm 8 6 = fingerBit lm' 8 6
  /\ fingerBit lm 12 10 = fingerBit lm' 12 10
  /\ fingerBit lm 16 14 = fingerBit lm' 16 14
  /\ fingerBit lm 20 18 = fingerBit lm' 20 18.
Proof.
  unfold sameDistances, fingerBit. intros H.
  repeat match goal with
         | H : Forall _ (_ :: _) |- _ => inversion H; subst; clear H
         end.
  cbv beta in *. rewrite !distSq_squaredDistance.
  repeat match goal with
         | H : squaredDistance _ _ = squaredDistance _ _ |- _ =>
             rewrite H; clear H
         end.
  repeat split.
Qed.

Lemma distSq_sameXY (w w' p p' : NormalizedLandmark) :
  sameXY w w' -> sameXY p p' -> distSq w p = distSq w' p'.
Proof.
  unfold sameXY, distSq. intros [-> ->] [-> ->]. reflexivity.
Qed.

Lemma nth_error_sameXY (lm lm' : HandSample) (i : nat) :
  Forall2 sameXY lm lm' ->
  match nth_error lm i, nth_error lm' i with
  | Some p, Some p' => sameXY p p'
  | None, None => True
  | _, _ => False
  end.
Proof.
  intros H. revert i.
  induction H as [| a b l l' Hab _ IH]; intros [| i]; simpl; auto.
  apply IH.
Qed.

Lemma countOpenFingers_sameXY (lm lm' : HandSample)
  (w w' : NormalizedLandmark) (fingers : list Finger) :
  Forall2 sameXY lm lm' -> sameXY w w' ->
  forall n, countOpenFingers lm w fingers n = countOpenFingers lm' w' fingers n.
Proof.
  intros Hlm Hw.
  induction fingers as [| f fs IH]; intros n; simpl; [reflexivity|].
  pose proof (nth_error_sameXY lm lm' (tip f) Hlm) as Ht.
  pose proof (nth_error_sameXY lm lm' (pip f) Hlm) as Hp.
  destruct (nth_error lm (tip f)) as [t|], (nth_error lm' (tip f)) as [t'|];
    try contradiction; [|reflexivity].
  destruct (nth_error lm (pip f)) as [p|], (nth_error lm' (pip f)) as [p'|];
    try contradiction; [|reflexivity].
  rewrite (distSq_sameXY w w' t t' Hw Ht), (distSq_sameXY w w' p p' Hw Hp).
  apply IH.
Qed.

End ClassifierFacts.

(** In exact arithmetic the classifier answers [true] on a sample of 21
    landmarks exactly when at least three of the four fingers have their
    tip strictly farther from the wrist than their PIP joint, and samples
    with the same squared distances get the same answer. *)
Lemma isHandOpen_three_of_four_exact (lm : VisionManager.HandSample) :
  List.length lm = 21%nat ->
  exists b : bool,
    VisionManager.isHandOpen lm = Some b
    /\ (b = true <-> Spec.atLeastThreeExtended lm)
    /\ (forall lm' : VisionManager.HandSample,
           List.length lm' = 21%nat -> Spec.sameDistances lm lm' ->
           VisionManager.isHandOpen lm' = Some b).
Proof.
  intros Hlen. eexists. split; [apply (isHandOpen_21 lm Hlen)|]. split.
  - apply atLeastThree_bits.
  - intros lm' Hlen' Hsame. rewrite (isHandOpen_21 lm' Hlen').
    destruct (fingerBit_sameDistances lm lm' Hsame) as (-> & -> & -> & ->).
    reflexivity.
Qed.

(** *** The classifier on binary64 numbers *)

Section Classifier64Facts.
Import Floats VisionManager64 Spec64.

Lemma nth_error_landmark64 (lm : HandSample) (i : nat) :
  (i < List.length lm)%nat -> nth_error lm i = Some (landmark lm i).
Proof. intros H. unfold landmark. now apply nth_error_nth'. Qed.

Lemma isHandOpen64_21 (lm : HandSample) :
  List.length lm = 21%nat ->
  isHandOpen lm =
  Some (3 <=? fingerBit lm 8 6 + fingerBit lm 12 10
              + fingerBit lm 16 14 + fingerBit lm 20 18)%nat.
Proof.
  intros Hlen. unfold isHandOpen, VisionManager.fingerIndices.
  rewrite (nth_error_landmark64 lm 0) by lia.
  cbn [countOpenFingers VisionManager.tip VisionManager.pip].
  rewrite !nth_error_landmark64 by lia.
  cbv zeta. unfold fingerBit.
  repeat destruct (gtb _ _); reflexivity.
Qed.

(** The comparison the code makes for a finger is the comparison of the
    computed squared distances. *)
Lemma fingerBit64_extended (lm : HandSample) (tipIdx pipIdx : nat) :
  (fingerBit lm tipIdx pipIdx = 1%nat <-> extended lm tipIdx pipIdx)
  /\ (fingerBit lm tipIdx pipIdx = 0%nat <-> ~ extended lm tipIdx pipIdx).
Proof.
  unfold fingerBit, extended, gtb, distSq, pow2, computedSquaredDistance.
  cbv zeta.
  destruct (PrimFloat.ltb _ _); split; split; intros H;
    try discriminate; try reflexivity; try (intros H'; discriminate).
  exfalso. now apply H.
Qed.

Lemma atLeastThree_bits64 (lm : HandSample) :
  (3 <=? fingerBit lm 8 6 + fingerBit lm 12 10
         + fingerBit lm 16 14 + fingerBit lm 20 18)%nat = true
  <-> atLeastThreeExtended lm.
Proof.
  unfold atLeastThreeExtended, indexExtended, middleExtended, ringExtended,
    pinkyExtended.
  destruct (fingerBit64_extended lm 8 6) as [I1 I0].
  destruct (fingerBit64_extended lm 12 10) as [M1 M0].
  destruct (fingerBit64_extended lm 16 14) as [R1 R0].
  destruct (fingerBit64_extended lm 20 18) as [P1 P0].
  assert (Hb : forall t p, fingerBit lm t p = 0%nat \/ fingerBit lm t p = 1%nat).
  { intros t p. unfold fingerBit. destruct (gtb _ _); auto. }
  destruct (Hb 8 6)%nat as [Hi | Hi], (Hb 12 10)%nat as [Hm | Hm],
    (Hb 16 14)%nat as [Hr | Hr], (Hb 20 18)%nat as [Hp | Hp];
    rewrite Hi, Hm, Hr, Hp; cbn;
    split; intros H; try discriminate; try reflexivity; tauto.
Qed.

Lemma distSq_computed (p q : NormalizedLandmark) :
  distSq p q = computedSquaredDistance p q.
Proof. reflexivity. Qed.

Lemma fingerBit64_sameDistances (lm lm' : HandSample) :
  sameDistances lm lm' ->
  fingerBit lm 8 6 = fingerBit lm' 8 6
  /\ fingerBit lm 12 10 = fingerBit lm' 12 10
  /\ fingerBit lm 16 14 = fingerBit lm' 16 14
  /\ fingerBit lm 20 18 = fingerBit lm' 20 18.
Proof.
  unfold sameDistances, fingerBit. intros H.
  repeat match goal with
         | H : Forall _ (_ :: _) |- _ => inversion H; subst; clear H
         end.
  cbv beta in *.
  unfold distSq, pow2. unfold computedSquaredDistance in *. cbv zeta in *.
  repeat match goal with
         | H : PrimFloat.add _ _ = PrimFloat.add _ _ |- _ => rewrite H; clear H
         end.
  repeat split.
Qed.

(** The real numbers the coordinates of the near-tie hand stand for. *)

Lemma exact_zero : exact 0%float = 0.
Proof.
  unfold exact.
  assert (E : Prim2SF 0%float = S754_zero false)
    by (vm_compute; reflexivity).
  now rewrite E.
Qed.

Lemma exact_one : exact 1%float = 1.
Proof.
  unfold exact.
  assert (E : Prim2SF 1%float
              = S754_finite false 4503599627370496 (-52))
    by (vm_compute; reflexivity).
  rewrite E. cbv beta iota zeta.
  change (0 <=? -52)%Z with false.
  change (2 ^ (- -52))%Z with 4503599627370496%Z.
  cbv iota. lra.
Qed.

Lemma exact_half : exact (1 / 2)%float = 1 / 2.
Proof.
  unfold exact.
  assert (E : Prim2SF (1 / 2)%float
              = S754_finite false 4503599627370496 (-53))
    by (vm_compute; reflexivity).
  rewrite E. cbv beta iota zeta.
  change (0 <=? -53)%Z with false.
  change (2 ^ (- -53))%Z with 9007199254740992%Z.
  cbv iota. lra.
Qed.

Lemma exact_tiny : exact Samples64.tiny = 1 / 1099511627776.
Proof.
  unfold exact.
  assert (E : Prim2SF Samples64.tiny
              = S754_finite false 4503599627370496 (-92))
    by (vm_compute; reflexivity).
  rewrite E. cbv beta iota zeta.
  change (0 <=? -92)%Z with false.
  change (2 ^ (- -92))%Z with 4951760157141521099596496896%Z.
  cbv iota. lra.
Qed.

End Classifier64Facts.

Ltac exact_coordinates :=
  cbn [VisionManager.x VisionManager.y VisionManager64.x VisionManager64.y];
  rewrite ?exact_zero, ?exact_one, ?exact_half, ?exact_tiny.

(** C2, as stated, fails: on the hand with the wrist at (0, 0), the four
    PIP joints at (1, 0) and the four fingertips at (1, 2^-40), all on the
    screen, every fingertip is strictly farther from the wrist than its PIP
    joint (squared distances [1 + 2^-80] and [1]), yet the classifier
    answers [false]: the sum [1 + 2^-80] is rounded to 1 and the comparison
    is a tie. *)
Lemma C2_exact_distances_counterexample :
  let hand := Samples64.nearTie in
  let shown := map Spec64.exactLandmark hand in
  List.length hand = 21%nat
  /\ Spec64.onScreen hand
  /\ Spec.indexExtended shown /\ Spec.middleExtended shown
  /\ Spec.ringExtended shown /\ Spec.pinkyExtended shown
  /\ Spec.atLeastThreeExtended shown
  /\ VisionManager64.isHandOpen hand = Some false.
Proof.
  cbv zeta.
  assert (Hext : forall tipIdx pipIdx,
             In (tipIdx, pipIdx) [(8, 6); (12, 10); (16, 14); (20, 18)]%nat ->
             Spec.extended (map Spec64.exactLandmark Samples64.nearTie)
                           tipIdx pipIdx).
  { intros tipIdx pipIdx Hin. unfold Spec.extended, Spec.landmark,
      Spec.squaredDistance, Samples64.nearTie. cbv zeta.
    cbn [In] in Hin.
    destruct Hin as [E | [E | [E | [E | []]]]]; injection E as <- <-;
      cbn [map nth]; unfold Spec64.exactLandmark; exact_coordinates; lra. }
  assert (Hi : Spec.indexExtended (map Spec64.exactLandmark Samples64.nearTie))
    by (apply Hext; cbn; tauto).
  assert (Hm : Spec.middleExtended (map Spec64.exactLandmark Samples64.nearTie))
    by (apply Hext; cbn; tauto).
  assert (Hr : Spec.ringExtended (map Spec64.exactLandmark Samples64.nearTie))
    by (apply Hext; cbn; tauto).
  assert (Hp : Spec.pinkyExtended (map Spec64.exactLandmark Samples64.nearTie))
    by (apply Hext; cbn; tauto).
  split; [reflexivity|]. split.
  { unfold Spec64.onScreen, Samples64.nearTie. cbv zeta.
    repeat (constructor; [exact_coordinates; lra|]). constructor. }
  split; [exact Hi|]. split; [exact Hm|]. split; [exact Hr|].
  split; [exact Hp|]. split.
  - left. auto.
  - vm_compute. reflexivity.
Qed.

(** C2, amended: on every sample of 21 landmarks the classifier returns a
    boolean, which is [true] exactly when at least three of the four
    fingers (index, middle, ring, pinky) have the squared distance from the
    wrist to the tip (landmarks 8, 12, 16, 20), as computed in binary64
    (differences, squares and sum each rounded to nearest), strictly greater
    than the computed squared distance from the wrist to the PIP joint
    (landmarks 6, 10, 14, 18); and any sample of 21 landmarks with the same
    eight computed squared distances gets the same answer. *)
Theorem C2_isHandOpen_three_of_four_computed (lm : VisionManager64.HandSample) :
  List.length lm = 21%nat ->
  exists b : bool,
    VisionManager64.isHandOpen lm = Some b
    /\ (b = true <-> Spec64.atLeastThreeExtended lm)
    /\ (forall lm' : VisionManager64.HandSample,
           List.length lm' = 21%nat -> Spec64.sameDistances lm lm' ->
           VisionManager64.isHandOpen lm' = Some b).
Proof.
  intros Hlen. eexists. split; [apply (isHandOpen64_21 lm Hlen)|]. split.
  - apply atLeastThree_bits64.
  - intros lm' Hlen' Hsame. rewrite (isHandOpen64_21 lm' Hlen').
    destruct (fingerBit64_sameDistances lm lm' Hsame) as (-> & -> & -> & ->).
    reflexivity.
Qed.

Lemma C2_isHandOpen_three_of_four_computed_witness :
  exists b : bool,
    VisionManager64.isHandOpen Samples64.openPalm = Some b
    /\ (b = true <-> Spec64.atLeastThreeExtended Samples64.openPalm)
    /\ (forall lm' : VisionManager64.HandSample,
           List.length lm' = 21%nat ->
           Spec64.sameDistances Samples64.openPalm lm' ->
           VisionManager64.isHandOpen lm' = Some b).
Proof.
  apply (C2_isHandOpen_three_of_four_computed Samples64.openPalm). reflexivity.
Defined.

(** The binary64 classifier on the open palm and on the near-tie hand. *)
Example openPalm64_is_open :
  VisionManager64.isHandOpen Samples64.openPalm = Some true.
Proof. vm_compute. reflexivity. Qed.

Example nearTie64_is_closed :
  VisionManager64.isHandOpen Samples64.nearTie = Some false.
Proof. vm_compute. reflexivity. Qed.

(** C10: two samples that agree on every landmark's [x] and [y] get the
    same answer from the classifier, whatever their [z] coordinates. *)
Theorem C10_isHandOpen_ignores_depth (lm lm' : VisionManager.HandSample) :
  Forall2 Spec.sameXY lm lm' ->
  VisionManager.isHandOpen lm = VisionManager.isHandOpen lm'.
Proof.
  intros H. unfold VisionManager.isHandOpen.
  pose proof (nth_error_sameXY lm lm' 0 H) as Hw.
  destruct (nth_error lm 0) as [w|], (nth_error lm' 0) as [w'|];
    try contradiction; [|reflexivity].
  now rewrite (countOpenFingers_sameXY lm lm' w w' _ H Hw 0%nat).
Qed.

(** C7: in every detection cycle in which no hand is detected the
    classifier calls [setHandPosition(0.5, 0.5, 0.5, false, false)], so the
    store then holds that untracked signal; and every detection cycle on
    well-formed results (hands of 21 landmarks) ends in a call of
    [setHandPosition], never in a skipped update or an exception. *)
Theorem C7_no_hand_emits_neutral (c : VisionManager.Iteration) :
  Spec.detectionCycle c ->
  (Spec.noHand c ->
     VisionManager.detect c = Some Spec.neutral
     /\ forall s : Store.TreeState,
          VisionManager.detectStep c s
          = Some (Store.mkTreeState (5 / 10) (5 / 10) (5 / 10) false false
                                    (Store.userPhotos s)))
  /\ ((forall hands, VisionManager.landmarks c = Some hands ->
         Forall (fun hand => List.length hand = 21%nat) hands) ->
      exists hx hy hz tracking open,
        VisionManager.detect c
        = Some (VisionManager.SetHandPosition hx hy hz tracking open)).
Proof.
  unfold Spec.detectionCycle, Spec.noHand. intros Hrun.
  apply Rgtb_true in Hrun.
  unfold VisionManager.detectStep, VisionManager.detect. rewrite Hrun.
  split.
  - intros [-> | ->]; split; reflexivity.
  - intros Hwf. destruct (VisionManager.landmarks c) as [[| hand hands] |].
    + now exists (5 / 10), (5 / 10), (5 / 10), false, false.
    + specialize (Hwf _ eq_refl). inversion Hwf as [| ? ? Hlen _]; subst.
      rewrite (isHandOpen_21 hand Hlen).
      rewrite !nth_error_landmark by lia.
      do 5 eexists. reflexivity.
    + now exists (5 / 10), (5 / 10), (5 / 10), false, false.
Qed.

Lemma C10_isHandOpen_ignores_depth_witness :
  VisionManager.isHandOpen Samples.openPalm
  = VisionManager.isHandOpen (Samples.atDepth 7 Samples.openPalm).
Proof.
  apply (C10_isHandOpen_ignores_depth Samples.openPalm
           (Samples.atDepth 7 Samples.openPalm)).
  unfold Samples.atDepth, Samples.openPalm. cbn [map].
  repeat constructor.
Defined.

Lemma C7_no_hand_emits_neutral_witness :
  (Spec.noHand Samples.emptyFrame ->
     VisionManager.detect Samples.emptyFrame = Some Spec.neutral
     /\ forall s : Store.TreeState,
          VisionManager.detectStep Samples.emptyFrame s
          = Some (Store.mkTreeState (5 / 10) (5 / 10) (5 / 10) false false
                                    (Store.userPhotos s)))
  /\ ((forall hands, VisionManager.landmarks Samples.emptyFrame = Some hands ->
         Forall (fun hand => List.length hand = 21%nat) hands) ->
      exists hx hy hz tracking open,
        VisionManager.detect Samples.emptyFrame
        = Some (VisionManager.SetHandPosition hx hy hz tracking open)).
Proof.
  apply (C7_no_hand_emits_neutral Samples.emptyFrame).
  unfold Spec.detectionCycle, Samples.emptyFrame. simpl. lra.
Defined.

(** The two samples are classified as expected. *)

Ltac decide_Rgtb :=
  repeat match goal with
         | |- context [Rgtb ?a ?b] =>
             first [ rewrite (proj2 (Rgtb_true a b)) by lra
                   | rewrite (proj2 (Rgtb_false a b)) by lra ]
         end.

Example openPalm_is_open :
  VisionManager.isHandOpen Samples.openPalm = Some true.
Proof.
  rewrite isHandOpen_21 by reflexivity.
  unfold Spec.fingerBit, Spec.landmark, Samples.openPalm, VisionManager.distSq.
  cbn [nth VisionManager.x VisionManager.y].
  decide_Rgtb. reflexivity.
Qed.

Example fist_is_closed :
  VisionManager.isHandOpen Samples.fist = Some false.
Proof.
  rewrite isHandOpen_21 by reflexivity.
  unfold Spec.fingerBit, Spec.landmark, Samples.fist, VisionManager.distSq.
  cbn [nth VisionManager.x VisionManager.y].
  decide_Rgtb. reflexivity.
Qed.

(** A frame showing the open palm: the hand position is the mirrored
    middle-finger base, the depth proxy is its distance to the wrist. *)
Example detect_palmFrame :
  VisionManager.detect Samples.palmFrame
  = Some (VisionManager.SetHandPosition (50 / 100) (58 / 100) (32 / 100)
                                        true true).
Proof.
  unfold VisionManager.detect, Samples.palmFrame.
  cbn [VisionManager.currentTime VisionManager.landmarks].
  rewrite (proj2 (Rgtb_true 1 0)) by lra.
  rewrite openPalm_is_open.
  unfold Samples.openPalm.
  cbn [nth_error VisionManager.x VisionManager.y]. cbv zeta.
  do 2 f_equal; [lra|].
  apply sqrt_lem_1; lra.
Qed.

(** Before the video clock has advanced the loop runs no detection. *)
Example detect_before_video_starts (hands : option (list VisionManager.HandSample)) :
  VisionManager.detect (VisionManager.mkIteration 0 hands)
  = Some VisionManager.NoUpdate.
Proof.
  unfold VisionManager.detect. cbn [VisionManager.currentTime].
  now rewrite (proj2 (Rgtb_false 0 0)) by lra.
Qed.

(** Iterations that run before the video clock advances leave the store as
    it is; from the initial store it still holds the untracked neutral
    signal. *)
Lemma runLoop_before_video_starts (cs : list VisionManager.Iteration)
  (s : Store.TreeState) :
  Forall (fun c => VisionManager.currentTime c <= 0) cs ->
  VisionManager.runLoop cs s = Some s.
Proof.
  induction 1 as [| c cs Hc _ IH]; [reflexivity|].
  cbn [VisionManager.runLoop]. unfold VisionManager.detectStep, VisionManager.detect.
  rewrite (proj2 (Rgtb_false _ _) Hc). exact IH.
Qed.

Example initial_store_is_neutral :
  VisionManager.emit Spec.neutral Store.initial = Store.initial.
Proof. reflexivity. Qed.

(** ** The camera rig *)

Section RigFacts.
Import GestureController.

(** A hand at the screen centre at mid depth puts the target straight in
    front of the tree, 14 units away and 3 units up. *)
Example gestureTarget_centre :
  gestureTarget Samples.tracked = mkVector3 0 3 14.
Proof.
  unfold gestureTarget, Samples.tracked, MathUtils.lerp, MathUtils.clamp,
    MathUtils.mapLinear.
  cbn [Store.handX Store.handY Store.handZ].
  replace ((5 / 10 - 5 / 10) * (25 / 10)) with 0 by lra.
  rewrite sin_0, cos_0.
  rewrite (Rmin_right (35 / 100) (2 / 10)) by lra.
  rewrite (Rmax_right (5 / 100) (2 / 10)) by lra.
  f_equal; lra.
Qed.

Lemma frame_untracked (s : Store.TreeState) (delta : R) (r : Rig) :
  Store.isTracking s = false ->
  frame s delta r
  = mkRig (cameraPosition r) (cameraLookAt r) (cameraPosition r) (targetPos r).
Proof. intros H. unfold frame. now rewrite H. Qed.

Lemma run_untracked (frames : list (Store.TreeState * R)) :
  Forall (fun f => Store.isTracking (fst f) = false) frames ->
  forall r : Rig,
    run frames r
    = mkRig (cameraPosition r) (cameraLookAt r)
            (match frames with [] => currentPos r | _ :: _ => cameraPosition r end)
            (targetPos r).
Proof.
  unfold run. induction 1 as [| f frames Hf Hfs IH]; intros r.
  - now destruct r.
  - simpl. rewrite IH, (frame_untracked _ _ _ Hf). simpl.
    now destruct frames.
Qed.

End RigFacts.

(** C3: over any number of consecutive ticks with [tracked = false] the
    rig leaves the camera position where it was when tracking was lost;
    from the first such tick on, the rig's [currentPos] equals that live
    camera position, so the first tracked tick afterwards interpolates from
    it towards the gesture target instead of jumping. *)
Theorem C3_freeze_on_loss (frames : list (Store.TreeState * R))
  (r : GestureController.Rig) :
  Forall (fun f => Store.isTracking (fst f) = false) frames ->
  GestureController.cameraPosition (GestureController.run frames r)
  = GestureController.cameraPosition r
  /\ (frames <> [] ->
      GestureController.currentPos (GestureController.run frames r)
      = GestureController.cameraPosition r
      /\ forall (s : Store.TreeState) (delta : R),
           Store.isTracking s = true ->
           GestureController.cameraPosition
             (GestureController.frame s delta (GestureController.run frames r))
           = Vec3.lerp (GestureController.cameraPosition r)
                       (GestureController.gestureTarget s) (delta * 3)).
Proof.
  intros H. rewrite (run_untracked frames H r). simpl. split; [reflexivity|].
  intros Hne. destruct frames as [| f fs]; [contradiction|].
  split; [reflexivity|].
  intros s delta Hs. unfold GestureController.frame. rewrite Hs. reflexivity.
Qed.

Lemma C3_freeze_on_loss_witness :
  let frames := [(Samples.untracked, / 60); (Samples.untracked, / 30);
                 (Samples.untracked, / 60)] in
  let r := GestureController.frame Samples.tracked (/ 60)
             GestureController.initial in
  GestureController.cameraPosition (GestureController.run frames r)
  = GestureController.cameraPosition r
  /\ (frames <> [] ->
      GestureController.currentPos (GestureController.run frames r)
      = GestureController.cameraPosition r
      /\ forall (s : Store.TreeState) (delta : R),
           Store.isTracking s = true ->
           GestureController.cameraPosition
             (GestureController.frame s delta (GestureController.run frames r))
           = Vec3.lerp (GestureController.cameraPosition r)
                       (GestureController.gestureTarget s) (delta * 3)).
Proof.
  intros frames r. apply (C3_freeze_on_loss frames r).
  unfold frames. repeat constructor.
Defined.

(** ** Photo binding *)

Section PolaroidFacts.
Import Polaroids.

Lemma combine_seq_nth {A : Type} (l : list A) :
  forall (start i : nat) (a : A),
    nth_error l i = Some a ->
    nth_error (combine (seq start (List.length l)) l) i = Some ((start + i)%nat, a).
Proof.
  induction l as [| b l IH]; intros start [| i] a H; simpl in *;
    try discriminate.
  - injection H as ->. now rewrite Nat.add_0_r.
  - rewrite (IH (S start) i a H). do 2 f_equal. lia.
Qed.

Lemma render_nth (panels : list ParticleTree.PolaroidData)
  (userPhotos : list string) (i : nat) (d : ParticleTree.PolaroidData) :
  nth_error panels i = Some d ->
  nth_error (render panels userPhotos) i
  = Some (mkSlot d (photoUrl userPhotos i)
                 (SinglePolaroid.content (photoUrl userPhotos i))).
Proof.
  intros H. unfold render.
  rewrite nth_error_map, (combine_seq_nth panels 0 i d H). reflexivity.
Qed.

Lemma photoUrl_cycles (userPhotos : list string) (i : nat) :
  (0 < List.length userPhotos)%nat ->
  exists url,
    nth_error userPhotos (i mod List.length userPhotos) = Some url
    /\ photoUrl userPhotos i = Some url.
Proof.
  intros HL. unfold photoUrl.
  destruct (Nat.ltb_spec 0 (List.length userPhotos)) as [_ | Hle]; [|lia].
  assert (Hlt : (i mod List.length userPhotos < List.length userPhotos)%nat)
    by (apply Nat.mod_upper_bound; lia).
  apply nth_error_Some in Hlt.
  destruct (nth_error userPhotos (i mod List.length userPhotos)) as [url|];
    [|contradiction].
  now exists url.
Qed.

Lemma forEach_length {A : Type} (body : nat -> Rand.t A) (n : nat) :
  forall start k, List.length (fst (Rand.forEach body n start k)) = n.
Proof.
  induction n as [| n IH]; intros start k; [reflexivity|].
  cbn [Rand.forEach]. unfold Rand.bind, Rand.ret.
  destruct (body start k) as [a k'].
  specialize (IH (S start) k').
  destruct (Rand.forEach body n (S start) k') as [rest k''].
  cbn [fst List.length] in *. now rewrite IH.
Qed.

(** The panel data has one entry per slot. *)
Lemma data_slot (random : nat -> R) (k i : nat) :
  (i < ParticleTree.polaroidCount)%nat ->
  exists d, nth_error (fst (data random k)) i = Some d.
Proof.
  intros Hi.
  assert (Hlt : (i < List.length (fst (data random k)))%nat)
    by (unfold data; now rewrite forEach_length).
  apply nth_error_Some in Hlt.
  destruct (nth_error (fst (data random k)) i) as [d|]; [|contradiction].
  now exists d.
Qed.

End PolaroidFacts.

(** C8: for a non-empty photo list of length [L] every slot [i] of the 48
    photo panels is bound to the handle at index [i mod L] of the list; for
    the empty list every slot is bound to [null] and shows the
    placeholder. *)
Theorem C8_photo_cycling (random : nat -> R) (k : nat)
  (userPhotos : list string) (i : nat) :
  (i < 48)%nat ->
  exists slot : Polaroids.Slot,
    nth_error (Polaroids.render (fst (Polaroids.data random k)) userPhotos) i
    = Some slot
    /\ ((0 < List.length userPhotos)%nat ->
        exists url : string,
          nth_error userPhotos (i mod List.length userPhotos) = Some url
          /\ Polaroids.slotPhotoUrl slot = Some url)
    /\ (userPhotos = [] ->
        Polaroids.slotPhotoUrl slot = None
        /\ Polaroids.slotContent slot = SinglePolaroid.Placeholder).
Proof.
  intros Hi. destruct (data_slot random k i Hi) as [d Hd].
  eexists. split; [apply (render_nth _ userPhotos i d Hd)|].
  cbn [Polaroids.slotPhotoUrl Polaroids.slotContent]. split.
  - intros HL. apply (photoUrl_cycles userPhotos i HL).
  - intros ->. split; reflexivity.
Qed.

Lemma C8_photo_cycling_witness :
  let random := fun _ : nat => / 2 in
  let userPhotos := ["data:image/jpeg;base64,AAAA"%string;
                     "data:image/jpeg;base64,BBBB"%string] in
  exists slot : Polaroids.Slot,
    nth_error (Polaroids.render (fst (Polaroids.data random 0%nat)) userPhotos) 47
    = Some slot
    /\ ((0 < List.length userPhotos)%nat ->
        exists url : string,
          nth_error userPhotos (47 mod List.length userPhotos) = Some url
          /\ Polaroids.slotPhotoUrl slot = Some url)
    /\ (userPhotos = [] ->
        Polaroids.slotPhotoUrl slot = None
        /\ Polaroids.slotContent slot = SinglePolaroid.Placeholder).
Proof.
  intros random userPhotos.
  apply (C8_photo_cycling random 0%nat userPhotos 47%nat). lia.
Defined.

(** With two photos the slots alternate between them. *)
Example two_photos_alternate (a b : string)
  (d0 d1 d2 d3 d4 : ParticleTree.PolaroidData) :
  map Polaroids.slotPhotoUrl (Polaroids.render [d0; d1; d2; d3; d4] [a; b])
  = [Some a; Some b; Some a; Some b; Some a].
Proof. reflexivity. Qed.

(** A handle that is the empty string is bound to its slot like any other,
    and the slot then shows the placeholder. *)
Example empty_handle_shows_placeholder (d0 : ParticleTree.PolaroidData) :
  Polaroids.render [d0] [EmptyString]
  = [Polaroids.mkSlot d0 (Some EmptyString) SinglePolaroid.Placeholder].
Proof. reflexivity. Qed.

(** ** The distribution generator *)

Section CubeRoot.
Import JSMath.

Lemma cbrt_nonneg (a : R) : 0 <= a -> 0 <= cbrt a.
Proof.
  intros Ha. unfold cbrt.
  destruct (total_order_T a 0) as [[Hlt | Heq] | Hgt]; try lra.
  unfold Rpower. left. apply exp_pos.
Qed.

Lemma cbrt_cube (a : R) : 0 <= a -> cbrt a ^ 3 = a.
Proof.
  intros Ha. unfold cbrt.
  destruct (total_order_T a 0) as [[Hlt | Heq] | Hgt]; try lra.
  rewrite <- Rpower_pow by (unfold Rpower; apply exp_pos).
  rewrite Rpower_mult.
  replace (/ 3 * INR 3) with 1 by (simpl; lra).
  now apply Rpower_1.
Qed.

Lemma cube_le_reg (a b : R) : 0 <= a -> 0 <= b -> a ^ 3 <= b ^ 3 -> a <= b.
Proof.
  intros Ha Hb H. destruct (Rle_lt_dec a b) as [Hle | Hlt]; [exact Hle|].
  exfalso.
  assert (Hsq : b * b < a * a) by nra.
  assert (Hcube : b * (b * b) < a * (a * a)) by nra.
  simpl in H. nra.
Qed.

(** The cube root of a value between [m^3] and 1 lies between [m] and 1. *)
Lemma cbrt_between (m a : R) :
  0 <= m -> m ^ 3 <= a <= 1 -> m <= cbrt a <= 1.
Proof.
  intros Hm [Hlo Hhi].
  assert (Ha : 0 <= a) by (pose proof (pow_le m 3 Hm); lra).
  pose proof (cbrt_nonneg a Ha) as Hc.
  pose proof (cbrt_cube a Ha) as Hcube.
  split; apply cube_le_reg; lra.
Qed.

End CubeRoot.

Section SphereFacts.

(** A point given in spherical coordinates lies at distance [|r|] from the
    origin. *)
Lemma spherical_length (r phi theta : R) :
  0 <= r ->
  Vec3.length (mkVector3 (r * sin phi * cos theta)
                         (r * sin phi * sin theta)
                         (r * cos phi)) = r.
Proof.
  intros Hr. unfold Vec3.length. cbn [vx vy vz].
  pose proof (sin2_cos2 phi) as Hphi.
  pose proof (sin2_cos2 theta) as Htheta.
  unfold Rsqr in Hphi, Htheta.
  replace (r * sin phi * cos theta * (r * sin phi * cos theta)
           + r * sin phi * sin theta * (r * sin phi * sin theta)
           + r * cos phi * (r * cos phi))
    with (r * r * (sin phi * sin phi
                   * (sin theta * sin theta + cos theta * cos theta)
                   + cos phi * cos phi))
    by ring.
  rewrite Htheta, Rmult_1_r, Hphi, Rmult_1_r.
  now apply sqrt_square.
Qed.

Lemma getChaosPos_unfold (random : nat -> R) (scale minRatio : R) (k : nat) :
  ParticleTree.getChaosPos random scale minRatio k
  = (let theta := random k * PI * 2 in
     let phi := acos (2 * random (S k) - 1) in
     let r := JSMath.cbrt (random (S (S k)) * (1 - minRatio ^ 3) + minRatio ^ 3)
              * scale in
     mkVector3 (r * sin phi * cos theta) (r * sin phi * sin theta) (r * cos phi),
     S (S (S k))).
Proof. reflexivity. Qed.

End SphereFacts.

(** C4: with [scale > 0], minimum-radius ratio [m] in [[0,1]] and draws
    in [[0,1)], the chaos point is the point of radius
    [r = cbrt(U3 (1 - m^3) + m^3) * scale], azimuth [theta = U1 * 2 PI] in
    [[0, 2 PI)] and polar angle [phi = acos(2 U2 - 1)] in [[0, PI]], where
    [U1], [U2], [U3] are the three consecutive draws; its Euclidean norm is
    [r] and lies in [[m * scale, scale]]. *)
Theorem C4_chaos_sphere_shell (random : nat -> R) (scale m : R) (k : nat) :
  (forall j, 0 <= random j < 1) -> 0 < scale -> 0 <= m <= 1 ->
  let theta := random k * PI * 2 in
  let phi := acos (2 * random (k + 1)%nat - 1) in
  let r := JSMath.cbrt (random (k + 2)%nat * (1 - m ^ 3) + m ^ 3) * scale in
  let p := fst (ParticleTree.getChaosPos random scale m k) in
  p = mkVector3 (r * sin phi * cos theta) (r * sin phi * sin theta) (r * cos phi)
  /\ 0 <= theta < 2 * PI
  /\ 0 <= phi <= PI
  /\ m * scale <= r <= scale
  /\ Vec3.length p = r
  /\ m * scale <= Vec3.length p <= scale.
Proof.
  intros Hrand HS Hm theta phi r p.
  assert (Hp : p = mkVector3 (r * sin phi * cos theta)
                             (r * sin phi * sin theta) (r * cos phi)).
  { unfold p, r, phi, theta. rewrite getChaosPos_unfold.
    replace (k + 1)%nat with (S k) by lia.
    replace (k + 2)%nat with (S (S k)) by lia.
    reflexivity. }
  assert (Hm3 : 0 <= m ^ 3 <= 1).
  { split; [apply pow_le; lra|].
    replace 1 with (1 ^ 3) by ring. apply pow_incr. lra. }
  assert (Hc : m <= JSMath.cbrt (random (k + 2)%nat * (1 - m ^ 3) + m ^ 3) <= 1).
  { apply cbrt_between; [lra|]. specialize (Hrand (k + 2)%nat). nra. }
  assert (Hr : m * scale <= r <= scale) by (unfold r; nra).
  assert (Hr0 : 0 <= r) by nra.
  assert (Hlen : Vec3.length p = r)
    by (rewrite Hp; now apply spherical_length).
  split; [exact Hp|]. split; [|split; [|split; [exact Hr|split; [exact Hlen|]]]].
  - unfold theta. specialize (Hrand k). pose proof PI_RGT_0. nra.
  - apply acos_bound.
  - rewrite Hlen. exact Hr.
Qed.

Lemma C4_chaos_sphere_shell_witness :
  let random := fun _ : nat => / 2 in
  let theta := random 0%nat * PI * 2 in
  let phi := acos (2 * random (0 + 1)%nat - 1) in
  let r := JSMath.cbrt (random (0 + 2)%nat * (1 - (/ 2) ^ 3) + (/ 2) ^ 3) * 25 in
  let p := fst (ParticleTree.getChaosPos random 25 (/ 2) 0%nat) in
  p = mkVector3 (r * sin phi * cos theta) (r * sin phi * sin theta) (r * cos phi)
  /\ 0 <= theta < 2 * PI
  /\ 0 <= phi <= PI
  /\ / 2 * 25 <= r <= 25
  /\ Vec3.length p = r
  /\ / 2 * 25 <= Vec3.length p <= 25.
Proof.
  intros random.
  apply (C4_chaos_sphere_shell random 25 (/ 2) 0%nat).
  - intros j. unfold random. lra.
  - lra.
  - lra.
Defined.

Section LoopFacts.

Lemma forEach_S {A : Type} (body : nat -> Rand.t A) (n start k : nat) :
  Rand.forEach body (S n) start k
  = (fst (body start k) :: fst (Rand.forEach body n (S start) (snd (body start k))),
     snd (Rand.forEach body n (S start) (snd (body start k)))).
Proof.
  cbn [Rand.forEach]. unfold Rand.bind, Rand.ret.
  destruct (body start k) as [a k']. cbn [fst snd].
  destruct (Rand.forEach body n (S start) k') as [rest k''].
  reflexivity.
Qed.

(** When every run of the body consumes [c] draws, the [i]-th result of
    the loop is the body run at index [start + i] on the draws from
    [k + c * i] on. *)
Lemma forEach_nth {A : Type} (body : nat -> Rand.t A) (c : nat) :
  (forall j k, snd (body j k) = (k + c)%nat) ->
  forall n start k i,
    (i < n)%nat ->
    nth_error (fst (Rand.forEach body n start k)) i
    = Some (fst (body (start + i)%nat (k + c * i)%nat)).
Proof.
  intros Hc. induction n as [| n IH]; intros start k i Hi; [lia|].
  rewrite forEach_S. cbn [fst]. destruct i as [| i].
  - cbn [nth_error]. now rewrite Nat.add_0_r, Nat.mul_0_r, Nat.add_0_r.
  - cbn [nth_error]. rewrite IH by lia. rewrite Hc.
    do 3 f_equal; lia.
Qed.

Lemma foliageParticle_unfold (random : nat -> R) (count i k : nat) :
  ParticleTree.foliageParticle random count i k
  = (let t := 1 - sqrt ((INR i + 1) / (INR count + 1)) in
     let theta := INR i * ParticleTree.GOLDEN_ANGLE in
     let tPos := ParticleTree.getTreePos t theta ParticleTree.TREE_HEIGHT
                                         ParticleTree.TREE_WIDTH in
     ParticleTree.mkParticle
       (mkVector3 (vx tPos + (random k - 5 / 10) * (5 / 100))
                  (vy tPos + (random (k + 1)%nat - 5 / 10) * (5 / 100))
                  (vz tPos + (random (k + 2)%nat - 5 / 10) * (5 / 100)))
       (fst (ParticleTree.getChaosPos random 25 (5 / 10) (k + 3)%nat))
       (random (k + 6)%nat),
     (k + 7)%nat).
Proof.
  replace (k + 1)%nat with (S k) by lia.
  replace (k + 2)%nat with (S (S k)) by lia.
  replace (k + 3)%nat with (S (S (S k))) by lia.
  replace (k + 6)%nat with (S (S (S (S (S (S k)))))) by lia.
  replace (k + 7)%nat with (S (S (S (S (S (S (S k))))))) by lia.
  reflexivity.
Qed.

Lemma jitter_bound (u : R) :
  0 <= u < 1 -> Rabs ((u - 5 / 10) * (5 / 100)) <= 25 / 1000.
Proof. intros Hu. apply Rabs_le. lra. Qed.

End LoopFacts.

(** C5: for every index [i] of the [N] foliage particles, the formed
    position is the cone-shell point given by [t = 1 - sqrt((i+1)/(N+1))],
    [theta = i * PI (3 - sqrt 5)], [y = height t - height / 2],
    [radius = width (1 - t)], [x = radius cos theta],
    [z = radius sin theta] (the tree's height 7 and width 3.5), displaced
    on each axis by a jitter [(U - 0.5) * 0.05] of absolute value at most
    0.025, where [U] is that axis's draw. *)
Theorem C5_foliage_formed_position (random : nat -> R) (N i k : nat) :
  (forall j, 0 <= random j < 1) -> (i < N)%nat ->
  let goldenAngle := PI * (3 - sqrt 5) in
  let height := 7 in
  let width := 35 / 10 in
  let t := 1 - sqrt ((INR i + 1) / (INR N + 1)) in
  let theta := INR i * goldenAngle in
  let y := height * t - height / 2 in
  let radius := width * (1 - t) in
  let x := radius * cos theta in
  let z := radius * sin theta in
  let jx := (random (k + 7 * i)%nat - 5 / 10) * (5 / 100) in
  let jy := (random (k + 7 * i + 1)%nat - 5 / 10) * (5 / 100) in
  let jz := (random (k + 7 * i + 2)%nat - 5 / 10) * (5 / 100) in
  ParticleTree.getTreePos t theta height width = mkVector3 x y z
  /\ (exists particle,
        nth_error (fst (ParticleTree.foliage random N k)) i = Some particle
        /\ ParticleTree.aTargetPos particle = mkVector3 (x + jx) (y + jy) (z + jz))
  /\ Rabs jx <= 25 / 1000 /\ Rabs jy <= 25 / 1000 /\ Rabs jz <= 25 / 1000.
Proof.
  intros Hrand Hi goldenAngle height width t theta y radius x z jx jy jz.
  split; [reflexivity|]. split.
  - unfold ParticleTree.foliage.
    assert (Hdraws : forall j k0,
               snd (ParticleTree.foliageParticle random N j k0) = (k0 + 7)%nat)
      by (intros; now rewrite foliageParticle_unfold).
    rewrite (forEach_nth _ 7%nat Hdraws) by exact Hi.
    eexists. split; [reflexivity|].
    rewrite foliageParticle_unfold. reflexivity.
  - repeat split; apply jitter_bound, Hrand.
Qed.

Lemma C5_foliage_formed_position_witness :
  let random := fun _ : nat => / 4 in
  let N := ParticleTree.foliageCount in
  let i := 4500%nat in
  let k := 0%nat in
  let goldenAngle := PI * (3 - sqrt 5) in
  let height := 7 in
  let width := 35 / 10 in
  let t := 1 - sqrt ((INR i + 1) / (INR N + 1)) in
  let theta := INR i * goldenAngle in
  let y := height * t - height / 2 in
  let radius := width * (1 - t) in
  let x := radius * cos theta in
  let z := radius * sin theta in
  let jx := (random (k + 7 * i)%nat - 5 / 10) * (5 / 100) in
  let jy := (random (k + 7 * i + 1)%nat - 5 / 10) * (5 / 100) in
  let jz := (random (k + 7 * i + 2)%nat - 5 / 10) * (5 / 100) in
  ParticleTree.getTreePos t theta height width = mkVector3 x y z
  /\ (exists particle,
        nth_error (fst (ParticleTree.foliage random N k)) i = Some particle
        /\ ParticleTree.aTargetPos particle = mkVector3 (x + jx) (y + jy) (z + jz))
  /\ Rabs jx <= 25 / 1000 /\ Rabs jy <= 25 / 1000 /\ Rabs jz <= 25 / 1000.
Proof.
  intros random N i k.
  apply (C5_foliage_formed_position random N i k).
  - intros j. unfold random. lra.
  - apply Nat.ltb_lt. vm_compute. reflexivity.
Defined.

(** ** Instance-level choreography *)

Section InstanceFacts.

Lemma norm_factor (a b : R) :
  a <> 0 -> sqrt (a * a + b * b) = Rabs a * sqrt (1 + (b / a)²).
Proof.
  intros Ha.
  assert (Hs : 0 <= 1 + (b / a)²) by (pose proof (Rle_0_sqr (b / a)); lra).
  apply sqrt_lem_1.
  - nra.
  - apply Rmult_le_pos; [apply Rabs_pos | apply sqrt_pos].
  - replace (Rabs a * sqrt (1 + (b / a)²) * (Rabs a * sqrt (1 + (b / a)²)))
      with ((Rabs a * Rabs a) * (sqrt (1 + (b / a)²) * sqrt (1 + (b / a)²)))
      by ring.
    rewrite sqrt_sqrt by exact Hs.
    replace (Rabs a * Rabs a) with (a * a)
      by (unfold Rabs; destruct (Rcase_abs a); ring).
    unfold Rsqr. field. exact Ha.
Qed.

(** [atan2(b, a)] is the angle of the point [(a, b)]: its cosine and sine,
    scaled by the distance of the point from the origin, are [a] and [b]. *)
Lemma atan2_direction (b a : R) :
  sin (JSMath.atan2 b a) * sqrt (a * a + b * b) = b
  /\ cos (JSMath.atan2 b a) * sqrt (a * a + b * b) = a.
Proof.
  unfold JSMath.atan2.
  destruct (total_order_T a 0) as [[Hneg | Hzero] | Hpos].
  - assert (Ha : a <> 0) by lra.
    assert (Hs : 0 < sqrt (1 + (b / a)²)).
    { apply sqrt_lt_R0. pose proof (Rle_0_sqr (b / a)). lra. }
    rewrite (norm_factor a b Ha), (Rabs_left a Hneg).
    destruct (Rlt_dec b 0).
    + rewrite sin_minus, cos_minus, sin_PI, cos_PI, sin_atan, cos_atan.
      split; field; lra.
    + rewrite neg_sin, neg_cos, sin_atan, cos_atan.
      split; field; lra.
  - subst a. replace (0 * 0 + b * b) with (b * b) by ring.
    destruct (total_order_T b 0) as [[Hb | Hb] | Hb].
    + rewrite sin_neg, cos_neg, sin_PI2, cos_PI2.
      replace (b * b) with ((- b) * (- b)) by ring.
      rewrite sqrt_square by lra. lra.
    + subst b. rewrite sin_0, Rmult_0_l. replace (0 * 0) with 0 by ring.
      rewrite sqrt_0. lra.
    + rewrite sin_PI2, cos_PI2, sqrt_square by lra. lra.
  - assert (Ha : a <> 0) by lra.
    assert (Hs : 0 < sqrt (1 + (b / a)²)).
    { apply sqrt_lt_R0. pose proof (Rle_0_sqr (b / a)). lra. }
    rewrite (norm_factor a b Ha), (Rabs_right a) by lra.
    rewrite sin_atan, cos_atan. split; field; lra.
Qed.

Lemma atan2_facesOutward (pos : Vector3) :
  Spec.facesOutward pos (JSMath.atan2 (vx pos) (vz pos)).
Proof.
  unfold Spec.facesOutward. cbv zeta.
  replace (vx pos * vx pos + vz pos * vz pos)
    with (vz pos * vz pos + vx pos * vx pos) by ring.
  apply atan2_direction.
Qed.

Lemma giftBox_frame_mounted (p : GiftBox.Props) (progress delta : R)
  (st : GiftBox.State) (g : GiftBox.Group) :
  GiftBox.groupRef st = Some g ->
  let current := Vec3.lerp (GiftBox.currentPos st) (GiftBox.dest p progress)
                           (delta * (25 / 10)) in
  GiftBox.currentPos (GiftBox.frame p progress delta st) = current
  /\ option_map GiftBox.position
       (GiftBox.groupRef (GiftBox.frame p progress delta st)) = Some current.
Proof. intros H. unfold GiftBox.frame. rewrite H. split; reflexivity. Qed.

Lemma ornament_frame_mounted (d : OrnamentInstance.Data)
  (scaleBase progress delta : R) (st : OrnamentInstance.State)
  (inst : OrnamentInstance.Instance) :
  OrnamentInstance.ref st = Some inst ->
  let current := Vec3.lerp (OrnamentInstance.currentPos st)
                           (OrnamentInstance.dest d progress) (delta * 3) in
  OrnamentInstance.currentPos
    (OrnamentInstance.frame d scaleBase progress delta st) = current
  /\ option_map OrnamentInstance.position
       (OrnamentInstance.ref
          (OrnamentInstance.frame d scaleBase progress delta st)) = Some current.
Proof. intros H. unfold OrnamentInstance.frame. rewrite H. split; reflexivity. Qed.

Lemma polaroid_frame_mounted (d : ParticleTree.PolaroidData) (camera : Vector3)
  (progress delta : R) (st : SinglePolaroid.State) (g : SinglePolaroid.Group) :
  SinglePolaroid.groupRef st = Some g ->
  let current := Vec3.lerp (SinglePolaroid.currentPos st)
                           (SinglePolaroid.dest d progress) (delta * 2) in
  SinglePolaroid.currentPos (SinglePolaroid.frame d camera progress delta st)
  = current
  /\ option_map SinglePolaroid.position
       (SinglePolaroid.groupRef (SinglePolaroid.frame d camera progress delta st))
     = Some current
  /\ option_map SinglePolaroid.orientation
       (SinglePolaroid.groupRef (SinglePolaroid.frame d camera progress delta st))
     = Some (if Rgtb progress (5 / 10)
             then SinglePolaroid.RotateZ
                    (SinglePolaroid.RotateX (SinglePolaroid.LookAt camera)
                                            (ParticleTree.tiltX d))
                    (ParticleTree.tiltZ d)
             else SinglePolaroid.RotationSet
                    0 (JSMath.atan2 (vx current) (vz current)) 0).
Proof.
  intros H. unfold SinglePolaroid.frame. rewrite H. repeat split; reflexivity.
Qed.

End InstanceFacts.

(** C6: in every frame update of a mounted gift box, ornament instance or
    photo panel the position is interpolated (at rate [delta * 2.5],
    [delta * 3], [delta * 2]) towards the chaos position when
    [progress > 0.5] and towards the formed position when
    [progress <= 0.5], and the object is placed there; the photo panel's
    orientation is [lookAt(camera)] followed by its fixed tilt about the local
    X and Z axes when [progress > 0.5], and the Euler rotation
    [(0, atan2(x, z), 0)] of its position [(x, _, z)] when
    [progress <= 0.5], a yaw that turns the panel's front away from the
    tree axis. *)
Theorem C6_threshold_gated_destination
  (gift : GiftBox.Props) (giftState : GiftBox.State) (giftGroup : GiftBox.Group)
  (orn : OrnamentInstance.Data) (ornState : OrnamentInstance.State)
  (ornInstance : OrnamentInstance.Instance) (scaleBase : R)
  (photo : ParticleTree.PolaroidData) (photoState : SinglePolaroid.State)
  (photoGroup : SinglePolaroid.Group) (camera : Vector3)
  (progress delta : R) :
  GiftBox.groupRef giftState = Some giftGroup ->
  OrnamentInstance.ref ornState = Some ornInstance ->
  SinglePolaroid.groupRef photoState = Some photoGroup ->
  let giftState' := GiftBox.frame gift progress delta giftState in
  let ornState' := OrnamentInstance.frame orn scaleBase progress delta ornState in
  let photoState' := SinglePolaroid.frame photo camera progress delta photoState in
  let photoPos := SinglePolaroid.currentPos photoState' in
  (5 / 10 < progress ->
     GiftBox.currentPos giftState'
     = Vec3.lerp (GiftBox.currentPos giftState) (GiftBox.chaos gift)
                 (delta * (25 / 10))
     /\ OrnamentInstance.currentPos ornState'
        = Vec3.lerp (OrnamentInstance.currentPos ornState)
                    (OrnamentInstance.chaos orn) (delta * 3)
     /\ photoPos
        = Vec3.lerp (SinglePolaroid.currentPos photoState)
                    (ParticleTree.chaos photo) (delta * 2)
     /\ option_map SinglePolaroid.orientation (SinglePolaroid.groupRef photoState')
        = Some (SinglePolaroid.RotateZ
                  (SinglePolaroid.RotateX (SinglePolaroid.LookAt camera)
                                          (ParticleTree.tiltX photo))
                  (ParticleTree.tiltZ photo)))
  /\ (progress <= 5 / 10 ->
     GiftBox.currentPos giftState'
     = Vec3.lerp (GiftBox.currentPos giftState) (GiftBox.target gift)
                 (delta * (25 / 10))
     /\ OrnamentInstance.currentPos ornState'
        = Vec3.lerp (OrnamentInstance.currentPos ornState)
                    (OrnamentInstance.target orn) (delta * 3)
     /\ photoPos
        = Vec3.lerp (SinglePolaroid.currentPos photoState)
                    (ParticleTree.target photo) (delta * 2)
     /\ option_map SinglePolaroid.orientation (SinglePolaroid.groupRef photoState')
        = Some (SinglePolaroid.RotationSet
                  0 (JSMath.atan2 (vx photoPos) (vz photoPos)) 0)
     /\ Spec.facesOutward photoPos (JSMath.atan2 (vx photoPos) (vz photoPos)))
  /\ option_map GiftBox.position (GiftBox.groupRef giftState')
     = Some (GiftBox.currentPos giftState')
  /\ option_map OrnamentInstance.position (OrnamentInstance.ref ornState')
     = Some (OrnamentInstance.currentPos ornState')
  /\ option_map SinglePolaroid.position (SinglePolaroid.groupRef photoState')
     = Some photoPos.
Proof.
  intros Hg Ho Hp giftState' ornState' photoState' photoPos.
  destruct (giftBox_frame_mounted gift progress delta _ _ Hg) as [Gc Gp].
  destruct (ornament_frame_mounted orn scaleBase progress delta _ _ Ho) as [Oc Op].
  destruct (polaroid_frame_mounted photo camera progress delta _ _ Hp)
    as (Pc & Pp & Po).
  unfold photoPos, giftState', ornState', photoState'.
  rewrite Gc, Oc, Pc, Gp, Op, Pp, Po.
  unfold GiftBox.dest, OrnamentInstance.dest, SinglePolaroid.dest.
  split; [|split; [|repeat split]].
  - intros Hgt. apply Rgtb_true in Hgt. rewrite Hgt. repeat split.
  - intros Hle. apply Rgtb_false in Hle. rewrite Hle.
    repeat (split; [reflexivity|]). apply atan2_facesOutward.
Qed.

Lemma C6_threshold_gated_destination_witness :
  let gift := GiftBox.mkProps (mkVector3 1 (- 3) 2) (mkVector3 10 12 (- 9))
                              (5 / 10) (mkEuler 0 1 0) in
  let giftGroup := GiftBox.mkGroup (mkVector3 1 (- 3) 2) (mkEuler 0 1 0) (5 / 10) in
  let giftState := GiftBox.mkState (Some giftGroup) (mkVector3 1 (- 3) 2) in
  let orn := OrnamentInstance.mkData (mkVector3 2 1 0) (mkVector3 (- 8) 5 14) 1 in
  let ornInstance := OrnamentInstance.mkInstance (mkVector3 2 1 0) (mkEuler 0 0 0)
                                                 (mkVector3 1 1 1) in
  let ornState := OrnamentInstance.mkState (Some ornInstance) (mkVector3 2 1 0) in
  let photo := ParticleTree.mkPolaroidData (mkVector3 3 0 (- 1))
                 (mkVector3 6 6 6) (1 / 10) (- 1 / 10) in
  let photoGroup := SinglePolaroid.mkGroup (mkVector3 3 0 (- 1)) 1
                      (SinglePolaroid.RotationSet 0 0 0) in
  let photoState := SinglePolaroid.mkState (Some photoGroup) (mkVector3 3 0 (- 1)) in
  let camera := mkVector3 0 2 14 in
  let progress := 6 / 10 in
  let delta := / 60 in
  let scaleBase := 15 / 100 in
  let giftState' := GiftBox.frame gift progress delta giftState in
  let ornState' := OrnamentInstance.frame orn scaleBase progress delta ornState in
  let photoState' := SinglePolaroid.frame photo camera progress delta photoState in
  let photoPos := SinglePolaroid.currentPos photoState' in
  (5 / 10 < progress ->
     GiftBox.currentPos giftState'
     = Vec3.lerp (GiftBox.currentPos giftState) (GiftBox.chaos gift)
                 (delta * (25 / 10))
     /\ OrnamentInstance.currentPos ornState'
        = Vec3.lerp (OrnamentInstance.currentPos ornState)
                    (OrnamentInstance.chaos orn) (delta * 3)
     /\ photoPos
        = Vec3.lerp (SinglePolaroid.currentPos photoState)
                    (ParticleTree.chaos photo) (delta * 2)
     /\ option_map SinglePolaroid.orientation (SinglePolaroid.groupRef photoState')
        = Some (SinglePolaroid.RotateZ
                  (SinglePolaroid.RotateX (SinglePolaroid.LookAt camera)
                                          (ParticleTree.tiltX photo))
                  (ParticleTree.tiltZ photo)))
  /\ (progress <= 5 / 10 ->
     GiftBox.currentPos giftState'
     = Vec3.lerp (GiftBox.currentPos giftState) (GiftBox.target gift)
                 (delta * (25 / 10))
     /\ OrnamentInstance.currentPos ornState'
        = Vec3.lerp (OrnamentInstance.currentPos ornState)
                    (OrnamentInstance.target orn) (delta * 3)
     /\ photoPos
        = Vec3.lerp (SinglePolaroid.currentPos photoState)
                    (ParticleTree.target photo) (delta * 2)
     /\ option_map SinglePolaroid.orientation (SinglePolaroid.groupRef photoState')
        = Some (SinglePolaroid.RotationSet
                  0 (JSMath.atan2 (vx photoPos) (vz photoPos)) 0)
     /\ Spec.facesOutward photoPos (JSMath.atan2 (vx photoPos) (vz photoPos)))
  /\ option_map GiftBox.position (GiftBox.groupRef giftState')
     = Some (GiftBox.currentPos giftState')
  /\ option_map OrnamentInstance.position (OrnamentInstance.ref ornState')
     = Some (OrnamentInstance.currentPos ornState')
  /\ option_map SinglePolaroid.position (SinglePolaroid.groupRef photoState')
     = Some photoPos.
Proof.
  intros gift giftGroup giftState orn ornInstance ornState photo photoGroup
    photoState camera progress delta scaleBase.
  apply (C6_threshold_gated_destination gift giftState giftGroup orn ornState
           ornInstance scaleBase photo photoState photoGroup camera progress delta);
    reflexivity.
Defined.

(** * Part III: the rest of the code *)

(** ** The classifier on arbitrary samples *)

Section ClassifierMore.
Import VisionManager Spec.

(** On a sample with at least 21 landmarks the classifier never throws. *)
Lemma isHandOpen_full (lm : HandSample) :
  (21 <= List.length lm)%nat ->
  isHandOpen lm =
  Some (3 <=? fingerBit lm 8 6 + fingerBit lm 12 10
              + fingerBit lm 16 14 + fingerBit lm 20 18)%nat.
Proof.
  intros Hlen. unfold isHandOpen, fingerIndices.
  rewrite (nth_error_landmark lm 0) by lia.
  cbn [countOpenFingers tip pip].
  rewrite !nth_error_landmark by lia.
  cbv zeta. unfold fingerBit.
  repeat destruct (Rgtb _ _); reflexivity.
Qed.

Lemma isHandOpen_short (lm : HandSample) :
  (List.length lm < 21)%nat -> isHandOpen lm = None.
Proof.
  intros Hlen.
  assert (H20 : nth_error lm 20 = None) by (apply nth_error_None; lia).
  unfold isHandOpen, fingerIndices.
  destruct (nth_error lm 0) as [wrist|]; [|reflexivity].
  cbn [countOpenFingers tip pip]. rewrite H20.
  repeat match goal with
         | |- context [nth_error lm ?i] => destruct (nth_error lm i)
         end; reflexivity.
Qed.

Lemma sum_squares_nonneg (a b : R) : 0 <= a * a + b * b.
Proof. nra. Qed.

Lemma detect_running (c : Iteration) :
  0 < currentTime c ->
  detect c =
  match landmarks c with
  | Some (hand :: _) =>
      match nth_error hand 9, nth_error hand 0, isHandOpen hand with
      | Some center, Some wrist, Some isOpen =>
          Some (SetHandPosition
                  (1 - x center) (y center)
                  (sqrt ((x center - x wrist) * (x center - x wrist)
                         + (y center - y wrist) * (y center - y wrist)))
                  true isOpen)
      | _, _, _ => None
      end
  | _ => Some Spec.neutral
  end.
Proof.
  intros H. unfold detect. apply Rgtb_true in H. rewrite H. reflexivity.
Qed.

End ClassifierMore.

(** X1: the classifier throws exactly on samples with fewer than 21
    landmarks. *)
Theorem X1_isHandOpen_throws_iff_short (lm : VisionManager.HandSample) :
  VisionManager.isHandOpen lm = None <-> (List.length lm < 21)%nat.
Proof.
  split.
  - intros H. destruct (Nat.lt_ge_cases (List.length lm) 21) as [Hlt | Hge];
      [exact Hlt|].
    rewrite (isHandOpen_full lm Hge) in H. discriminate.
  - apply isHandOpen_short.
Qed.

(** X3: on a running video whose first hand has at least 21 landmarks, the
    loop emits a tracked signal: [x] is the mirrored [x] of landmark 9, [y]
    is its [y], [z] is the non-negative number whose square is the squared
    screen distance between landmarks 0 and 9, the flag is the classifier's
    answer; any further hands are ignored. *)
Theorem X3_detect_tracked_signal (c : VisionManager.Iteration)
  (hand : VisionManager.HandSample) (others : list VisionManager.HandSample) :
  0 < VisionManager.currentTime c ->
  VisionManager.landmarks c = Some (hand :: others) ->
  (21 <= List.length hand)%nat ->
  exists (hz : R) (isOpen : bool),
    VisionManager.detect c
    = Some (VisionManager.SetHandPosition
              (1 - VisionManager.x (Spec.landmark hand 9))
              (VisionManager.y (Spec.landmark hand 9)) hz true isOpen)
    /\ 0 <= hz
    /\ hz * hz
       = VisionManager.distSq (Spec.landmark hand 0) (Spec.landmark hand 9)
    /\ VisionManager.isHandOpen hand = Some isOpen
    /\ VisionManager.detect
         (VisionManager.mkIteration (VisionManager.currentTime c) (Some [hand]))
       = VisionManager.detect c.
Proof.
  intros Hrun Hlm Hlen.
  rewrite (detect_running c Hrun), Hlm.
  rewrite (detect_running (VisionManager.mkIteration _ _)) by exact Hrun.
  cbn [VisionManager.landmarks].
  rewrite !nth_error_landmark by lia.
  rewrite (isHandOpen_full hand Hlen).
  do 2 eexists. split; [reflexivity|].
  split; [apply sqrt_pos|]. split; [|split; reflexivity].
  rewrite sqrt_sqrt by apply sum_squares_nonneg.
  unfold VisionManager.distSq. ring.
Qed.

Lemma X3_detect_tracked_signal_witness :
  exists (hz : R) (isOpen : bool),
    VisionManager.detect Samples.palmFrame
    = Some (VisionManager.SetHandPosition
              (1 - VisionManager.x (Spec.landmark Samples.openPalm 9))
              (VisionManager.y (Spec.landmark Samples.openPalm 9)) hz true isOpen)
    /\ 0 <= hz
    /\ hz * hz
       = VisionManager.distSq (Spec.landmark Samples.openPalm 0)
                              (Spec.landmark Samples.openPalm 9)
    /\ VisionManager.isHandOpen Samples.openPalm = Some isOpen
    /\ VisionManager.detect
         (VisionManager.mkIteration (VisionManager.currentTime Samples.palmFrame)
                                    (Some [Samples.openPalm]))
       = VisionManager.detect Samples.palmFrame.
Proof.
  apply (X3_detect_tracked_signal Samples.palmFrame Samples.openPalm []).
  - simpl. lra.
  - reflexivity.
  - simpl. lia.
Defined.

(** X4: an iteration of the detection loop throws exactly when the video
    runs and the first detected hand has fewer than 21 landmarks. *)
Theorem X4_detect_throws_iff (c : VisionManager.Iteration) :
  VisionManager.detect c = None
  <-> 0 < VisionManager.currentTime c
      /\ exists hand others,
           VisionManager.landmarks c = Some (hand :: others)
           /\ (List.length hand < 21)%nat.
Proof.
  split.
  - intros H. destruct (Rlt_dec 0 (VisionManager.currentTime c)) as [Hrun | Hidle].
    + split; [exact Hrun|].
      rewrite (detect_running c Hrun) in H.
      destruct (VisionManager.landmarks c) as [[| hand others] |];
        try discriminate.
      exists hand, others. split; [reflexivity|].
      destruct (Nat.lt_ge_cases (List.length hand) 21) as [Hlt | Hge];
        [exact Hlt|].
      rewrite !nth_error_landmark, (isHandOpen_full hand Hge) in H by lia.
      discriminate.
    + unfold VisionManager.detect in H.
      rewrite (proj2 (Rgtb_false _ _)) in H by lra. discriminate.
  - intros (Hrun & hand & others & Hlm & Hlen).
    rewrite (detect_running c Hrun), Hlm, (isHandOpen_short hand Hlen).
    destruct (nth_error hand 9), (nth_error hand 0); reflexivity.
Qed.

(** ** The store, the photo binding *)

Section StoreFacts.

Lemma emit_addUserPhotos (e : VisionManager.Emission) (photos : list string)
  (s : Store.TreeState) :
  VisionManager.emit e (Store.addUserPhotos photos s)
  = Store.addUserPhotos photos (VisionManager.emit e s).
Proof. destruct e; reflexivity. Qed.

Lemma detectStep_addUserPhotos (c : VisionManager.Iteration)
  (photos : list string) (s : Store.TreeState) :
  VisionManager.detectStep c (Store.addUserPhotos photos s)
  = option_map (Store.addUserPhotos photos) (VisionManager.detectStep c s).
Proof.
  unfold VisionManager.detectStep.
  destruct (VisionManager.detect c) as [e|]; [|reflexivity].
  cbn [option_map]. now rewrite emit_addUserPhotos.
Qed.

End StoreFacts.

(** X5: uploads and detection do not interfere: running the detection loop
    after an upload gives the store that the upload gives after the loop
    (and throws in the same cases); two uploads in a row are one upload of
    the concatenated lists. *)
Theorem X5_upload_commutes_with_detection (cs : list VisionManager.Iteration)
  (photos more : list string) (s : Store.TreeState) :
  VisionManager.runLoop cs (Store.addUserPhotos photos s)
  = option_map (Store.addUserPhotos photos) (VisionManager.runLoop cs s)
  /\ Store.addUserPhotos more (Store.addUserPhotos photos s)
     = Store.addUserPhotos (photos ++ more) s.
Proof.
  split.
  - revert s. induction cs as [| c cs IH]; intros s; [reflexivity|].
    cbn [VisionManager.runLoop]. rewrite detectStep_addUserPhotos.
    destruct (VisionManager.detectStep c s) as [s'|]; [|reflexivity].
    cbn [option_map]. apply IH.
  - unfold Store.addUserPhotos. cbn. now rewrite app_assoc.
Qed.

(** X6: a photo keeps the panel slot of its own index when more photos are
    uploaded: for [i] below the length of the old list, slot [i] is bound to
    photo [i] before and after the upload. *)
Theorem X6_photo_slot_stable_under_upload (old more : list string) (i : nat) :
  (i < List.length old)%nat ->
  Polaroids.photoUrl (old ++ more) i = nth_error old i
  /\ Polaroids.photoUrl old i = nth_error old i.
Proof.
  intros Hi.
  assert (Hgen : forall extra,
             Polaroids.photoUrl (old ++ extra) i = nth_error old i).
  { intros extra. unfold Polaroids.photoUrl. rewrite length_app.
    destruct (Nat.ltb_spec 0 (List.length old + List.length extra)); [|lia].
    rewrite Nat.mod_small by lia. now apply nth_error_app1. }
  split; [apply Hgen|].
  rewrite <- (app_nil_r old) at 1. apply Hgen.
Qed.

Lemma X6_photo_slot_stable_under_upload_witness :
  let old := ["a"%string; "b"%string] in
  let more := ["c"%string; "d"%string; "e"%string] in
  Polaroids.photoUrl (old ++ more)%list 1 = nth_error old 1
  /\ Polaroids.photoUrl old 1 = nth_error old 1.
Proof.
  intros old more.
  apply (X6_photo_slot_stable_under_upload old more 1).
  simpl. lia.
Defined.

(** ** The camera rig while a hand is tracked *)

Section RigTrackedFacts.
Import GestureController.

Lemma clamp_bounds (v lo hi : R) :
  lo <= hi -> lo <= MathUtils.clamp v lo hi <= hi.
Proof.
  intros H. unfold MathUtils.clamp, Rmax, Rmin.
  destruct (Rle_dec hi v); destruct (Rle_dec lo _); lra.
Qed.

Lemma clamp_monotone (v w lo hi : R) :
  v <= w -> MathUtils.clamp v lo hi <= MathUtils.clamp w lo hi.
Proof.
  intros H. unfold MathUtils.clamp.
  apply Rle_max_compat_l, Rle_min_compat_l, H.
Qed.

(** The distance the tracked branch computes from [handZ]. *)
Lemma axisDistance_gestureTarget (s : Store.TreeState) :
  Geometry.axisDistance (gestureTarget s)
  = MathUtils.mapLinear
      (MathUtils.clamp (Store.handZ s) (5 / 100) (35 / 100))
      (5 / 100) (35 / 100) 22 6.
Proof.
  pose proof (clamp_bounds (Store.handZ s) (5 / 100) (35 / 100)) as Hc.
  unfold Geometry.axisDistance, gestureTarget. cbn [vx vz].
  set (d := MathUtils.mapLinear _ _ _ _ _).
  set (az := (Store.handX s - 5 / 10) * (25 / 10)).
  assert (Hd : 0 <= d).
  { unfold d, MathUtils.mapLinear.
    set (zc := MathUtils.clamp _ _ _) in *. lra. }
  replace (d * sin az * (d * sin az) + d * cos az * (d * cos az))
    with (d * d * (Rsqr (sin az) + Rsqr (cos az))) by (unfold Rsqr; ring).
  rewrite sin2_cos2, Rmult_1_r. now apply sqrt_square.
Qed.

Lemma lerp_between (a b t : R) :
  0 <= t <= 1 -> Geometry.between a b (a + (b - a) * t).
Proof.
  intros Ht. unfold Geometry.between, Rmin, Rmax.
  destruct (Rle_dec a b); nra.
Qed.

Lemma vec3_lerp_inBox (a b : Vector3) (t : R) :
  0 <= t <= 1 -> Geometry.inBox a b (Vec3.lerp a b t).
Proof.
  intros Ht. unfold Geometry.inBox, Vec3.lerp. cbn [vx vy vz].
  repeat split; apply lerp_between; exact Ht.
Qed.

Lemma vec3_lerp_gap (a b : Vector3) (t : R) :
  Vector3Ops.sub b (Vec3.lerp a b t)
  = Vector3Ops.multiplyScalar (Vector3Ops.sub b a) (1 - t).
Proof.
  unfold Vector3Ops.sub, Vector3Ops.multiplyScalar, Vec3.lerp.
  cbn [vx vy vz]. f_equal; ring.
Qed.

End RigTrackedFacts.

(** X7: whatever the hand position, the camera target lies between 6 and 22
    units from the tree's vertical axis, at height [8 - 10 * handY]. *)
Theorem X7_camera_target_range (s : Store.TreeState) :
  6 <= Geometry.axisDistance (GestureController.gestureTarget s) <= 22
  /\ vy (GestureController.gestureTarget s) = 8 - 10 * Store.handY s.
Proof.
  rewrite axisDistance_gestureTarget.
  pose proof (clamp_bounds (Store.handZ s) (5 / 100) (35 / 100)) as Hc.
  unfold MathUtils.mapLinear.
  set (zc := MathUtils.clamp _ _ _) in *.
  split; [lra|].
  unfold GestureController.gestureTarget, MathUtils.lerp. cbn [vy]. ring.
Qed.

(** X8: a hand that appears larger (closer to the webcam) never moves the
    camera target farther from the tree axis. *)
Theorem X8_closer_hand_nearer_camera (s1 s2 : Store.TreeState) :
  Store.handZ s1 <= Store.handZ s2 ->
  Geometry.axisDistance (GestureController.gestureTarget s2)
  <= Geometry.axisDistance (GestureController.gestureTarget s1).
Proof.
  intros H. rewrite !axisDistance_gestureTarget.
  pose proof (clamp_monotone _ _ (5 / 100) (35 / 100) H) as Hm.
  unfold MathUtils.mapLinear.
  set (z1 := MathUtils.clamp (Store.handZ s1) _ _) in *.
  set (z2 := MathUtils.clamp (Store.handZ s2) _ _) in *.
  lra.
Qed.

Lemma X8_closer_hand_nearer_camera_witness :
  Geometry.axisDistance (GestureController.gestureTarget Samples.untracked)
  <= Geometry.axisDistance (GestureController.gestureTarget Samples.tracked).
Proof.
  apply (X8_closer_hand_nearer_camera Samples.tracked Samples.untracked).
  simpl. lra.
Defined.

(** X9: on a tracked frame the camera is placed at the rig's [currentPos],
    and its offset from the gesture target is the previous offset scaled by
    [1 - 3 * delta]; so for a delta of at most a third of a second every
    coordinate of the camera lies between its previous value and the
    target's (no overshoot). *)
Theorem X9_tracked_frame_no_overshoot (s : Store.TreeState) (delta : R)
  (r : GestureController.Rig) :
  Store.isTracking s = true -> 0 <= delta <= / 3 ->
  let r' := GestureController.frame s delta r in
  let target := GestureController.gestureTarget s in
  GestureController.cameraPosition r' = GestureController.currentPos r'
  /\ GestureController.targetPos r' = target
  /\ Vector3Ops.sub target (GestureController.cameraPosition r')
     = Vector3Ops.multiplyScalar
         (Vector3Ops.sub target (GestureController.currentPos r))
         (1 - delta * 3)
  /\ Geometry.inBox (GestureController.currentPos r) target
                    (GestureController.cameraPosition r').
Proof.
  intros Htr Hd r' target. unfold r', GestureController.frame. rewrite Htr.
  cbn [GestureController.cameraPosition GestureController.currentPos
       GestureController.targetPos].
  split; [reflexivity|]. split; [reflexivity|]. split.
  - apply vec3_lerp_gap.
  - apply vec3_lerp_inBox. lra.
Qed.

Lemma X9_tracked_frame_no_overshoot_witness :
  let s := Samples.tracked in
  let delta := / 60 in
  let r := GestureController.initial in
  let r' := GestureController.frame s delta r in
  let target := GestureController.gestureTarget s in
  GestureController.cameraPosition r' = GestureController.currentPos r'
  /\ GestureController.targetPos r' = target
  /\ Vector3Ops.sub target (GestureController.cameraPosition r')
     = Vector3Ops.multiplyScalar
         (Vector3Ops.sub target (GestureController.currentPos r))
         (1 - delta * 3)
  /\ Geometry.inBox (GestureController.currentPos r) target
                    (GestureController.cameraPosition r').
Proof.
  intros s delta r.
  apply (X9_tracked_frame_no_overshoot s delta r); [reflexivity|].
  unfold delta. lra.
Defined.

(** ** The morph progress under a held gesture *)

Section MorphMore.
Import LuxuryTree MorphSpec.

Lemma frame_towards_target (p : R) (tk : Tick) :
  0 <= delta tk <= / 2 ->
  Geometry.between p (morphTarget (isHandOpen tk)) (frame p tk).
Proof.
  intros Hd. unfold frame, MathUtils.lerp, morphTarget.
  replace ((1 - delta tk * 2) * p + delta tk * 2 * (if isHandOpen tk then 1 else 0))
    with (p + ((if isHandOpen tk then 1 else 0) - p) * (delta tk * 2)) by ring.
  apply lerp_between. lra.
Qed.

Lemma between_trans_target (p q target c : R) :
  Geometry.between p target q -> Geometry.between q target c ->
  Geometry.between p target c.
Proof.
  unfold Geometry.between, Rmin, Rmax.
  destruct (Rle_dec p target), (Rle_dec q target); lra.
Qed.

Lemma frame_flip (p : R) (tk : Tick) :
  frame (1 - p) (mkTick (delta tk) (negb (isHandOpen tk))) = 1 - frame p tk.
Proof.
  unfold frame, MathUtils.lerp. cbn [delta isHandOpen].
  destruct (isHandOpen tk); cbn [negb]; ring.
Qed.

End MorphMore.

(** X10: while the gesture is held (every tick has the same flag) and the
    frame deltas are at most half a second, the stored progress moves
    towards the flag's target (1 for open, 0 for closed) and never past it:
    after any number of ticks it lies between its starting value and the
    target. *)
Theorem X10_progress_moves_towards_target (ticks : list LuxuryTree.Tick)
  (open : bool) (p : R) :
  Forall (fun tk => 0 <= LuxuryTree.delta tk <= / 2
                    /\ LuxuryTree.isHandOpen tk = open) ticks ->
  Geometry.between p (MorphSpec.morphTarget open) (LuxuryTree.run ticks p).
Proof.
  intros H. revert p. unfold LuxuryTree.run.
  induction H as [| tk ticks [Hd Ho] _ IH]; intros p.
  - cbn. unfold Geometry.between, Rmin, Rmax.
    destruct (Rle_dec p (MorphSpec.morphTarget open)); lra.
  - cbn [fold_left].
    apply (between_trans_target p (LuxuryTree.frame p tk)).
    + rewrite <- Ho. now apply frame_towards_target.
    + apply IH.
Qed.

Lemma X10_progress_moves_towards_target_witness :
  Geometry.between (3 / 10) (MorphSpec.morphTarget false)
    (LuxuryTree.run [LuxuryTree.mkTick (/ 60) false;
                     LuxuryTree.mkTick (/ 2) false] (3 / 10)).
Proof.
  apply (X10_progress_moves_towards_target _ false (3 / 10)).
  repeat constructor; simpl; lra.
Defined.

(** X11: closing mirrors opening: flipping every gesture flag of a run and
    starting from [1 - p] ends at one minus where the run ends from [p]. *)
Theorem X11_open_close_symmetry (ticks : list LuxuryTree.Tick) (p : R) :
  LuxuryTree.run (MorphSpec.flipTicks ticks) (1 - p)
  = 1 - LuxuryTree.run ticks p.
Proof.
  revert p. unfold LuxuryTree.run, MorphSpec.flipTicks.
  induction ticks as [| tk ticks IH]; intros p; [cbn; ring|].
  cbn [map fold_left]. rewrite frame_flip. apply IH.
Qed.

(** X12: when the hand leaves the picture, the next detection cycle makes
    the scene let go: the store is untracked and closed (its photos
    untouched), so the rig's next frame leaves the camera where it is and
    the morph progress does not grow (for a progress of at least 0 and a
    delta of at most half a second). *)
Theorem X12_hand_lost_releases_scene (c : VisionManager.Iteration)
  (s s' : Store.TreeState) (r : GestureController.Rig) (delta p : R) :
  Spec.detectionCycle c -> Spec.noHand c ->
  VisionManager.detectStep c s = Some s' ->
  0 <= delta <= / 2 -> 0 <= p ->
  Store.isTracking s' = false
  /\ Store.isHandOpen s' = false
  /\ Store.userPhotos s' = Store.userPhotos s
  /\ GestureController.cameraPosition (GestureController.frame s' delta r)
     = GestureController.cameraPosition r
  /\ LuxuryTree.frame p (LuxuryTree.mkTick delta (Store.isHandOpen s')) <= p.
Proof.
  intros Hrun Hno Hstep Hd Hp.
  unfold VisionManager.detectStep in Hstep.
  rewrite (detect_running c Hrun) in Hstep.
  assert (Hs : s' = VisionManager.emit Spec.neutral s).
  { destruct Hno as [Hn | Hn]; rewrite Hn in Hstep; now inversion Hstep. }
  subst s'. cbn.
  repeat split.
  unfold LuxuryTree.frame, MathUtils.lerp. cbn. nra.
Qed.

Lemma X12_hand_lost_releases_scene_witness :
  let s := Samples.tracked in
  let s' := VisionManager.emit Spec.neutral s in
  let r := GestureController.initial in
  Store.isTracking s' = false
  /\ Store.isHandOpen s' = false
  /\ Store.userPhotos s' = Store.userPhotos s
  /\ GestureController.cameraPosition (GestureController.frame s' (/ 60) r)
     = GestureController.cameraPosition r
  /\ LuxuryTree.frame (8 / 10)
       (LuxuryTree.mkTick (/ 60) (Store.isHandOpen s')) <= 8 / 10.
Proof.
  intros s s' r.
  apply (X12_hand_lost_releases_scene Samples.emptyFrame s s' r (/ 60) (8 / 10)).
  - unfold Spec.detectionCycle. simpl. lra.
  - right. reflexivity.
  - unfold VisionManager.detectStep.
    rewrite (detect_running Samples.emptyFrame) by (simpl; lra).
    reflexivity.
  - lra.
  - lra.
Defined.

(** ** Where the generators put things *)

Section GeneratorFacts.

Variable random : nat -> R.
Hypothesis random_range : forall j, 0 <= random j < 1.

(** The chaos point lies in the shell between [m * scale] and [scale]. *)
Lemma getChaosPos_shell (scale m : R) (k : nat) :
  0 < scale -> 0 <= m <= 1 ->
  m * scale <= Vec3.length (fst (ParticleTree.getChaosPos random scale m k))
            <= scale.
Proof.
  intros Hs Hm. rewrite getChaosPos_unfold. cbv zeta. cbn [fst].
  assert (Hm3 : 0 <= m ^ 3 <= 1).
  { split; [apply pow_le; lra|].
    replace 1 with (1 ^ 3) by ring. apply pow_incr. lra. }
  assert (Hc : m <= JSMath.cbrt (random (S (S k)) * (1 - m ^ 3) + m ^ 3) <= 1).
  { apply cbrt_between; [lra|]. specialize (random_range (S (S k))). nra. }
  rewrite spherical_length by nra. nra.
Qed.

Lemma getChaosPos_draws (scale m : R) (k : nat) :
  snd (ParticleTree.getChaosPos random scale m k) = (k + 3)%nat.
Proof. rewrite getChaosPos_unfold. cbn [snd]. lia. Qed.

End GeneratorFacts.

Section ShellFacts.

(** The fraction [sqrt((i + 1) / (N + 1))] of the cone-shell placement. *)
Lemma shell_fraction_bounds (N i : nat) :
  (i < N)%nat -> 0 < sqrt ((INR i + 1) / (INR N + 1)) < 1.
Proof.
  intros Hi.
  pose proof (pos_INR i) as Hi0. apply lt_INR in Hi.
  assert (Hq : 0 < (INR i + 1) / (INR N + 1) < 1).
  { split.
    - apply Rdiv_lt_0_compat; lra.
    - apply (Rmult_lt_reg_r (INR N + 1)); [lra|].
      unfold Rdiv. rewrite Rmult_assoc, Rinv_l by lra. lra. }
  split.
  - apply sqrt_lt_R0. lra.
  - assert (H1 : sqrt ((INR i + 1) / (INR N + 1)) < sqrt 1)
      by (apply sqrt_lt_1; lra).
    now rewrite sqrt_1 in H1.
Qed.

Lemma shell_fraction_increasing (N i j : nat) :
  (i < j)%nat ->
  sqrt ((INR i + 1) / (INR N + 1)) < sqrt ((INR j + 1) / (INR N + 1)).
Proof.
  intros Hij.
  pose proof (pos_INR i) as Hi0. pose proof (pos_INR N) as HN0.
  apply lt_INR in Hij.
  assert (Hinv : 0 < / (INR N + 1)) by (apply Rinv_0_lt_compat; lra).
  apply sqrt_lt_1.
  - apply Rlt_le, Rdiv_lt_0_compat; lra.
  - apply Rlt_le, Rdiv_lt_0_compat; lra.
  - unfold Rdiv. apply Rmult_lt_compat_r; lra.
Qed.



(** A point given by a radius and an angle about the vertical axis lies at
    that radius from the axis. *)
Lemma axisDistance_polar (r theta py : R) :
  0 <= r ->
  Geometry.axisDistance (mkVector3 (r * cos theta) py (r * sin theta)) = r.
Proof.
  intros Hr. unfold Geometry.axisDistance. cbn [vx vz].
  replace (r * cos theta * (r * cos theta) + r * sin theta * (r * sin theta))
    with (r * r * (Rsqr (sin theta) + Rsqr (cos theta))) by (unfold Rsqr; ring).
  rewrite sin2_cos2, Rmult_1_r. now apply sqrt_square.
Qed.

Lemma axisDistance_getTreePos (t theta height width : R) :
  0 <= width * (1 - t) ->
  Geometry.axisDistance (ParticleTree.getTreePos t theta height width)
  = width * (1 - t).
Proof. intros H. unfold ParticleTree.getTreePos. now apply axisDistance_polar. Qed.

Lemma forEach_draws {A : Type} (body : nat -> Rand.t A) (c : nat) :
  (forall j k, snd (body j k) = (k + c)%nat) ->
  forall n start k, snd (Rand.forEach body n start k) = (k + c * n)%nat.
Proof.
  intros Hc. induction n as [| n IH]; intros start k.
  - cbn. lia.
  - rewrite forEach_S. cbn [snd]. rewrite IH, Hc. lia.
Qed.

Lemma foliageParticle_draws (random : nat -> R) (N j k : nat) :
  snd (ParticleTree.foliageParticle random N j k) = (k + 7)%nat.
Proof. now rewrite foliageParticle_unfold. Qed.

Lemma polaroidData_unfold (random : nat -> R) (count i k : nat) :
  ParticleTree.polaroidData random count i k
  = (ParticleTree.mkPolaroidData
       (ParticleTree.getTreePos
          (1 - sqrt ((INR i + 1) / (INR count + 1)))
          (INR i * ParticleTree.GOLDEN_ANGLE) ParticleTree.TREE_HEIGHT
          (ParticleTree.TREE_WIDTH * (11 / 10)))
       (fst (ParticleTree.getChaosPos random 12 0 k))
       ((random (k + 3)%nat - 5 / 10) * (5 / 10))
       ((random (k + 4)%nat - 5 / 10) * (5 / 10)),
     (k + 5)%nat).
Proof.
  replace (k + 3)%nat with (S (S (S k))) by lia.
  replace (k + 4)%nat with (S (S (S (S k)))) by lia.
  replace (k + 5)%nat with (S (S (S (S (S k))))) by lia.
  reflexivity.
Qed.

End ShellFacts.



(** X14: for [N] particles the foliage loop builds exactly [N] entries and
    takes exactly [7 N] draws; with [N = 0] it builds nothing and draws
    nothing. *)
Theorem X14_foliage_size_and_draws (random : nat -> R) (N k : nat) :
  List.length (fst (ParticleTree.foliage random N k)) = N
  /\ snd (ParticleTree.foliage random N k) = (k + 7 * N)%nat
  /\ ParticleTree.foliage random 0 k = ([], k).
Proof.
  unfold ParticleTree.foliage. split; [apply forEach_length|]. split.
  - apply forEach_draws, foliageParticle_draws.
  - reflexivity.
Qed.

(** X15: the photo panels wind down the tree: of two slots the later one
    sits strictly lower and strictly farther from the axis, every panel
    hangs at 1.1 times the foliage shell's radius for its height, and every
    chaos position is within 12 units of the centre. *)
Theorem X15_polaroid_panels_wind_down (random : nat -> R) (k i j : nat) :
  (forall n, 0 <= random n < 1) ->
  (i < j)%nat -> (j < ParticleTree.polaroidCount)%nat ->
  exists di dj,
    nth_error (fst (Polaroids.data random k)) i = Some di
    /\ nth_error (fst (Polaroids.data random k)) j = Some dj
    /\ vy (ParticleTree.target dj) < vy (ParticleTree.target di)
    /\ Geometry.axisDistance (ParticleTree.target di)
       < Geometry.axisDistance (ParticleTree.target dj)
    /\ Geometry.axisDistance (ParticleTree.target dj)
       = 11 / 10 * (ParticleTree.TREE_WIDTH
                    * (1 - (vy (ParticleTree.target dj)
                            + ParticleTree.TREE_HEIGHT / 2)
                           / ParticleTree.TREE_HEIGHT))
    /\ Vec3.length (ParticleTree.chaos dj) <= 12.
Proof.
  intros Hrand Hij Hj. unfold Polaroids.data.
  assert (Hdraws : forall a b,
             snd (ParticleTree.polaroidData random ParticleTree.polaroidCount a b)
             = (b + 5)%nat)
    by (intros; now rewrite polaroidData_unfold).
  rewrite !(forEach_nth _ 5%nat Hdraws) by lia.
  do 2 eexists. split; [reflexivity|]. split; [reflexivity|].
  rewrite !polaroidData_unfold.
  cbn [fst ParticleTree.target ParticleTree.chaos].
  pose proof (shell_fraction_bounds ParticleTree.polaroidCount (0 + i)) as Hqi.
  pose proof (shell_fraction_bounds ParticleTree.polaroidCount (0 + j)) as Hqj.
  pose proof (shell_fraction_increasing ParticleTree.polaroidCount
                (0 + i) (0 + j)) as Hinc.
  set (qi := sqrt ((INR (0 + i) + 1) / (INR ParticleTree.polaroidCount + 1))) in *.
  set (qj := sqrt ((INR (0 + j) + 1) / (INR ParticleTree.polaroidCount + 1))) in *.
  assert (Hi' : 0 < qi < 1) by (apply Hqi; lia).
  assert (Hj' : 0 < qj < 1) by (apply Hqj; lia).
  assert (Hlt : qi < qj) by (apply Hinc; lia).
  rewrite !axisDistance_getTreePos
    by (unfold ParticleTree.TREE_WIDTH; lra).
  pose proof (getChaosPos_shell random Hrand 12 0 (k + 5 * j)%nat) as Hc.
  unfold ParticleTree.getTreePos, ParticleTree.TREE_WIDTH,
    ParticleTree.TREE_HEIGHT. cbn [vy].
  repeat split; lra.
Qed.

Lemma X15_polaroid_panels_wind_down_witness :
  let random := fun _ : nat => / 4 in
  exists di dj,
    nth_error (fst (Polaroids.data random 0%nat)) 0 = Some di
    /\ nth_error (fst (Polaroids.data random 0%nat)) 47 = Some dj
    /\ vy (ParticleTree.target dj) < vy (ParticleTree.target di)
    /\ Geometry.axisDistance (ParticleTree.target di)
       < Geometry.axisDistance (ParticleTree.target dj)
    /\ Geometry.axisDistance (ParticleTree.target dj)
       = 11 / 10 * (ParticleTree.TREE_WIDTH
                    * (1 - (vy (ParticleTree.target dj)
                            + ParticleTree.TREE_HEIGHT / 2)
                           / ParticleTree.TREE_HEIGHT))
    /\ Vec3.length (ParticleTree.chaos dj) <= 12.
Proof.
  intros random.
  apply (X15_polaroid_panels_wind_down random 0 0 47).
  - intros n. unfold random. lra.
  - lia.
  - unfold ParticleTree.polaroidCount. lia.
Defined.

(** ** Ornaments, gifts and text particles *)

Section OrnamentFacts.

Variable random : nat -> R.





Lemma sqrt_unit_interval (u : R) : 0 <= u < 1 -> 0 <= sqrt u < 1.
Proof.
  intros Hu. split; [apply sqrt_pos|].
  assert (H1 : sqrt u < sqrt 1) by (apply sqrt_lt_1; lra).
  now rewrite sqrt_1 in H1.
Qed.

End OrnamentFacts.



Section GiftFacts.

Variable random : nat -> R.
Hypothesis random_range : forall j, 0 <= random j < 1.

Lemma basePile_unfold (k : nat) :
  DynamicGifts.basePile random k
  = (let r := random (k + 1)%nat * (22 / 10) + 12 / 10 in
     mkVector3 (cos (random k * PI * 2) * r)
               (- ParticleTree.TREE_HEIGHT / 2
                + random (k + 2)%nat * (8 / 10) - 2 / 10)
               (sin (random k * PI * 2) * r),
     (k + 3)%nat).
Proof.
  replace (k + 1)%nat with (S k) by lia.
  replace (k + 2)%nat with (S (S k)) by lia.
  replace (k + 3)%nat with (S (S (S k))) by lia.
  reflexivity.
Qed.

Lemma interiorFill_unfold (k : nat) :
  DynamicGifts.interiorFill random k
  = (let t := random k * (75 / 100) in
     let r := sqrt (random (k + 1)%nat)
              * (ParticleTree.TREE_WIDTH * (85 / 100) * (1 - t)) in
     mkVector3 (r * cos (random (k + 2)%nat * PI * 2))
               (ParticleTree.TREE_HEIGHT * t - ParticleTree.TREE_HEIGHT / 2)
               (r * sin (random (k + 2)%nat * PI * 2)),
     (k + 3)%nat).
Proof.
  replace (k + 1)%nat with (S k) by lia.
  replace (k + 2)%nat with (S (S k)) by lia.
  replace (k + 3)%nat with (S (S (S k))) by lia.
  reflexivity.
Qed.

Lemma gift_unfold (i k : nat) :
  DynamicGifts.gift random i k
  = (match JS.arrayGet DynamicGifts.palettes
             (JS.floor (random (k + 7)%nat
                        * INR (List.length DynamicGifts.palettes))) with
     | Some (box, ribbon) =>
         Some (DynamicGifts.mkGift
                 (GiftBox.mkProps
                    (fst ((if JS.Rltb (INR i) (INR DynamicGifts.count / 2)
                           then DynamicGifts.basePile random
                           else DynamicGifts.interiorFill random) k))
                    (fst (ParticleTree.getChaosPos random 25 (2 / 10) (k + 3)%nat))
                    (random (k + 6)%nat * (4 / 10) + 3 / 10)
                    (mkEuler (random (k + 8)%nat * (5 / 10))
                             (random (k + 9)%nat * PI * 2)
                             (random (k + 10)%nat * (5 / 10))))
                 box ribbon)
     | None => None
     end,
     (k + 11)%nat).
Proof.
  replace (k + 3)%nat with (S (S (S k))) by lia.
  replace (k + 6)%nat with (S (S (S (S (S (S k)))))) by lia.
  replace (k + 7)%nat with (S (S (S (S (S (S (S k))))))) by lia.
  replace (k + 8)%nat with (S (S (S (S (S (S (S (S k)))))))) by lia.
  replace (k + 9)%nat with (S (S (S (S (S (S (S (S (S k))))))))) by lia.
  replace (k + 10)%nat with (S (S (S (S (S (S (S (S (S (S k)))))))))) by lia.
  replace (k + 11)%nat with (S (S (S (S (S (S (S (S (S (S (S k))))))))))) by lia.
  unfold DynamicGifts.gift.
  destruct (JS.Rltb (INR i) (INR DynamicGifts.count / 2)); reflexivity.
Qed.

Lemma gift_draws (i k : nat) :
  snd (DynamicGifts.gift random i k) = (k + 11)%nat.
Proof. now rewrite gift_unfold. Qed.

(** [Math.floor(u * 6)] is an index of the six palettes. *)
Lemma palette_index (u : R) :
  0 <= u < 1 ->
  exists theme,
    JS.arrayGet DynamicGifts.palettes
      (JS.floor (u * INR (List.length DynamicGifts.palettes))) = Some theme
    /\ In theme DynamicGifts.palettes.
Proof.
  intros Hu. unfold JS.floor, JS.arrayGet.
  replace (INR (List.length DynamicGifts.palettes)) with 6 by (simpl; lra).
  destruct (base_Int_part (u * 6)) as [Hlo Hhi].
  set (n := Int_part (u * 6)) in *.
  assert (Hn : (0 <= n < 6)%Z).
  { split.
    - apply Z.lt_succ_r, lt_IZR. rewrite succ_IZR. lra.
    - apply lt_IZR. lra. }
  destruct (Z.ltb_spec n 0) as [Hneg | _]; [lia|].
  assert (Hlen : (Z.to_nat n < List.length DynamicGifts.palettes)%nat)
    by (simpl; lia).
  destruct (nth_error DynamicGifts.palettes (Z.to_nat n)) as [theme|] eqn:E.
  - exists theme. split; [reflexivity|]. now apply nth_error_In in E.
  - apply nth_error_None in E. lia.
Qed.

Lemma isBase_iff (i : nat) :
  JS.Rltb (INR i) (INR DynamicGifts.count / 2) = true <-> (i < 70)%nat.
Proof.
  unfold JS.Rltb. rewrite Rgtb_true.
  replace (INR DynamicGifts.count / 2) with (INR 70)
    by (unfold DynamicGifts.count; rewrite !INR_IZR_INZ; simpl; lra).
  split; [apply INR_lt | apply lt_INR].
Qed.

End GiftFacts.

(** X17: building a gift never throws: the palette index
    [Math.floor(random * 6)] always names one of the six palettes; every
    gift takes 11 draws, has its chaos position between 5 and 25 units from
    the centre and a scale in [[0.3, 0.7)], and the array holds 140 gifts. *)
Theorem X17_gift_generation_total (random : nat -> R) (i k : nat) :
  (forall j, 0 <= random j < 1) -> (i < DynamicGifts.count)%nat ->
  exists g,
    nth_error (fst (DynamicGifts.gifts random k)) i = Some (Some g)
    /\ In (DynamicGifts.boxColor g, DynamicGifts.ribbonColor g)
          DynamicGifts.palettes
    /\ 5 <= Vec3.length (GiftBox.chaos (DynamicGifts.props g)) <= 25
    /\ 3 / 10 <= GiftBox.scale (DynamicGifts.props g) < 7 / 10
    /\ List.length (fst (DynamicGifts.gifts random k)) = 140%nat
    /\ snd (DynamicGifts.gifts random k) = (k + 11 * 140)%nat.
Proof.
  intros Hrand Hi. unfold DynamicGifts.gifts.
  rewrite (forEach_nth _ 11%nat (gift_draws random)) by exact Hi.
  rewrite gift_unfold. cbn [fst].
  set (K := (k + 11 * i)%nat).
  destruct (palette_index (random (K + 7)%nat) (Hrand _)) as ([box ribbon] & -> & Hin).
  eexists. split; [reflexivity|].
  cbn [DynamicGifts.boxColor DynamicGifts.ribbonColor DynamicGifts.props
       GiftBox.chaos GiftBox.scale].
  pose proof (getChaosPos_shell random Hrand 25 (2 / 10) (K + 3)%nat) as Hc.
  pose proof (Hrand (K + 6)%nat) as Hs.
  split; [exact Hin|]. split; [lra|]. split; [lra|]. split.
  - apply forEach_length.
  - apply (forEach_draws _ 11%nat (gift_draws random)).
Qed.

Lemma X17_gift_generation_total_witness :
  let random := fun _ : nat => 99 / 100 in
  exists g,
    nth_error (fst (DynamicGifts.gifts random 0%nat)) 139 = Some (Some g)
    /\ In (DynamicGifts.boxColor g, DynamicGifts.ribbonColor g)
          DynamicGifts.palettes
    /\ 5 <= Vec3.length (GiftBox.chaos (DynamicGifts.props g)) <= 25
    /\ 3 / 10 <= GiftBox.scale (DynamicGifts.props g) < 7 / 10
    /\ List.length (fst (DynamicGifts.gifts random 0%nat)) = 140%nat
    /\ snd (DynamicGifts.gifts random 0%nat) = (0 + 11 * 140)%nat.
Proof.
  intros random.
  apply (X17_gift_generation_total random 139 0).
  - intros j. unfold random. lra.
  - unfold DynamicGifts.count. lia.
Defined.

(** X18: the first 70 gifts form the base pile, a ring between 1.2 and 3.4
    units from the tree axis at heights from -3.7 to -2.9 (the tree's foot
    is at -3.5); the other 70 fill the interior: at heights from -3.5 up to
    1.75, each within the cone of 0.85 times the tree's width at its
    height. *)
Theorem X18_gift_positions (random : nat -> R) (i k : nat) :
  (forall j, 0 <= random j < 1) -> (i < DynamicGifts.count)%nat ->
  exists g,
    nth_error (fst (DynamicGifts.gifts random k)) i = Some (Some g)
    /\ let tgt := GiftBox.target (DynamicGifts.props g) in
       ((i < 70)%nat ->
          12 / 10 <= Geometry.axisDistance tgt < 34 / 10
          /\ - (37 / 10) <= vy tgt < - (29 / 10))
       /\ ((70 <= i)%nat ->
          Geometry.axisDistance tgt
          <= PlacementSpec.coneRadiusAt (ParticleTree.TREE_WIDTH * (85 / 100)) tgt
          /\ - (35 / 10) <= vy tgt < 175 / 100).
Proof.
  intros Hrand Hi. unfold DynamicGifts.gifts.
  rewrite (forEach_nth _ 11%nat (gift_draws random)) by exact Hi.
  rewrite gift_unfold. cbn [fst].
  set (K := (k + 11 * i)%nat).
  destruct (palette_index (random (K + 7)%nat) (Hrand _)) as ([box ribbon] & -> & _).
  eexists. split; [reflexivity|].
  cbn [DynamicGifts.props GiftBox.target]. cbv zeta.
  replace (0 + i)%nat with i by lia.
  pose proof (isBase_iff i) as Hbase.
  destruct (JS.Rltb (INR i) (INR DynamicGifts.count / 2)).
  - assert (Hlt : (i < 70)%nat) by (now apply Hbase).
    split; [|intros; lia]. intros _.
    rewrite basePile_unfold. cbv zeta. cbn [fst].
    pose proof (Hrand (K + 1)%nat) as Hr. pose proof (Hrand (K + 2)%nat) as Hy.
    set (r := random (K + 1)%nat * (22 / 10) + 12 / 10).
    replace (mkVector3 (cos (random K * PI * 2) * r)
               (- ParticleTree.TREE_HEIGHT / 2 + random (K + 2)%nat * (8 / 10) - 2 / 10)
               (sin (random K * PI * 2) * r))
      with (mkVector3 (r * cos (random K * PI * 2))
               (- ParticleTree.TREE_HEIGHT / 2 + random (K + 2)%nat * (8 / 10) - 2 / 10)
               (r * sin (random K * PI * 2)))
      by (f_equal; ring).
    rewrite axisDistance_polar by (unfold r; lra).
    cbn [vy]. unfold r, ParticleTree.TREE_HEIGHT. lra.
  - assert (Hge : ~ (i < 70)%nat) by (intros H; apply Hbase in H; discriminate).
    split; [intros; lia|]. intros _.
    rewrite interiorFill_unfold. cbv zeta. cbn [fst].
    pose proof (Hrand K) as Ht.
    pose proof (sqrt_unit_interval _ (Hrand (K + 1)%nat)) as Hs.
    unfold PlacementSpec.coneRadiusAt, ParticleTree.TREE_WIDTH,
      ParticleTree.TREE_HEIGHT.
    rewrite axisDistance_polar by nra.
    cbn [vy]. split; [nra | lra].
Qed.

Lemma X18_gift_positions_witness :
  let random := fun _ : nat => / 2 in
  exists g,
    nth_error (fst (DynamicGifts.gifts random 0%nat)) 70 = Some (Some g)
    /\ let tgt := GiftBox.target (DynamicGifts.props g) in
       ((70 < 70)%nat ->
          12 / 10 <= Geometry.axisDistance tgt < 34 / 10
          /\ - (37 / 10) <= vy tgt < - (29 / 10))
       /\ ((70 <= 70)%nat ->
          Geometry.axisDistance tgt
          <= PlacementSpec.coneRadiusAt (ParticleTree.TREE_WIDTH * (85 / 100)) tgt
          /\ - (35 / 10) <= vy tgt < 175 / 100).
Proof.
  intros random.
  apply (X18_gift_positions random 70 0).
  - intros j. unfold random. lra.
  - unfold DynamicGifts.count. lia.
Defined.

Section TextFacts.

Lemma length_multiplyScalar (v : Vector3) (c : R) :
  Vec3.length (Vector3Ops.multiplyScalar v c) = Rabs c * Vec3.length v.
Proof.
  unfold Vec3.length, Vector3Ops.multiplyScalar. cbn [vx vy vz].
  replace (vx v * c * (vx v * c) + vy v * c * (vy v * c) + vz v * c * (vz v * c))
    with (Rsqr c * (vx v * vx v + vy v * vy v + vz v * vz v))
    by (unfold Rsqr; ring).
  rewrite sqrt_mult_alt by apply Rle_0_sqr.
  now rewrite sqrt_Rsqr_abs.
Qed.

Lemma length_nonneg (v : Vector3) : 0 <= Vec3.length v.
Proof. apply sqrt_pos. Qed.

Lemma sum_three_squares_nonneg (a b c : R) : 0 <= a * a + b * b + c * c.
Proof. nra. Qed.

Lemma length_zero_iff (v : Vector3) :
  Vec3.length v = 0 <-> vx v = 0 /\ vy v = 0 /\ vz v = 0.
Proof.
  unfold Vec3.length. split.
  - intros H. apply sqrt_eq_0 in H; [|apply sum_three_squares_nonneg].
    repeat split; nra.
  - intros (-> & -> & ->).
    replace (0 * 0 + 0 * 0 + 0 * 0) with 0 by ring. apply sqrt_0.
Qed.

(** [normalize] gives a unit vector, except on the zero vector, which it
    leaves as it is. *)
Lemma normalize_length (v : Vector3) :
  Vec3.length v <> 0 -> Vec3.length (Vector3Ops.normalize v) = 1.
Proof.
  intros Hne. unfold Vector3Ops.normalize, Vector3Ops.divideScalar.
  destruct (Req_dec_T (Vec3.length v) 0) as [Hz | _]; [contradiction|].
  rewrite length_multiplyScalar.
  pose proof (length_nonneg v) as Hpos.
  rewrite Rabs_right.
  - field. exact Hne.
  - apply Rle_ge. unfold Rdiv. rewrite Rmult_1_l.
    apply Rlt_le, Rinv_0_lt_compat. lra.
Qed.

Lemma normalize_zero (v : Vector3) :
  Vec3.length v = 0 -> Vector3Ops.normalize v = mkVector3 0 0 0.
Proof.
  intros Hz. unfold Vector3Ops.normalize, Vector3Ops.divideScalar.
  destruct (Req_dec_T (Vec3.length v) 0) as [_ | Hne]; [|contradiction].
  apply length_zero_iff in Hz. destruct Hz as (Hx & Hy & Hz).
  unfold Vector3Ops.multiplyScalar. rewrite Hx, Hy, Hz. f_equal; lra.
Qed.

Lemma particle_unfold (random : nat -> R) (sample : Rand.t Vector3) (k : nat) :
  ParticleText.particle random sample k
  = (let tempPos := fst (sample k) in
     let k1 := snd (sample k) in
     let direction :=
       Vector3Ops.normalize
         (mkVector3 (random k1 - 5 / 10) (random (k1 + 1)%nat - 5 / 10)
                    (random (k1 + 2)%nat - 5 / 10)) in
     ParticleTree.mkParticle tempPos
       (Vector3Ops.add tempPos
          (Vector3Ops.multiplyScalar direction (random (k1 + 3)%nat * 20 + 8)))
       (random (k1 + 4)%nat),
     (snd (sample k) + 5)%nat).
Proof.
  unfold ParticleText.particle, Rand.bind, Rand.ret, ParticleTree.Math_random.
  destruct (sample k) as [tempPos k1]. cbn [fst snd]. cbv zeta.
  replace (k1 + 1)%nat with (S k1) by lia.
  replace (k1 + 2)%nat with (S (S k1)) by lia.
  replace (k1 + 3)%nat with (S (S (S k1))) by lia.
  replace (k1 + 4)%nat with (S (S (S (S k1)))) by lia.
  replace (k1 + 5)%nat with (S (S (S (S (S k1))))) by lia.
  reflexivity.
Qed.

Lemma sub_add_cancel (a b : Vector3) :
  Vector3Ops.sub (Vector3Ops.add a b) a = b.
Proof.
  unfold Vector3Ops.sub, Vector3Ops.add. cbn [vx vy vz].
  destruct b as [bx by_ bz]. cbn [vx vy vz]. f_equal; ring.
Qed.

End TextFacts.

(** X19: a text particle keeps the sampled surface point as its formed
    position; its chaos position lies at distance [random * 20 + 8], between
    8 and 28 units, from that point, except when the three direction draws
    are all exactly 0.5: then the direction is the zero vector, which
    [normalize] leaves as it is, and the chaos position is the formed
    position itself. *)
Theorem X19_text_particle_scatter (random : nat -> R)
  (sample : Rand.t Vector3) (k : nat) :
  (forall j, 0 <= random j < 1) ->
  let p := fst (ParticleText.particle random sample k) in
  let k1 := snd (sample k) in
  let offset :=
    Vector3Ops.sub (ParticleTree.aChaosPos p) (ParticleTree.aTargetPos p) in
  ParticleTree.aTargetPos p = fst (sample k)
  /\ (PlacementSpec.degenerateDirection random k1 ->
      ParticleTree.aChaosPos p = ParticleTree.aTargetPos p)
  /\ (~ PlacementSpec.degenerateDirection random k1 ->
      Vec3.length offset = random (k1 + 3)%nat * 20 + 8
      /\ 8 <= Vec3.length offset < 28).
Proof.
  intros Hrand p k1 offset. unfold offset, p.
  rewrite particle_unfold. cbv zeta.
  cbn [fst ParticleTree.aTargetPos ParticleTree.aChaosPos].
  fold k1. rewrite sub_add_cancel.
  set (dir := mkVector3 (random k1 - 5 / 10) (random (k1 + 1)%nat - 5 / 10)
                        (random (k1 + 2)%nat - 5 / 10)).
  assert (Hdeg : Vec3.length dir = 0 <-> PlacementSpec.degenerateDirection random k1).
  { rewrite length_zero_iff. unfold dir, PlacementSpec.degenerateDirection.
    cbn [vx vy vz]. split; intros (H1 & H2 & H3); repeat split; lra. }
  pose proof (Hrand (k1 + 3)%nat) as H4.
  split; [reflexivity|]. split.
  - intros Hd. apply Hdeg in Hd. rewrite (normalize_zero dir Hd).
    unfold Vector3Ops.add, Vector3Ops.multiplyScalar. cbn [vx vy vz].
    destruct (fst (sample k)) as [a b c]. cbn [vx vy vz]. f_equal; ring.
  - intros Hnd.
    assert (Hne : Vec3.length dir <> 0) by (intros H; apply Hnd, Hdeg, H).
    rewrite length_multiplyScalar, (normalize_length dir Hne), Rmult_1_r.
    rewrite Rabs_right by lra. lra.
Qed.

Lemma X19_text_particle_scatter_witness :
  let random := fun _ : nat => / 4 in
  let sample := ShaderSpec.fixedSample (mkVector3 1 2 3) in
  let p := fst (ParticleText.particle random sample 0%nat) in
  let k1 := snd (sample 0%nat) in
  let offset :=
    Vector3Ops.sub (ParticleTree.aChaosPos p) (ParticleTree.aTargetPos p) in
  ParticleTree.aTargetPos p = fst (sample 0%nat)
  /\ (PlacementSpec.degenerateDirection random k1 ->
      ParticleTree.aChaosPos p = ParticleTree.aTargetPos p)
  /\ (~ PlacementSpec.degenerateDirection random k1 ->
      Vec3.length offset = random (k1 + 3)%nat * 20 + 8
      /\ 8 <= Vec3.length offset < 28).
Proof.
  intros random sample.
  apply (X19_text_particle_scatter random sample 0%nat).
  intros j. unfold random. lra.
Defined.

(** ** The shaders and their uniforms *)

Section ShaderFacts.

Lemma easeOutCubic_range (u : R) :
  0 <= u <= 1 ->
  0 <= Shaders.easeOutCubic u <= 1 /\ u <= Shaders.easeOutCubic u.
Proof.
  intros Hu. unfold Shaders.easeOutCubic.
  assert (H1 : 0 <= (1 - u) ^ 3) by (apply pow_le; lra).
  assert (H2 : (1 - u) ^ 3 <= 1 - u).
  { simpl. rewrite Rmult_1_r.
    assert (0 <= (1 - u) * (1 - u) <= 1) by nra. nra. }
  lra.
Qed.

Lemma easeOutCubic_monotone (u v : R) :
  0 <= u <= v -> v <= 1 -> Shaders.easeOutCubic u <= Shaders.easeOutCubic v.
Proof.
  intros Huv Hv. unfold Shaders.easeOutCubic.
  assert (H : (1 - v) ^ 3 <= (1 - u) ^ 3) by (apply pow_incr; lra).
  lra.
Qed.

Lemma sin_scaled (a c : R) : 0 <= c -> Rabs (sin a * c) <= c.
Proof.
  intros Hc. pose proof (SIN_bound a) as [Hlo Hhi].
  apply Rabs_le.
  assert (H1 : sin a * c <= 1 * c) by (apply Rmult_le_compat_r; lra).
  assert (H2 : (-1) * c <= sin a * c) by (apply Rmult_le_compat_r; lra).
  lra.
Qed.

Lemma mix_between (a b m : R) :
  0 <= m <= 1 -> Geometry.between a b (Shaders.mix a b m).
Proof.
  intros Hm. unfold Shaders.mix.
  replace (a * (1 - m) + b * m) with (a + (b - a) * m) by ring.
  now apply lerp_between.
Qed.

Lemma blend_inBox (u : R) (a b : Vector3) :
  0 <= u <= 1 -> Geometry.inBox a b (ShaderSpec.blend u a b).
Proof.
  intros Hu. destruct (easeOutCubic_range u Hu) as [Hm _].
  unfold ShaderSpec.blend, Shaders.mix3, Geometry.inBox. cbn [vx vy vz].
  repeat split; apply mix_between; exact Hm.
Qed.

End ShaderFacts.

(** X20: for a progress uniform in [[0, 1]] the eased factor
    [m = 1 - (1 - u)^3] is in [[0, 1]], at least [u], and monotone; the
    foliage shader places the particle within [0.03 (1 - m) + 0.15 m] of the
    blend of its two stored positions on the x axis and within [0.15 m] on
    the other two, and the blend lies in the box spanned by the two
    positions: at [u = 0] the particle sits at its formed position, up to a
    sway of 0.03 along x. *)
Theorem X20_foliage_shader_position (uTime u : R) (aTargetPos aChaosPos : Vector3)
  (aRandom : R) :
  0 <= u <= 1 ->
  let m := Shaders.easeOutCubic u in
  let blend := ShaderSpec.blend u aTargetPos aChaosPos in
  let pos := Shaders.foliagePosition uTime u aTargetPos aChaosPos aRandom in
  0 <= m <= 1 /\ u <= m
  /\ (forall v, u <= v <= 1 -> m <= Shaders.easeOutCubic v)
  /\ Geometry.inBox aTargetPos aChaosPos blend
  /\ Rabs (vx pos - vx blend) <= 3 / 100 * (1 - m) + 15 / 100 * m
  /\ Rabs (vy pos - vy blend) <= 15 / 100 * m
  /\ Rabs (vz pos - vz blend) <= 15 / 100 * m
  /\ (u = 0 -> vy pos = vy aTargetPos /\ vz pos = vz aTargetPos
               /\ Rabs (vx pos - vx aTargetPos) <= 3 / 100).
Proof.
  intros Hu m blend pos.
  destruct (easeOutCubic_range u Hu) as [Hm Hum]. fold m in Hm, Hum.
  split; [exact Hm|]. split; [exact Hum|]. split.
  { intros v Hv. apply easeOutCubic_monotone; lra. }
  split; [now apply blend_inBox|].
  unfold pos, blend, Shaders.foliagePosition, ShaderSpec.blend. cbv zeta.
  fold m. cbn [vx vy vz].
  set (b := Shaders.mix3 aTargetPos aChaosPos m).
  set (sway := sin (uTime * (15 / 10) + vy b * 2) * (3 / 100) * (1 - m)).
  set (floaty := sin (uTime + aRandom * 20) * (15 / 100) * m).
  assert (Hsway : Rabs sway <= 3 / 100 * (1 - m)).
  { unfold sway. rewrite Rmult_assoc. apply sin_scaled. nra. }
  assert (Hfloaty : Rabs floaty <= 15 / 100 * m).
  { unfold floaty. rewrite Rmult_assoc. apply sin_scaled. nra. }
  split.
  { replace (vx b + (sway + floaty) - vx b) with (sway + floaty) by ring.
    eapply Rle_trans; [apply Rabs_triang|]. lra. }
  split.
  { now replace (vy b + floaty - vy b) with floaty by ring. }
  split.
  { now replace (vz b + floaty - vz b) with floaty by ring. }
  intros H0.
  assert (Hm0 : m = 0) by (unfold m, Shaders.easeOutCubic; rewrite H0; ring).
  assert (Hf0 : floaty = 0) by (unfold floaty; rewrite Hm0; ring).
  assert (Hb : b = aTargetPos).
  { unfold b, Shaders.mix3, Shaders.mix. rewrite Hm0.
    destruct aTargetPos as [tx ty tz]. cbn [vx vy vz]. f_equal; ring. }
  rewrite Hf0, Hb. rewrite Hm0 in Hsway.
  repeat split; try ring.
  replace (vx aTargetPos + (sway + 0) - vx aTargetPos) with sway by ring.
  lra.
Qed.

Lemma X20_foliage_shader_position_witness :
  let u := 1 / 2 in
  let a := mkVector3 1 2 3 in
  let c := mkVector3 10 (- 12) 14 in
  let m := Shaders.easeOutCubic u in
  let blend := ShaderSpec.blend u a c in
  let pos := Shaders.foliagePosition 7 u a c (1 / 3) in
  0 <= m <= 1 /\ u <= m
  /\ (forall v, u <= v <= 1 -> m <= Shaders.easeOutCubic v)
  /\ Geometry.inBox a c blend
  /\ Rabs (vx pos - vx blend) <= 3 / 100 * (1 - m) + 15 / 100 * m
  /\ Rabs (vy pos - vy blend) <= 15 / 100 * m
  /\ Rabs (vz pos - vz blend) <= 15 / 100 * m
  /\ (u = 0 -> vy pos = vy a /\ vz pos = vz a
               /\ Rabs (vx pos - vx a) <= 3 / 100).
Proof.
  intros u a c.
  apply (X20_foliage_shader_position 7 u a c (1 / 3)).
  unfold u. lra.
Defined.

(** X21: the text shader leaves x and z at the blend while the eased factor
    [m] is at most 0.01 and adds only a vertical sway of at most
    [0.02 (1 - m)]; above 0.01 it adds the same jitter
    [(aRandom - 0.5) * 5 m], of absolute value at most [2.5 m], to all three
    coordinates. *)
Theorem X21_text_shader_position (uTime u : R) (aTargetPos aChaosPos : Vector3)
  (aRandom : R) :
  0 <= u <= 1 -> 0 <= aRandom < 1 ->
  let m := Shaders.easeOutCubic u in
  let blend := ShaderSpec.blend u aTargetPos aChaosPos in
  let pos := Shaders.textPosition uTime u aTargetPos aChaosPos aRandom in
  (m <= 1 / 100 ->
     vx pos = vx blend /\ vz pos = vz blend
     /\ Rabs (vy pos - vy blend) <= 2 / 100 * (1 - m))
  /\ (1 / 100 < m ->
     vx pos - vx blend = (aRandom - 5 / 10) * m * 5
     /\ vz pos - vz blend = (aRandom - 5 / 10) * m * 5
     /\ Rabs (vx pos - vx blend) <= 25 / 10 * m
     /\ Rabs (vy pos - vy blend) <= 2 / 100 * (1 - m) + 25 / 10 * m).
Proof.
  intros Hu Hr m blend pos.
  destruct (easeOutCubic_range u Hu) as [Hm _]. fold m in Hm.
  unfold pos, blend, Shaders.textPosition, ShaderSpec.blend. cbv zeta.
  fold m.
  set (b := Shaders.mix3 aTargetPos aChaosPos m).
  set (sway := sin (uTime + vx b) * (2 / 100) * (1 - m)).
  set (jitter := (aRandom - 5 / 10) * m * 5).
  assert (Hsway : Rabs sway <= 2 / 100 * (1 - m)).
  { unfold sway. rewrite Rmult_assoc. apply sin_scaled. nra. }
  assert (Hjit : Rabs jitter <= 25 / 10 * m).
  { unfold jitter. apply Rabs_le. nra. }
  split.
  - intros Hle. rewrite (proj2 (Rgtb_false m (1 / 100)) Hle). cbn [vx vy vz].
    repeat split.
    now replace (vy b + sway - vy b) with sway by ring.
  - intros Hgt. rewrite (proj2 (Rgtb_true m (1 / 100)) Hgt). cbn [vx vy vz].
    split; [ring|]. split; [ring|]. split.
    + now replace (vx b + jitter - vx b) with jitter by ring.
    + replace (vy b + sway + jitter - vy b) with (sway + jitter) by ring.
      eapply Rle_trans; [apply Rabs_triang|]. lra.
Qed.

Lemma X21_text_shader_position_witness :
  let u := 1 / 2 in
  let a := mkVector3 1 2 3 in
  let c := mkVector3 10 (- 12) 14 in
  let m := Shaders.easeOutCubic u in
  let blend := ShaderSpec.blend u a c in
  let pos := Shaders.textPosition 7 u a c (1 / 3) in
  (m <= 1 / 100 ->
     vx pos = vx blend /\ vz pos = vz blend
     /\ Rabs (vy pos - vy blend) <= 2 / 100 * (1 - m))
  /\ (1 / 100 < m ->
     vx pos - vx blend = (1 / 3 - 5 / 10) * m * 5
     /\ vz pos - vz blend = (1 / 3 - 5 / 10) * m * 5
     /\ Rabs (vx pos - vx blend) <= 25 / 10 * m
     /\ Rabs (vy pos - vy blend) <= 2 / 100 * (1 - m) + 25 / 10 * m).
Proof.
  intros u a c.
  apply (X21_text_shader_position 7 u a c (1 / 3)); unfold u; lra.
Defined.

Section UniformFacts.
Import PointsUniforms.

Lemma run_mounted_snoc (frames : list Frame) (f : Frame) (u : Uniforms) :
  run true (frames ++ [f]) u = frame true (run true frames u) f.
Proof. unfold run. now rewrite fold_left_app. Qed.

End UniformFacts.

(** X22: the progress uniform of the particle clouds follows the morph
    progress by a tenth of the gap per rendered frame, whatever the frame's
    duration: while the progress stays at [p], after [n] frames the gap is
    [0.9^n] times the initial gap, so the uniform stays between its start and
    [p]; an unmounted cloud leaves its uniforms alone. *)
Theorem X22_uniform_follows_progress (frames : list PointsUniforms.Frame)
  (p : R) (u : PointsUniforms.Uniforms) :
  Forall (fun f => PointsUniforms.progress f = p) frames ->
  PointsUniforms.uProgress (PointsUniforms.run true frames u) - p
  = (9 / 10) ^ List.length frames * (PointsUniforms.uProgress u - p)
  /\ Geometry.between (PointsUniforms.uProgress u) p
       (PointsUniforms.uProgress (PointsUniforms.run true frames u))
  /\ PointsUniforms.run false frames u = u.
Proof.
  intros H.
  assert (Hgap : PointsUniforms.uProgress (PointsUniforms.run true frames u) - p
                 = (9 / 10) ^ List.length frames * (PointsUniforms.uProgress u - p)).
  { revert u. unfold PointsUniforms.run.
    induction H as [| f frames Hf _ IH]; intros u.
    - cbn. ring.
    - cbn [fold_left List.length]. rewrite IH.
      unfold PointsUniforms.frame, MathUtils.lerp.
      cbn [PointsUniforms.uProgress pow]. rewrite Hf. field. }
  split; [exact Hgap|]. split.
  - assert (Hpow : 0 <= (9 / 10) ^ List.length frames <= 1).
    { split; [apply pow_le; lra|].
      rewrite <- (pow1 (List.length frames)). apply pow_incr. lra. }
    unfold Geometry.between, Rmin, Rmax.
    destruct (Rle_dec (PointsUniforms.uProgress u) p); nra.
  - unfold PointsUniforms.run. clear H Hgap.
    induction frames as [| f frames IH]; [reflexivity|]. exact IH.
Qed.

Lemma X22_uniform_follows_progress_witness :
  let frames := [PointsUniforms.mkFrame 1 (8 / 10);
                 PointsUniforms.mkFrame 2 (8 / 10)] in
  let u := PointsUniforms.initial in
  PointsUniforms.uProgress (PointsUniforms.run true frames u) - 8 / 10
  = (9 / 10) ^ List.length frames * (PointsUniforms.uProgress u - 8 / 10)
  /\ Geometry.between (PointsUniforms.uProgress u) (8 / 10)
       (PointsUniforms.uProgress (PointsUniforms.run true frames u))
  /\ PointsUniforms.run false frames u = u.
Proof.
  intros frames u.
  apply (X22_uniform_follows_progress frames (8 / 10) u).
  repeat constructor.
Defined.

(** ** The star, the image crop, the instance frames *)

Section StarFacts.
Import HolyStar.

Lemma star_frame_scale (g : Group) (f : Frame) :
  0 <= delta f <= / 3 -> 0 <= progress f <= 1 ->
  1 <= scale g <= 3 / 2 ->
  exists g',
    frame (Some g) f = Some g'
    /\ 1 <= scale g' <= 3 / 2
    /\ ex (rotation g') = ex (rotation g)
    /\ ey (rotation g') = ey (rotation g) + 5 / 10 * delta f
    /\ Rabs (ez (rotation g')) <= 5 / 100.
Proof.
  intros Hd Hp Hs. eexists. split; [reflexivity|].
  cbn [scale rotation ex ey ez]. unfold MathUtils.lerp.
  split; [nra|]. split; [reflexivity|]. split; [ring|].
  apply sin_scaled. lra.
Qed.

End StarFacts.

(** X23: over any run of frames with deltas of at most a third of a second
    and a morph progress in [[0, 1]], a mounted star keeps its scale in
    [[1, 1.5]] and its tilt about x, has turned about y by half the time the
    run covers, and (after at least one frame) wobbles about z by at most
    0.05 radians. *)
Theorem X23_star_frame_invariants (frames : list HolyStar.Frame)
  (g : HolyStar.Group) :
  Forall (fun f => 0 <= HolyStar.delta f <= / 3
                   /\ 0 <= HolyStar.progress f <= 1) frames ->
  1 <= HolyStar.scale g <= 3 / 2 ->
  exists g',
    HolyStar.run frames (Some g) = Some g'
    /\ 1 <= HolyStar.scale g' <= 3 / 2
    /\ ex (HolyStar.rotation g') = ex (HolyStar.rotation g)
    /\ ey (HolyStar.rotation g')
       = ey (HolyStar.rotation g) + 5 / 10 * StarSpec.totalDelta frames
    /\ (frames <> [] -> Rabs (ez (HolyStar.rotation g')) <= 5 / 100).
Proof.
  intros H. revert g. unfold HolyStar.run.
  induction H as [| f frames [Hd Hp] Hrest IH]; intros g Hs.
  - exists g. cbn. repeat split; try lra. intros Hne. contradiction.
  - destruct (star_frame_scale g f Hd Hp Hs) as (g1 & Hstep & Hs1 & Hx1 & Hy1 & Hz1).
    destruct (IH g1 Hs1) as (g' & Hrun & Hs' & Hx' & Hy' & Hz').
    exists g'. cbn [fold_left]. rewrite Hstep.
    split; [exact Hrun|]. split; [exact Hs'|]. split; [congruence|]. split.
    + rewrite Hy', Hy1. cbn [StarSpec.totalDelta fold_right].
      fold (StarSpec.totalDelta frames). ring.
    + intros _. destruct frames as [| f2 frames2].
      * cbn in Hrun. injection Hrun as <-. exact Hz1.
      * apply Hz'. discriminate.
Qed.

Lemma X23_star_frame_invariants_witness :
  let frames := [HolyStar.mkFrame 1 (/ 60) (3 / 10);
                 HolyStar.mkFrame (61 / 60) (/ 60) (35 / 100)] in
  exists g',
    HolyStar.run frames (Some StarSpec.mounted) = Some g'
    /\ 1 <= HolyStar.scale g' <= 3 / 2
    /\ ex (HolyStar.rotation g') = ex (HolyStar.rotation StarSpec.mounted)
    /\ ey (HolyStar.rotation g')
       = ey (HolyStar.rotation StarSpec.mounted)
         + 5 / 10 * StarSpec.totalDelta frames
    /\ (frames <> [] -> Rabs (ez (HolyStar.rotation g')) <= 5 / 100).
Proof.
  intros frames.
  apply (X23_star_frame_invariants frames StarSpec.mounted).
  - repeat constructor; simpl; lra.
  - simpl. lra.
Defined.

(** X24: whatever the image's size, the picture drawn on the 512 x 512
    canvas is the largest centred square of the image: its side is the
    smaller of width and height, it lies within the image with equal margins
    on both sides of each axis, and one of its offsets is zero; without a 2D
    context the image's own source is returned instead. *)
Theorem X24_compressImage_centre_crop (img : CompressImage.Image) :
  (exists sx sy side,
      CompressImage.compressImage img true
      = CompressImage.Jpeg 512 512 sx sy side side 0 0 512 512 (7 / 10)
      /\ side = Rmin (CompressImage.width img) (CompressImage.height img)
      /\ 0 <= sx /\ 0 <= sy
      /\ sx + side + sx = CompressImage.width img
      /\ sy + side + sy = CompressImage.height img
      /\ (sx = 0 \/ sy = 0))
  /\ CompressImage.compressImage img false
     = CompressImage.Original (CompressImage.src img).
Proof.
  split; [|reflexivity].
  do 3 eexists. split; [reflexivity|]. split; [reflexivity|].
  unfold Rmin.
  destruct (Rle_dec (CompressImage.width img) (CompressImage.height img)).
  - repeat split; lra.
  - repeat split; lra.
Qed.

Section InstanceFrameFacts.

Lemma between_refl_eq (a c : R) : Geometry.between a a c -> c = a.
Proof.
  unfold Geometry.between, Rmin, Rmax. destruct (Rle_dec a a); lra.
Qed.

Lemma mathutils_lerp_between (a b t : R) :
  0 <= t <= 1 -> Geometry.between a b (MathUtils.lerp a b t).
Proof.
  intros Ht. unfold MathUtils.lerp.
  replace ((1 - t) * a + t * b) with (a + (b - a) * t) by ring.
  now apply lerp_between.
Qed.

End InstanceFrameFacts.

(** X25: a frame of a mounted gift box with a delta of at most a fifth of a
    second moves every coordinate of the box between its previous value and
    the destination's (never past it) and sets the scale to
    [scale * (1 + 0.3 progress)]; while [progress <= 0.2] each rotation
    angle moves between its previous value and the box's rest angle, and
    once [progress > 0.2] the box spins about x and y by half the delta and
    keeps its angle about z, also while it is still heading home
    ([progress <= 0.5]). *)
Theorem X25_giftBox_frame (p : GiftBox.Props) (progress delta : R)
  (st : GiftBox.State) (g : GiftBox.Group) :
  GiftBox.groupRef st = Some g -> 0 <= delta <= / 5 ->
  exists g',
    GiftBox.groupRef (GiftBox.frame p progress delta st) = Some g'
    /\ GiftBox.position g' = GiftBox.currentPos (GiftBox.frame p progress delta st)
    /\ Geometry.inBox (GiftBox.currentPos st) (GiftBox.dest p progress)
                      (GiftBox.position g')
    /\ GiftBox.groupScale g' = GiftBox.scale p * (1 + progress * (3 / 10))
    /\ (progress <= 2 / 10 ->
        Geometry.between (ex (GiftBox.rotation g)) (ex (GiftBox.rot p))
                         (ex (GiftBox.rotation g'))
        /\ Geometry.between (ey (GiftBox.rotation g)) (ey (GiftBox.rot p))
                            (ey (GiftBox.rotation g'))
        /\ Geometry.between (ez (GiftBox.rotation g)) (ez (GiftBox.rot p))
                            (ez (GiftBox.rotation g')))
    /\ (2 / 10 < progress ->
        ex (GiftBox.rotation g') = ex (GiftBox.rotation g) + delta / 2
        /\ ey (GiftBox.rotation g') = ey (GiftBox.rotation g) + delta / 2
        /\ ez (GiftBox.rotation g') = ez (GiftBox.rotation g)).
Proof.
  intros Hg Hd. unfold GiftBox.frame. rewrite Hg. cbv zeta.
  eexists. split; [reflexivity|].
  cbn [GiftBox.position GiftBox.currentPos GiftBox.groupScale GiftBox.rotation].
  split; [reflexivity|]. split; [apply vec3_lerp_inBox; lra|].
  split; [reflexivity|]. split.
  - intros Hle. rewrite (proj2 (Rgtb_false progress (2 / 10)) Hle).
    cbn [ex ey ez]. repeat split; apply mathutils_lerp_between; lra.
  - intros Hgt. rewrite (proj2 (Rgtb_true progress (2 / 10)) Hgt).
    cbn [ex ey ez]. repeat split; lra.
Qed.

Lemma X25_giftBox_frame_witness :
  let p := GiftBox.mkProps (mkVector3 1 (- 3) 2) (mkVector3 10 12 (- 9))
                           (5 / 10) (mkEuler 0 1 0) in
  let g := GiftBox.mkGroup (mkVector3 4 0 1) (mkEuler (3 / 10) 2 (1 / 10)) (5 / 10) in
  let st := GiftBox.mkState (Some g) (mkVector3 4 0 1) in
  let progress := 3 / 10 in
  let delta := / 60 in
  exists g',
    GiftBox.groupRef (GiftBox.frame p progress delta st) = Some g'
    /\ GiftBox.position g' = GiftBox.currentPos (GiftBox.frame p progress delta st)
    /\ Geometry.inBox (GiftBox.currentPos st) (GiftBox.dest p progress)
                      (GiftBox.position g')
    /\ GiftBox.groupScale g' = GiftBox.scale p * (1 + progress * (3 / 10))
    /\ (progress <= 2 / 10 ->
        Geometry.between (ex (GiftBox.rotation g)) (ex (GiftBox.rot p))
                         (ex (GiftBox.rotation g'))
        /\ Geometry.between (ey (GiftBox.rotation g)) (ey (GiftBox.rot p))
                            (ey (GiftBox.rotation g'))
        /\ Geometry.between (ez (GiftBox.rotation g)) (ez (GiftBox.rot p))
                            (ez (GiftBox.rotation g')))
    /\ (2 / 10 < progress ->
        ex (GiftBox.rotation g') = ex (GiftBox.rotation g) + delta / 2
        /\ ey (GiftBox.rotation g') = ey (GiftBox.rotation g) + delta / 2
        /\ ez (GiftBox.rotation g') = ez (GiftBox.rotation g)).
Proof.
  intros p g st progress delta.
  apply (X25_giftBox_frame p progress delta st g); [reflexivity|].
  unfold delta. lra.
Defined.

(** X26: a frame of a mounted photo panel with a delta of at most a third
    of a second moves its scale between the previous value and the target
    (2 when [progress > 0.5], else 1), so a scale in [[1, 2]] stays in
    [[1, 2]], and moves every coordinate of the panel between its previous
    value and the destination's. *)
Theorem X26_polaroid_scale_and_position (d : ParticleTree.PolaroidData)
  (camera : Vector3) (progress delta : R) (st : SinglePolaroid.State)
  (g : SinglePolaroid.Group) :
  SinglePolaroid.groupRef st = Some g -> 0 <= delta <= / 3 ->
  1 <= SinglePolaroid.groupScale g <= 2 ->
  exists g',
    SinglePolaroid.groupRef (SinglePolaroid.frame d camera progress delta st)
    = Some g'
    /\ Geometry.between (SinglePolaroid.groupScale g)
                        (if Rgtb progress (5 / 10) then 2 else 1)
                        (SinglePolaroid.groupScale g')
    /\ 1 <= SinglePolaroid.groupScale g' <= 2
    /\ Geometry.inBox (SinglePolaroid.currentPos st)
                      (SinglePolaroid.dest d progress)
                      (SinglePolaroid.position g').
Proof.
  intros Hg Hd Hs. unfold SinglePolaroid.frame. rewrite Hg. cbv zeta.
  eexists. split; [reflexivity|].
  cbn [SinglePolaroid.groupScale SinglePolaroid.position].
  assert (Hb : Geometry.between (SinglePolaroid.groupScale g)
                 (if Rgtb progress (5 / 10) then 2 else 1)
                 (MathUtils.lerp (SinglePolaroid.groupScale g)
                    (if Rgtb progress (5 / 10) then 2 else 1) (delta * 3)))
    by (apply mathutils_lerp_between; lra).
  split; [exact Hb|]. split.
  - revert Hb. unfold Geometry.between, Rmin, Rmax.
    destruct (Rgtb progress (5 / 10));
      destruct (Rle_dec (SinglePolaroid.groupScale g) _); lra.
  - apply vec3_lerp_inBox. lra.
Qed.

Lemma X26_polaroid_scale_and_position_witness :
  let d := ParticleTree.mkPolaroidData (mkVector3 3 0 (- 1)) (mkVector3 6 6 6)
                                       (1 / 10) (- 1 / 10) in
  let g := SinglePolaroid.mkGroup (mkVector3 3 0 (- 1)) 1
                                  (SinglePolaroid.RotationSet 0 0 0) in
  let st := SinglePolaroid.mkState (Some g) (mkVector3 3 0 (- 1)) in
  let camera := mkVector3 0 2 14 in
  exists g',
    SinglePolaroid.groupRef (SinglePolaroid.frame d camera (6 / 10) (/ 60) st)
    = Some g'
    /\ Geometry.between (SinglePolaroid.groupScale g)
                        (if Rgtb (6 / 10) (5 / 10) then 2 else 1)
                        (SinglePolaroid.groupScale g')
    /\ 1 <= SinglePolaroid.groupScale g' <= 2
    /\ Geometry.inBox (SinglePolaroid.currentPos st)
                      (SinglePolaroid.dest d (6 / 10))
                      (SinglePolaroid.position g').
Proof.
  intros d g st camera.
  apply (X26_polaroid_scale_and_position d camera (6 / 10) (/ 60) st g).
  - reflexivity.
  - lra.
  - simpl. lra.
Defined.

(** X27: a frame of a mounted ornament with a delta of at most a third of a
    second moves every coordinate between its previous value and the
    destination's, scales the instance uniformly by
    [scaleBase * scale * (1 - 0.3 progress)] (so ornaments shrink towards
    chaos where gift boxes grow), and turns it about x and y by the delta. *)
Theorem X27_ornament_frame (d : OrnamentInstance.Data)
  (scaleBase progress delta : R) (st : OrnamentInstance.State)
  (inst : OrnamentInstance.Instance) :
  OrnamentInstance.ref st = Some inst -> 0 <= delta <= / 3 ->
  exists inst',
    OrnamentInstance.ref (OrnamentInstance.frame d scaleBase progress delta st)
    = Some inst'
    /\ Geometry.inBox (OrnamentInstance.currentPos st)
                      (OrnamentInstance.dest d progress)
                      (OrnamentInstance.position inst')
    /\ (let s := scaleBase * OrnamentInstance.scale d * (1 - progress * (3 / 10)) in
        OrnamentInstance.instanceScale inst' = mkVector3 s s s)
    /\ ex (OrnamentInstance.rotation inst')
       = ex (OrnamentInstance.rotation inst) + delta
    /\ ey (OrnamentInstance.rotation inst')
       = ey (OrnamentInstance.rotation inst) + delta
    /\ ez (OrnamentInstance.rotation inst') = ez (OrnamentInstance.rotation inst).
Proof.
  intros Hr Hd. unfold OrnamentInstance.frame. rewrite Hr. cbv zeta.
  eexists. split; [reflexivity|].
  cbn [OrnamentInstance.position OrnamentInstance.instanceScale
       OrnamentInstance.rotation ex ey ez].
  split; [apply vec3_lerp_inBox; lra|]. repeat split.
Qed.

Lemma X27_ornament_frame_witness :
  let d := OrnamentInstance.mkData (mkVector3 2 1 0) (mkVector3 (- 8) 5 14) 1 in
  let inst := OrnamentInstance.mkInstance (mkVector3 2 1 0) (mkEuler 0 0 0)
                                          (mkVector3 1 1 1) in
  let st := OrnamentInstance.mkState (Some inst) (mkVector3 2 1 0) in
  exists inst',
    OrnamentInstance.ref
      (OrnamentInstance.frame d (15 / 100) (6 / 10) (/ 60) st) = Some inst'
    /\ Geometry.inBox (OrnamentInstance.currentPos st)
                      (OrnamentInstance.dest d (6 / 10))
                      (OrnamentInstance.position inst')
    /\ (let s := 15 / 100 * OrnamentInstance.scale d * (1 - 6 / 10 * (3 / 10)) in
        OrnamentInstance.instanceScale inst' = mkVector3 s s s)
    /\ ex (OrnamentInstance.rotation inst')
       = ex (OrnamentInstance.rotation inst) + / 60
    /\ ey (OrnamentInstance.rotation inst')
       = ey (OrnamentInstance.rotation inst) + / 60
    /\ ez (OrnamentInstance.rotation inst') = ez (OrnamentInstance.rotation inst).
Proof.
  intros d inst st.
  apply (X27_ornament_frame d (15 / 100) (6 / 10) (/ 60) st inst);
    [reflexivity | lra].
Defined.
